(** * Sale and inventory consistency of the POS back office

    A shallow embedding of the stock-mutating operations of
    [core/serializers.py], [core/views.py] and [core/models.py]:
    sale creation, manual stock adjustment, purchase-order creation,
    receiving and cancellation, and sale cancellation.

    Tables are finite maps (rows addressed by primary key) or lists
    (rows that are only appended or filtered); every operation is a
    computation in a state-and-error monad over the store, and
    [transaction.atomic()] is a combinator that restores the store when
    its body raises. *)

From stdpp Require Import gmap strings list fin_maps.
From Stdlib Require Import ZArith Lia.

Local Open Scope Z_scope.

(** ** Decimal numbers

    A [decimal.Decimal] is a coefficient and a number of decimal places:
    [Decimal('5.00')] is [mk 500 2]. Sums and products are exact, as
    Python's are while the coefficient stays within the 28 digits of the
    default context; [line_amounts_within_precision] below bounds the
    amounts of a sale line that fits the [max_digits=10] columns. *)
Module Decimal.

Record t := mk { coef : Z; places : nat }.

#[global] Instance eq_dec : EqDecision t.
Proof. solve_decision. Defined.

Definition pow10 (n : nat) : Z := 10 ^ Z.of_nat n.

(** The coefficient of [d] written with [n] places, for [places d <= n]. *)
Definition scaled (n : nat) (d : t) : Z := coef d * pow10 (n - places d).

Definition of_int (z : Z) : t := mk z 0.

Definition add (a b : t) : t :=
  let n := Nat.max (places a) (places b) in
  mk (scaled n a + scaled n b) n.

Definition sub (a b : t) : t :=
  let n := Nat.max (places a) (places b) in
  mk (scaled n a - scaled n b) n.

Definition mul (a b : t) : t := mk (coef a * coef b) (places a + places b).

(** [x / Decimal('100')] and [x / 100]: the quotient is exact, two
    places further to the right. *)
Definition div100 (a : t) : t := mk (coef a) (places a + 2).

Definition ltb (a b : t) : bool :=
  let n := Nat.max (places a) (places b) in
  bool_decide (scaled n a < scaled n b).

(** Equality of values, whatever the number of places written. *)
Definition eqv (a b : t) : Prop :=
  let n := Nat.max (places a) (places b) in
  scaled n a = scaled n b.

#[global] Instance eqv_dec a b : Decision (eqv a b).
Proof. unfold eqv. apply _. Defined.

(** [n / d] rounded to the nearest integer, ties to the even one
    ([ROUND_HALF_EVEN], the rounding of the default context). *)
Definition round_half_even (n d : Z) : Z :=
  let q := n / d in
  let r := n mod d in
  if bool_decide (2 * r < d) then q
  else if bool_decide (d < 2 * r) then q + 1
  else if Z.even q then q else q + 1.

(** [x.quantize(Decimal('0.01'))]. *)
Definition quantize2 (d : t) : t :=
  if bool_decide (places d ≤ 2)%nat
  then mk (coef d * pow10 (2 - places d)) 2
  else mk (round_half_even (coef d) (pow10 (places d - 2))) 2.

(** [Decimal('0.00')]. *)
Definition zero2 : t := mk 0 2.

(** The sum of a list of amounts, from [Decimal('0.00')]. *)
Definition sum (l : list t) : t := foldr add zero2 l.

End Decimal.

Abbreviation Decimal := Decimal.t.

(** A value handed to a decimal field: a [Decimal], or a Python [int]
    (the serializer's [default=0] is handed over as it is). *)
Inductive Number := Dec (d : Decimal) | Int (z : Z).

(** [Decimal(str(x))]. *)
Definition to_decimal (x : Number) : Decimal :=
  match x with
  | Dec d => d
  | Int z => Decimal.of_int z
  end.
Infix "+d" := Decimal.add (at level 50, left associativity).
Infix "-d" := Decimal.sub (at level 50, left associativity).
Infix "*d" := Decimal.mul (at level 40, left associativity).
Infix "==d" := Decimal.eqv (at level 70, no associativity).

(** ** Decimal columns

    Every decimal column of [core/models.py] is a [DecimalField] with
    [decimal_places=2]. A model object keeps the [Decimal] the code
    assigned to it; when the row is written the value goes through the
    field, which quantizes it to two places with the rounding of the
    default context, so the table, and every later read of it, holds
    the amount in cents. The bound [max_digits] puts on the digits is
    left out. *)
Module DecimalField.
Definition get_db_prep_save (value : Decimal) : Decimal := Decimal.quantize2 value.
End DecimalField.

(** ** Rows of the tables ([core/models.py])

    A record is a row as its table holds it. A row that is read and
    written back ([product.save()] after a change of stock) keeps the
    decimal columns it was read with. *)

Module Product.
Record t := mk {
  name : string;
  sku : string;
  price : Decimal;
  tax_rate : Decimal;
  stock_quantity : Z;
  min_stock_level : Z }.

Definition with_stock_quantity (q : Z) (p : t) : t :=
  mk (name p) (sku p) (price p) (tax_rate p) q (min_stock_level p).

Definition is_low_stock (p : t) : bool :=
  bool_decide (stock_quantity p ≤ min_stock_level p).
End Product.

Inductive PaymentMethod := Cash | Card | Mobile.

Module Sale.
Inductive Status := Completed | Pending | Cancelled.

#[global] Instance status_eq_dec : EqDecision Status.
Proof. solve_decision. Defined.

Record t := mk {
  invoice_number : string;
  cashier : Z;
  customer_name : string;
  subtotal : Decimal;
  tax_amount : Decimal;
  discount_amount : Decimal;
  total : Decimal;
  payment_method : PaymentMethod;
  amount_paid : Decimal;
  change_amount : Decimal;
  status : Status;
  notes : string }.

Definition with_status (st : Status) (s : t) : t :=
  mk (invoice_number s) (cashier s) (customer_name s) (subtotal s)
     (tax_amount s) (discount_amount s) (total s) (payment_method s)
     (amount_paid s) (change_amount s) st (notes s).
End Sale.

Module SaleItem.
Record t := mk {
  sale : Z;
  product : Z;
  product_name : string;
  product_sku : string;
  quantity : Z;
  unit_price : Decimal;
  tax_rate : Decimal;
  discount_percent : Decimal;
  subtotal : Decimal }.

(** [SaleItem.save], down to the row [super().save()] writes: the
    subtotal is derived from the other columns each time the row is
    saved, exactly, and its column holds it in cents; the price and the
    tax rate are those read from the product and the discount has two
    places already. When [discount_percent] is an [int],
    [self.discount_percent / 100] is a float, and the product of the
    [Decimal] [base_amount] by a float raises [TypeError]: no row. *)
Definition save (sale product : Z) (product_name product_sku : string)
    (quantity : Z) (unit_price tax_rate : Decimal) (discount_percent : Number)
    : option t :=
  match discount_percent with
  | Int _ => None
  | Dec discount_percent =>
      let base_amount := unit_price *d Decimal.of_int quantity in
      let discount := base_amount *d Decimal.div100 discount_percent in
      let tax := (base_amount -d discount) *d Decimal.div100 tax_rate in
      Some (mk sale product product_name product_sku quantity unit_price tax_rate
               discount_percent
               (DecimalField.get_db_prep_save (base_amount -d discount +d tax)))
  end.
End SaleItem.

Module Payment.
Record t := mk {
  sale : Z;
  payment_method : PaymentMethod;
  amount : Decimal }.
End Payment.

Module StockMovement.
Inductive MovementType := Purchase | SaleOut | Adjustment | Return | Damage.

Record t := mk {
  product : Z;
  movement_type : MovementType;
  quantity : Z;
  previous_quantity : Z;
  new_quantity : Z;
  unit_cost : option Decimal;
  reference_number : string;
  supplier : option Z;
  sale : option Z;
  user : Z;
  notes : string }.

(** The ledger invariant of one row. *)
Definition balanced (m : t) : Prop :=
  new_quantity m - previous_quantity m = quantity m.
End StockMovement.

Module PurchaseOrder.
Inductive Status := Draft | Pending | Received | Cancelled.

#[global] Instance status_eq_dec : EqDecision Status.
Proof. solve_decision. Defined.

Record t := mk {
  po_number : string;
  supplier : Z;
  expected_delivery_date : option Z;
  received_date : option Z;
  status : Status;
  subtotal : Decimal;
  tax_amount : Decimal;
  total : Decimal;
  notes : string;
  created_by : Z }.

Definition with_totals (sub tax tot : Decimal) (po : t) : t :=
  mk (po_number po) (supplier po) (expected_delivery_date po)
     (received_date po) (status po) sub tax tot (notes po) (created_by po).

Definition with_status (st : Status) (po : t) : t :=
  mk (po_number po) (supplier po) (expected_delivery_date po)
     (received_date po) st (subtotal po) (tax_amount po) (total po)
     (notes po) (created_by po).

Definition with_received_date (d : Z) (po : t) : t :=
  mk (po_number po) (supplier po) (expected_delivery_date po)
     (Some d) (status po) (subtotal po) (tax_amount po) (total po)
     (notes po) (created_by po).
End PurchaseOrder.

Module PurchaseOrderItem.
Record t := mk {
  purchase_order : Z;
  product : Z;
  quantity_ordered : Z;
  quantity_received : Z;
  unit_cost : Decimal;
  subtotal : Decimal }.

(** [PurchaseOrderItem.save], down to the row [super().save()] writes:
    the subtotal is computed from the unit cost as the object has it,
    and both columns hold cents. *)
Definition save (purchase_order product quantity_ordered quantity_received : Z)
    (unit_cost : Decimal) : t :=
  mk purchase_order product quantity_ordered quantity_received
     (DecimalField.get_db_prep_save unit_cost)
     (DecimalField.get_db_prep_save (unit_cost *d Decimal.of_int quantity_ordered)).
End PurchaseOrderItem.

Module StockAlert.
Record t := mk {
  product : Z;
  alert_level : Z;
  current_stock : Z;
  is_resolved : bool;
  resolved_at : option Z }.

Definition is_open_for (pid : Z) (a : t) : bool :=
  bool_decide (product a = pid) && negb (is_resolved a).

(** One row under [update(is_resolved=True, resolved_at=now)]. *)
Definition resolve (now : Z) (a : t) : t :=
  mk (product a) (alert_level a) (current_stock a) true (Some now).
End StockAlert.

(** ** The store *)

Record Store := mkStore {
  products : gmap Z Product.t;
  suppliers : gset Z;
  sales : gmap Z Sale.t;
  sale_items : list SaleItem.t;
  payments : list Payment.t;
  stock_movements : list StockMovement.t;
  purchase_orders : gmap Z PurchaseOrder.t;
  purchase_order_items : list PurchaseOrderItem.t;
  stock_alerts : list StockAlert.t }.

Definition with_products (f : gmap Z Product.t → gmap Z Product.t) (s : Store) : Store :=
  mkStore (f (products s)) (suppliers s) (sales s) (sale_items s) (payments s)
          (stock_movements s) (purchase_orders s) (purchase_order_items s)
          (stock_alerts s).

Definition with_sales (f : gmap Z Sale.t → gmap Z Sale.t) (s : Store) : Store :=
  mkStore (products s) (suppliers s) (f (sales s)) (sale_items s) (payments s)
          (stock_movements s) (purchase_orders s) (purchase_order_items s)
          (stock_alerts s).

Definition with_sale_items (f : list SaleItem.t → list SaleItem.t) (s : Store) : Store :=
  mkStore (products s) (suppliers s) (sales s) (f (sale_items s)) (payments s)
          (stock_movements s) (purchase_orders s) (purchase_order_items s)
          (stock_alerts s).

Definition with_payments (f : list Payment.t → list Payment.t) (s : Store) : Store :=
  mkStore (products s) (suppliers s) (sales s) (sale_items s) (f (payments s))
          (stock_movements s) (purchase_orders s) (purchase_order_items s)
          (stock_alerts s).

Definition with_stock_movements
      (f : list StockMovement.t → list StockMovement.t) (s : Store) : Store :=
  mkStore (products s) (suppliers s) (sales s) (sale_items s) (payments s)
          (f (stock_movements s)) (purchase_orders s) (purchase_order_items s)
          (stock_alerts s).

Definition with_purchase_orders
      (f : gmap Z PurchaseOrder.t → gmap Z PurchaseOrder.t) (s : Store) : Store :=
  mkStore (products s) (suppliers s) (sales s) (sale_items s) (payments s)
          (stock_movements s) (f (purchase_orders s)) (purchase_order_items s)
          (stock_alerts s).

Definition with_purchase_order_items
      (f : list PurchaseOrderItem.t → list PurchaseOrderItem.t) (s : Store) : Store :=
  mkStore (products s) (suppliers s) (sales s) (sale_items s) (payments s)
          (stock_movements s) (purchase_orders s) (f (purchase_order_items s))
          (stock_alerts s).

Definition with_stock_alerts (f : list StockAlert.t → list StockAlert.t) (s : Store) : Store :=
  mkStore (products s) (suppliers s) (sales s) (sale_items s) (payments s)
          (stock_movements s) (purchase_orders s) (purchase_order_items s)
          (f (stock_alerts s)).

(** ** Errors

    One constructor per place where the code raises or answers with an
    error status; [kind] sorts them into the classes of the error
    taxonomy. *)
Inductive Error :=
| FieldErrors
| ProductNotFound (product_id : Z)
| InsufficientStockFor (name : string) (available : Z)
| AmountPaidLessThanTotal (amount_paid total : Decimal)
| CannotRemoveUnits (quantity available : Z)
| SupplierNotFound (supplier_id : Z)
| SaleNotFound
| SaleAlreadyCancelled
| PurchaseOrderNotFound
| PurchaseOrderAlreadyReceived
| CannotCancelReceived
| DoesNotExist
| MultipleObjectsReturned
| TypeError.

Inductive ErrorKind :=
| ValidationError | NotFound | InsufficientStock | InsufficientPayment
| Conflict | ServerError.

Definition kind (e : Error) : ErrorKind :=
  match e with
  | FieldErrors => ValidationError
  | ProductNotFound _ | SupplierNotFound _ | SaleNotFound
  | PurchaseOrderNotFound => NotFound
  | InsufficientStockFor _ _ | CannotRemoveUnits _ _ => InsufficientStock
  | AmountPaidLessThanTotal _ _ => InsufficientPayment
  | SaleAlreadyCancelled | PurchaseOrderAlreadyReceived
  | CannotCancelReceived => Conflict
  | DoesNotExist | MultipleObjectsReturned | TypeError => ServerError
  end.

(** ** The monad of a request *)

Definition M (A : Type) : Type := Store → (Error + A) * Store.

Definition ret {A} (a : A) : M A := λ s, (inr a, s).

Definition bind {A B} (m : M A) (k : A → M B) : M B :=
  λ s, match m s with
       | (inl e, s') => (inl e, s')
       | (inr a, s') => k a s'
       end.

Definition raise {A} (e : Error) : M A := λ s, (inl e, s).

Definition get : M Store := λ s, (inr s, s).

Definition modify (f : Store → Store) : M unit := λ s, (inr tt, f s).

(** [with transaction.atomic(): body]: an exception leaving the block
    rolls back every write made inside it. *)
Definition atomic {A} (body : M A) : M A :=
  λ s, match body s with
       | (inl e, _) => (inl e, s)
       | (inr a, s') => (inr a, s')
       end.

#[global] Instance M_ret : MRet M := @ret.
#[global] Instance M_bind : MBind M := λ A B k m, bind m k.

(** [Model.objects.get(id=...)], raising [e] when there is no such row. *)
Definition get_product (e : Error) (id : Z) : M Product.t :=
  s ← get;
  match products s !! id with
  | Some p => ret p
  | None => raise e
  end.

(** [product.save()]. *)
Definition save_product (id : Z) (p : Product.t) : M unit :=
  modify (with_products <[id := p]>).

(** The values the environment supplies to a request: the authenticated
    user, the clock, and the identifier [save()] generates from the date
    and a fresh UUID. *)
Record Env := mkEnv { request_user : Z; now : Z; generated_number : string }.

(** ** Sale creation ([SaleCreateSerializer], [SaleCreateView]) *)

Module SaleItemCreateSerializer.
Record t := mk {
  product_id : Z;
  quantity : Z;
  discount_percent : Number }.

(** The declared fields: [quantity] at least 1; [discount_percent]
    either left out, which yields the default, the int [0], or a value
    between 0 and 100 held with two decimal places. *)
Definition fields_valid (d : t) : bool :=
  bool_decide (1 ≤ quantity d)
  && match discount_percent d with
     | Int z => bool_decide (z = 0)
     | Dec dp =>
         bool_decide (Decimal.places dp = 2%nat)
         && bool_decide (0 ≤ Decimal.coef dp ≤ 10000)
     end.
End SaleItemCreateSerializer.

Module SaleCreateSerializer.
Import SaleItemCreateSerializer.

Record t := mk {
  customer_name : string;
  items : list SaleItemCreateSerializer.t;
  payment_method : PaymentMethod;
  amount_paid : Decimal;
  notes : string }.

(** [attrs['_calculated']]. *)
Record Calculated := mkCalculated {
  subtotal : Decimal;
  tax_amount : Decimal;
  discount_amount : Decimal;
  total : Decimal;
  change_amount : Decimal }.

(** The declared fields and [validate_items]. *)
Definition fields_valid (attrs : t) : bool :=
  bool_decide (items attrs ≠ [])
  && forallb SaleItemCreateSerializer.fields_valid (items attrs)
  && bool_decide (Decimal.places (amount_paid attrs) = 2%nat)
  && bool_decide (0 ≤ Decimal.coef (amount_paid attrs) < 10 ^ 10).

(** The amounts of one line, computed step by step. *)
Definition item_subtotal (product : Product.t)
    (item_data : SaleItemCreateSerializer.t) : Decimal :=
  Product.price product *d Decimal.of_int (quantity item_data).

Definition item_discount (product : Product.t)
    (item_data : SaleItemCreateSerializer.t) : Decimal :=
  item_subtotal product item_data
  *d Decimal.div100 (to_decimal (discount_percent item_data)).

Definition item_after_discount (product : Product.t)
    (item_data : SaleItemCreateSerializer.t) : Decimal :=
  item_subtotal product item_data -d item_discount product item_data.

Definition item_tax (product : Product.t)
    (item_data : SaleItemCreateSerializer.t) : Decimal :=
  item_after_discount product item_data *d Decimal.div100 (Product.tax_rate product).

(** The loop of [validate] over [items_data], with its three
    accumulators [(subtotal, tax_amount, discount_amount)]. *)
Fixpoint validate_items_loop (items_data : list SaleItemCreateSerializer.t)
    (acc : Decimal * Decimal * Decimal) : M (Decimal * Decimal * Decimal) :=
  match items_data with
  | [] => mret acc
  | item_data :: rest =>
      product ← get_product (ProductNotFound (product_id item_data)) (product_id item_data);
      if bool_decide (Product.stock_quantity product < quantity item_data)
      then raise (InsufficientStockFor (Product.name product) (Product.stock_quantity product))
      else
        let '(subtotal, tax_amount, discount_amount) := acc in
        validate_items_loop rest
          (subtotal +d item_subtotal product item_data,
           tax_amount +d item_tax product item_data,
           discount_amount +d item_discount product item_data)
  end.

Definition validate (attrs : t) : M Calculated :=
  '(subtotal, tax_amount, discount_amount) ←
    validate_items_loop (items attrs)
      (Decimal.zero2, Decimal.zero2, Decimal.zero2);
  let total := Decimal.quantize2 (subtotal -d discount_amount +d tax_amount) in
  let amount_paid := amount_paid attrs in
  if Decimal.ltb amount_paid total
  then raise (AmountPaidLessThanTotal amount_paid total)
  else mret (mkCalculated
               (Decimal.quantize2 subtotal)
               (Decimal.quantize2 tax_amount)
               (Decimal.quantize2 discount_amount)
               total
               (Decimal.quantize2 (amount_paid -d total))).

(** [is_valid(raise_exception=True)]: the fields, then [validate]. *)
Definition is_valid (attrs : t) : M Calculated :=
  if fields_valid attrs then validate attrs else raise FieldErrors.

(** The loop of [create] over [items_data]. *)
Fixpoint create_items_loop (env : Env) (sale : Z)
    (items_data : list SaleItemCreateSerializer.t) : M unit :=
  match items_data with
  | [] => mret tt
  | item_data :: rest =>
      product ← get_product DoesNotExist (product_id item_data);
      row ← match SaleItem.save sale (product_id item_data)
                    (Product.name product) (Product.sku product)
                    (quantity item_data) (Product.price product)
                    (Product.tax_rate product) (discount_percent item_data) with
            | Some row => mret row
            | None => raise TypeError
            end;
      modify (with_sale_items (λ rows, rows ++ [row]));;
      let product :=
        Product.with_stock_quantity
          (Product.stock_quantity product - quantity item_data) product in
      save_product (product_id item_data) product;;
      modify (with_stock_movements (λ rows, rows ++
        [StockMovement.mk (product_id item_data) StockMovement.SaleOut
           (- quantity item_data)
           (Product.stock_quantity product + quantity item_data)
           (Product.stock_quantity product)
           None "" None (Some sale) (request_user env) ""]));;
      create_items_loop env sale rest
  end.

(** [create]. The amounts of the sale and of its payment have two places
    already ([validate] quantizes what it computes and the field of the
    request quantizes [amount_paid]), so their columns hold them as they
    are; the rows of the lines are those [SaleItem.save] writes. *)
Definition create (env : Env) (validated_data : t) (calculated : Calculated) : M Z :=
  atomic (
    s ← get;
    let sale := fresh (dom (sales s)) in
    modify (with_sales <[sale :=
      Sale.mk (generated_number env) (request_user env)
        (customer_name validated_data)
        (subtotal calculated) (tax_amount calculated)
        (discount_amount calculated) (total calculated)
        (payment_method validated_data) (amount_paid validated_data)
        (change_amount calculated) Sale.Completed (notes validated_data)]>);;
    create_items_loop env sale (items validated_data);;
    modify (with_payments (λ rows, rows ++
      [Payment.mk sale (payment_method validated_data)
         (amount_paid validated_data)]));;
    mret sale).
End SaleCreateSerializer.

Module SaleCreateView.
(** [create] down to the saved sale:
    [serializer.is_valid(raise_exception=True); sale = serializer.save()].
    The response the view then renders from the saved sale is the
    matter of [respond], below. *)
Definition create (env : Env) (data : SaleCreateSerializer.t) : M Z :=
  calculated ← SaleCreateSerializer.is_valid data;
  SaleCreateSerializer.create env data calculated.
End SaleCreateView.

(** ** Sale cancellation ([cancel_sale_view]) *)

Fixpoint restore_stock_loop (items : list SaleItem.t) : M unit :=
  match items with
  | [] => mret tt
  | item :: rest =>
      product ← get_product DoesNotExist (SaleItem.product item);
      save_product (SaleItem.product item)
        (Product.with_stock_quantity
           (Product.stock_quantity product + SaleItem.quantity item) product);;
      restore_stock_loop rest
  end.

(** [sale.items.all()]. *)
Definition sale_items_of (s : Store) (pk : Z) : list SaleItem.t :=
  filter (λ item, SaleItem.sale item = pk) (sale_items s).

Definition cancel_sale_view (pk : Z) : M unit :=
  s ← get;
  match sales s !! pk with
  | None => raise SaleNotFound
  | Some sale =>
      if bool_decide (Sale.status sale = Sale.Cancelled)
      then raise SaleAlreadyCancelled
      else atomic (
        restore_stock_loop (sale_items_of s pk);;
        modify (with_sales <[pk := Sale.with_status Sale.Cancelled sale]>))
  end.

(** ** Manual stock adjustment ([StockAdjustmentSerializer], [StockAdjustmentView]) *)

Inductive AdjustmentType := Add | Remove | SetTo.

Module StockAdjustmentSerializer.
Record t := mk {
  product_id : Z;
  adjustment_type : AdjustmentType;
  quantity : Z;
  reason : string;
  reference_number : string }.

Definition fields_valid (attrs : t) : bool :=
  bool_decide (0 ≤ quantity attrs)
  && bool_decide (reason attrs ≠ "")
  && bool_decide (String.length (reason attrs) ≤ 500)%nat
  && bool_decide (String.length (reference_number attrs) ≤ 100)%nat.

(** [validate] returns the product it looked up as [attrs['_product']]. *)
Definition validate (attrs : t) : M Product.t :=
  product ← get_product (ProductNotFound (product_id attrs)) (product_id attrs);
  match adjustment_type attrs with
  | Remove =>
      if bool_decide (Product.stock_quantity product < quantity attrs)
      then raise (CannotRemoveUnits (quantity attrs) (Product.stock_quantity product))
      else mret product
  | _ => mret product
  end.

Definition is_valid (attrs : t) : M Product.t :=
  if fields_valid attrs then validate attrs else raise FieldErrors.
End StockAdjustmentSerializer.

(** The unresolved alerts of a product. *)
Definition open_alerts (pid : Z) (rows : list StockAlert.t) : list StockAlert.t :=
  filter (λ a, StockAlert.is_open_for pid a = true) rows.

(** [StockAlert.objects.get_or_create(product=product, is_resolved=False,
    defaults=...)]: one matching row is reused, none makes a new row,
    several make [get] raise. *)
Definition get_or_create_open_alert (pid alert_level current_stock : Z) : M unit :=
  s ← get;
  match open_alerts pid (stock_alerts s) with
  | [] => modify (with_stock_alerts (λ rows, rows ++
            [StockAlert.mk pid alert_level current_stock false None]))
  | [_] => mret tt
  | _ => raise MultipleObjectsReturned
  end.

Module StockAdjustmentView.
Import StockAdjustmentSerializer.

Definition post (env : Env) (data : StockAdjustmentSerializer.t) : M StockMovement.t :=
  product ← StockAdjustmentSerializer.is_valid data;
  let quantity := quantity data in
  atomic (
    let previous_quantity := Product.stock_quantity product in
    let '(new_quantity, movement_quantity) :=
      match adjustment_type data with
      | Add => (previous_quantity + quantity, quantity)
      | Remove => (previous_quantity - quantity, - quantity)
      | SetTo => (quantity, quantity - previous_quantity)
      end in
    save_product (product_id data)
      (Product.with_stock_quantity new_quantity product);;
    let movement :=
      StockMovement.mk (product_id data) StockMovement.Adjustment
        movement_quantity previous_quantity new_quantity None
        (reference_number data) None None (request_user env) (reason data) in
    modify (with_stock_movements (λ rows, rows ++ [movement]));;
    (if bool_decide (new_quantity ≤ Product.min_stock_level product)
     then get_or_create_open_alert (product_id data)
            (Product.min_stock_level product) new_quantity
     else mret tt);;
    mret movement).
End StockAdjustmentView.

(** ** Purchase orders ([PurchaseOrderCreateSerializer], [receive_purchase_order],
    [cancel_purchase_order]) *)

Module PurchaseOrderCreateSerializer.
(** One entry of [items]: [int(item_data['quantity'])] and
    [Decimal(str(item_data['unit_cost']))]. *)
Record Item := mkItem {
  product_id : Z;
  quantity : Z;
  unit_cost : Decimal }.

Record t := mk {
  supplier_id : Z;
  expected_delivery_date : option Z;
  items : list Item;
  notes : string }.

(** [validate_supplier_id] and [validate_items]. *)
Definition is_valid (attrs : t) : M unit :=
  s ← get;
  if bool_decide (supplier_id attrs ∈ suppliers s)
  then (if bool_decide (items attrs ≠ []) then mret tt else raise FieldErrors)
  else raise (SupplierNotFound (supplier_id attrs)).

(** The loop of [create] over [items_data], accumulating [subtotal]. *)
Fixpoint create_items_loop (po : Z) (items_data : list Item) (subtotal : Decimal)
    : M Decimal :=
  match items_data with
  | [] => mret subtotal
  | item_data :: rest =>
      _ ← get_product DoesNotExist (product_id item_data);
      modify (with_purchase_order_items (λ rows, rows ++
        [PurchaseOrderItem.save po (product_id item_data)
           (quantity item_data) 0 (unit_cost item_data)]));;
      create_items_loop po rest
        (subtotal +d unit_cost item_data *d Decimal.of_int (quantity item_data))
  end.

Definition create (env : Env) (validated_data : t) : M Z :=
  atomic (
    s ← get;
    let pk := fresh (dom (purchase_orders s)) in
    let po :=
      PurchaseOrder.mk (generated_number env) (supplier_id validated_data)
        (expected_delivery_date validated_data) None PurchaseOrder.Pending
        (DecimalField.get_db_prep_save (Decimal.of_int 0))
        (DecimalField.get_db_prep_save (Decimal.of_int 0))
        (DecimalField.get_db_prep_save (Decimal.of_int 0))
        (notes validated_data) (request_user env) in
    modify (with_purchase_orders <[pk := po]>);;
    subtotal ← create_items_loop pk (items validated_data) Decimal.zero2;
    let tax_amount := subtotal *d Decimal.mk 16 2 in
    let total := subtotal +d tax_amount in
    modify (with_purchase_orders <[pk :=
      PurchaseOrder.with_totals
        (DecimalField.get_db_prep_save subtotal)
        (DecimalField.get_db_prep_save tax_amount)
        (DecimalField.get_db_prep_save total) po]>);;
    mret pk).
End PurchaseOrderCreateSerializer.

Module PurchaseOrderCreateView.
(** [create] down to the saved order; the response is rendered after it. *)
Definition create (env : Env) (data : PurchaseOrderCreateSerializer.t) : M Z :=
  PurchaseOrderCreateSerializer.is_valid data;;
  PurchaseOrderCreateSerializer.create env data.
End PurchaseOrderCreateView.

(** [po.items.all()]: the rows of the order with their positions in the
    table, which stand for their primary keys. *)
Definition purchase_order_items_of (s : Store) (pk : Z)
      : list (nat * PurchaseOrderItem.t) :=
  filter (λ row, PurchaseOrderItem.purchase_order row.2 = pk)
         (imap pair (purchase_order_items s)).

(** [StockAlert.objects.filter(product=product, is_resolved=False)
    .update(is_resolved=True, resolved_at=now)]. *)
Definition resolve_open_alerts (now : Z) (pid : Z) (rows : list StockAlert.t)
      : list StockAlert.t :=
  (λ a, if StockAlert.is_open_for pid a then StockAlert.resolve now a else a) <$> rows.

(** The loop of [receive_purchase_order] over [po.items.all()]. The unit
    cost of a ledger row is the one read from the line. *)
Fixpoint receive_items_loop (env : Env) (po : PurchaseOrder.t)
      (items : list (nat * PurchaseOrderItem.t)) : M unit :=
  match items with
  | [] => mret tt
  | (i, item) :: rest =>
      let pid := PurchaseOrderItem.product item in
      product ← get_product DoesNotExist pid;
      let previous_quantity := Product.stock_quantity product in
      let new_quantity := previous_quantity + PurchaseOrderItem.quantity_ordered item in
      save_product pid (Product.with_stock_quantity new_quantity product);;
      modify (with_purchase_order_items <[i :=
        PurchaseOrderItem.save (PurchaseOrderItem.purchase_order item) pid
          (PurchaseOrderItem.quantity_ordered item)
          (PurchaseOrderItem.quantity_ordered item)
          (PurchaseOrderItem.unit_cost item)]>);;
      modify (with_stock_movements (λ rows, rows ++
        [StockMovement.mk pid StockMovement.Purchase
           (PurchaseOrderItem.quantity_ordered item)
           previous_quantity new_quantity
           (Some (PurchaseOrderItem.unit_cost item))
           (PurchaseOrder.po_number po)
           (Some (PurchaseOrder.supplier po)) None (request_user env)
           ("Received from PO " +:+ PurchaseOrder.po_number po)]));;
      modify (with_stock_alerts (resolve_open_alerts (now env) pid));;
      receive_items_loop env po rest
  end.

Definition receive_purchase_order (env : Env) (pk : Z) : M unit :=
  s ← get;
  match purchase_orders s !! pk with
  | None => raise PurchaseOrderNotFound
  | Some po =>
      if bool_decide (PurchaseOrder.status po = PurchaseOrder.Received)
      then raise PurchaseOrderAlreadyReceived
      else atomic (
        receive_items_loop env po (purchase_order_items_of s pk);;
        modify (with_purchase_orders <[pk :=
          PurchaseOrder.with_received_date (now env)
            (PurchaseOrder.with_status PurchaseOrder.Received po)]>))
  end.

Definition cancel_purchase_order (pk : Z) : M unit :=
  s ← get;
  match purchase_orders s !! pk with
  | None => raise PurchaseOrderNotFound
  | Some po =>
      if bool_decide (PurchaseOrder.status po = PurchaseOrder.Received)
      then raise CannotCancelReceived
      else modify (with_purchase_orders <[pk :=
             PurchaseOrder.with_status PurchaseOrder.Cancelled po]>)
  end.

(** The operations a caller can invoke. [run] is an operation down to
    its last write: its outcome is the error raised by validation or
    inside the transaction, if any, with the store as the operation
    leaves it. What a view does after its last write, rendering the
    response from the rows it saved, writes nothing and is not part of
    [run]; [respond], below, accounts for it. *)
Inductive Operation :=
| CreateSale (data : SaleCreateSerializer.t)
| CancelSale (pk : Z)
| AdjustStock (data : StockAdjustmentSerializer.t)
| CreatePurchaseOrder (data : PurchaseOrderCreateSerializer.t)
| ReceivePurchaseOrder (pk : Z)
| CancelPurchaseOrder (pk : Z).

Definition run (env : Env) (op : Operation) (s : Store) : option Error * Store :=
  let outcome {A} (r : (Error + A) * Store) : option Error * Store :=
    (match r.1 with inl e => Some e | inr _ => None end, r.2) in
  match op with
  | CreateSale data => outcome (SaleCreateView.create env data s)
  | CancelSale pk => outcome (cancel_sale_view pk s)
  | AdjustStock data => outcome (StockAdjustmentView.post env data s)
  | CreatePurchaseOrder data => outcome (PurchaseOrderCreateView.create env data s)
  | ReceivePurchaseOrder pk => outcome (receive_purchase_order env pk s)
  | CancelPurchaseOrder pk => outcome (cancel_purchase_order pk s)
  end.

(** ** Users and permissions ([core/models.py], [core/permissions.py]) *)

Module User.
(** The user of a request: [is_authenticated] is [False] for the
    anonymous user; [role] is the name of the user's role, if any. *)
Record t := mk { is_authenticated : bool; role : option string }.

(** [self.role and self.role.name == Role.ADMIN], as a truth value. *)
Definition is_admin (u : t) : bool :=
  match role u with
  | Some name => bool_decide (name = "admin")
  | None => false
  end.

Definition is_manager (u : t) : bool :=
  match role u with
  | Some name => bool_decide (name = "manager")
  | None => false
  end.

Definition is_cashier (u : t) : bool :=
  match role u with
  | Some name => bool_decide (name = "cashier")
  | None => false
  end.
End User.

Inductive Method := GET | HEAD | OPTIONS | POST | PUT | PATCH | DELETE.

(** [permissions.SAFE_METHODS]. *)
Definition SAFE_METHODS : list Method := [GET; HEAD; OPTIONS].

#[global] Instance Method_eq_dec : EqDecision Method.
Proof. solve_decision. Defined.

(** The [has_permission] of each permission class. *)
Module IsAdmin.
Definition has_permission (u : User.t) : bool :=
  User.is_authenticated u && User.is_admin u.
End IsAdmin.

Module IsManager.
Definition has_permission (u : User.t) : bool :=
  User.is_authenticated u && (User.is_admin u || User.is_manager u).
End IsManager.

Module IsCashier.
Definition has_permission (u : User.t) : bool :=
  User.is_authenticated u
  && (User.is_admin u || User.is_manager u || User.is_cashier u).
End IsCashier.

Module IsAdminOrReadOnly.
Definition has_permission (u : User.t) (method : Method) : bool :=
  if bool_decide (method ∈ SAFE_METHODS)
  then User.is_authenticated u
  else User.is_authenticated u && User.is_admin u.
End IsAdminOrReadOnly.

(** The [permission_classes] of the view behind each operation. *)
Definition permission_classes (op : Operation) : User.t → bool :=
  match op with
  | CreateSale _ => IsCashier.has_permission
  | CancelSale _ => IsManager.has_permission
  | AdjustStock _ => IsManager.has_permission
  | CreatePurchaseOrder _ => IsManager.has_permission
  | ReceivePurchaseOrder _ => IsManager.has_permission
  | CancelPurchaseOrder _ => IsManager.has_permission
  end.

(** A request as the framework handles it: the permission of the view is
    checked first, and a user it refuses never reaches the view. [None]
    is the refusal; otherwise the outcome of the operation, down to its
    last write. *)
Definition dispatch (user : User.t) (env : Env) (op : Operation) (s : Store)
    : option (option Error) * Store :=
  if permission_classes op user
  then let '(outcome, s') := run env op s in (Some outcome, s')
  else (None, s).

(** The answer of a request. A view whose operation went through renders
    its response from the rows saved ([SaleDetailSerializer(sale).data]
    and the like): this reads the tables, after the transaction has
    committed, and can still raise. Rendering is not modelled: whether
    it goes through is a parameter, [renders]. *)
Inductive Answer :=
| Forbidden
| Failed (e : Error)
| Rendered
| RenderingFailed.

Definition respond (renders : Operation → Store → bool)
    (user : User.t) (env : Env) (op : Operation) (s : Store) : Answer * Store :=
  match dispatch user env op s with
  | (None, s') => (Forbidden, s')
  | (Some (Some e), s') => (Failed e, s')
  | (Some None, s') => (if renders op s' then Rendered else RenderingFailed, s')
  end.

(** ** Alert listing ([StockAlertListView]) *)

Module StockAlertListView.
(** [StockAlert.objects.filter(is_resolved=False)]. *)
Definition get_queryset (s : Store) : list StockAlert.t :=
  filter (λ a, StockAlert.is_resolved a = false) (stock_alerts s).
End StockAlertListView.

(** * Vocabulary of the statements *)

(** The stock on record for a product. *)
Definition stock (s : Store) (pid : Z) : option Z :=
  Product.stock_quantity <$> products s !! pid.

(** A product with [n] units more in stock. *)
Definition add_stock (n : Z) (p : Product.t) : Product.t :=
  Product.with_stock_quantity (Product.stock_quantity p + n) p.

(** The sum of [f] over a list of rows. *)
Definition total_of {A} (f : A → Z) (rows : list A) : Z :=
  foldr (λ row acc, f row + acc) 0 rows.

(** The units of product [pid] on the lines of a sale. *)
Definition sold_for (pid : Z) (items : list SaleItem.t) : Z :=
  total_of SaleItem.quantity (filter (λ item, SaleItem.product item = pid) items).

(** The units of product [pid] ordered on the lines of a purchase order. *)
Definition ordered_for (pid : Z) (items : list PurchaseOrderItem.t) : Z :=
  total_of PurchaseOrderItem.quantity_ordered
    (filter (λ item, PurchaseOrderItem.product item = pid) items).

(** The products every one of the given keys names are on record. *)
Definition products_exist (s : Store) (pids : list Z) : Prop :=
  Forall (λ pid, is_Some (products s !! pid)) pids.

(** The outcome of a stock adjustment that went through: the product
    holds [new_quantity], the ledger has one more row with the given
    delta, and when the new quantity is at most the minimum level exactly
    one alert is open for the product, a new one only if none was. *)
Definition adjusted (env : Env) (data : StockAdjustmentSerializer.t)
      (product : Product.t) (new_quantity delta : Z) (s : Store) : Prop :=
  let pid := StockAdjustmentSerializer.product_id data in
  let level := Product.min_stock_level product in
  ∃ movement s',
    StockAdjustmentView.post env data s = (inr movement, s')
    ∧ products s' = <[pid := Product.with_stock_quantity new_quantity product]> (products s)
    ∧ stock s' pid = Some new_quantity
    ∧ StockMovement.product movement = pid
    ∧ StockMovement.movement_type movement = StockMovement.Adjustment
    ∧ StockMovement.quantity movement = delta
    ∧ StockMovement.previous_quantity movement = Product.stock_quantity product
    ∧ StockMovement.new_quantity movement = new_quantity
    ∧ stock_movements s' = stock_movements s ++ [movement]
    ∧ (new_quantity ≤ level →
         length (open_alerts pid (stock_alerts s')) = 1%nat
         ∧ (open_alerts pid (stock_alerts s) = [] →
              stock_alerts s' = stock_alerts s
                ++ [StockAlert.mk pid level new_quantity false None])
         ∧ (open_alerts pid (stock_alerts s) ≠ [] →
              stock_alerts s' = stock_alerts s))
    ∧ (level < new_quantity → stock_alerts s' = stock_alerts s).

(** A purchase-order line once received in full. *)
Definition received_item (item : PurchaseOrderItem.t) : PurchaseOrderItem.t :=
  PurchaseOrderItem.save (PurchaseOrderItem.purchase_order item)
    (PurchaseOrderItem.product item) (PurchaseOrderItem.quantity_ordered item)
    (PurchaseOrderItem.quantity_ordered item) (PurchaseOrderItem.unit_cost item).

(** The alerts after every open alert of the products [pids] is resolved. *)
Definition resolve_for (now : Z) (pids : list Z) (rows : list StockAlert.t)
      : list StockAlert.t :=
  (λ a, if bool_decide (StockAlert.product a ∈ pids) && negb (StockAlert.is_resolved a)
        then StockAlert.resolve now a else a) <$> rows.


(** The ledger of [s'] is that of [s] with rows appended, every one of
    them balanced, and those of sales carrying a negative quantity. *)
Definition ledger_extended (s s' : Store) : Prop :=
  ∃ new_movements,
    stock_movements s' = stock_movements s ++ new_movements
    ∧ Forall StockMovement.balanced new_movements
    ∧ Forall (λ m, StockMovement.movement_type m = StockMovement.SaleOut →
                   StockMovement.quantity m < 0) new_movements.

(** The alerts of [s'] are those of [s], untouched, with rows appended. *)
Definition alerts_extended (s s' : Store) : Prop :=
  ∃ new_alerts, stock_alerts s' = stock_alerts s ++ new_alerts.

Module SaleAmounts.
Import SaleItemCreateSerializer SaleCreateSerializer.

(** The lines of a request with the products they name. *)
Definition lines (s : Store) (items_data : list SaleItemCreateSerializer.t)
    : list (Product.t * SaleItemCreateSerializer.t) :=
  omap (λ item_data, (λ p, (p, item_data)) <$> products s !! product_id item_data)
       items_data.

(** The unrounded sums over the lines. *)
Definition exact_subtotal (s : Store) (data : SaleCreateSerializer.t) : Decimal :=
  Decimal.sum (uncurry item_subtotal <$> lines s (items data)).

Definition exact_discount (s : Store) (data : SaleCreateSerializer.t) : Decimal :=
  Decimal.sum (uncurry item_discount <$> lines s (items data)).

Definition exact_tax (s : Store) (data : SaleCreateSerializer.t) : Decimal :=
  Decimal.sum (uncurry item_tax <$> lines s (items data)).

Definition computed_total (s : Store) (data : SaleCreateSerializer.t) : Decimal :=
  Decimal.quantize2
    (exact_subtotal s data -d exact_discount s data +d exact_tax s data).

(** The amount of one line with its discount and its tax. *)
Definition item_total (product : Product.t) (item_data : SaleItemCreateSerializer.t)
    : Decimal :=
  item_subtotal product item_data -d item_discount product item_data
  +d item_tax product item_data.

(** What a sale line copies from its product. *)
Definition pricing (p : Product.t) : string * string * Decimal * Decimal :=
  (Product.name p, Product.sku p, Product.price p, Product.tax_rate p).

(** The line carries a discount of its own, a [Decimal]. *)
Definition discount_given (item_data : SaleItemCreateSerializer.t) : Prop :=
  ∃ dp, discount_percent item_data = Dec dp.

(** The product of a line exists and holds at least the quantity asked. *)
Definition in_stock (s : Store) (item_data : SaleItemCreateSerializer.t) : Prop :=
  ∃ p, products s !! product_id item_data = Some p
       ∧ quantity item_data ≤ Product.stock_quantity p.

(** The line names a product and asks for more than is in stock. *)
Definition exceeds_stock (s : Store) (item_data : SaleItemCreateSerializer.t) : Prop :=
  ∃ p, products s !! product_id item_data = Some p
       ∧ Product.stock_quantity p < quantity item_data.
End SaleAmounts.

(** Stores and requests on which the statements are evaluated. *)
Module Examples.
Definition env : Env := mkEnv 1 1700000000 "20240101-0A1B2C3D".

Definition empty_store : Store := mkStore ∅ ∅ ∅ [] [] [] ∅ [] [].

(** Two units at 100.00, taxed at 16%, with a 10% discount. *)
Definition widget : Product.t :=
  Product.mk "Widget" "WID-0001" (Decimal.mk 10000 2) (Decimal.mk 1600 2) 10 5.

Definition shop : Store := with_products (λ _, {[ 1 := widget ]}) empty_store.

Definition two_widgets : SaleCreateSerializer.t :=
  SaleCreateSerializer.mk ""
    [SaleItemCreateSerializer.mk 1 2 (Dec (Decimal.mk 1000 2))]
    Cash (Decimal.mk 25000 2) "".

(** A pen at 0.60 sold with a 1% discount and an untaxed price, and a
    cap at 0.40 taxed at 1%. *)
Definition pen : Product.t :=
  Product.mk "Pen" "PEN-0001" (Decimal.mk 60 2) (Decimal.mk 0 2) 5 10.

Definition cap : Product.t :=
  Product.mk "Cap" "CAP-0001" (Decimal.mk 40 2) (Decimal.mk 100 2) 5 10.

Definition kiosk : Store := with_products (λ _, {[ 1 := pen; 2 := cap ]}) empty_store.

Definition pen_and_cap : SaleCreateSerializer.t :=
  SaleCreateSerializer.mk ""
    [SaleItemCreateSerializer.mk 1 1 (Dec (Decimal.mk 100 2));
     SaleItemCreateSerializer.mk 2 1 (Dec (Decimal.mk 0 2))]
    Cash (Decimal.mk 500 2) "".

(** One widget, the discount left out. *)
Definition one_widget_no_discount : SaleCreateSerializer.t :=
  SaleCreateSerializer.mk ""
    [SaleItemCreateSerializer.mk 1 1 (Int 0)]
    Cash (Decimal.mk 20000 2) "".

(** More widgets than the shop holds. *)
Definition many_widgets : SaleCreateSerializer.t :=
  SaleCreateSerializer.mk ""
    [SaleItemCreateSerializer.mk 1 100 (Int 0)]
    Cash (Decimal.mk 2000000 2) "".

(** The same after a line that names no product. *)
Definition unknown_then_many_widgets : SaleCreateSerializer.t :=
  SaleCreateSerializer.mk ""
    [SaleItemCreateSerializer.mk 99 1 (Int 0);
     SaleItemCreateSerializer.mk 1 100 (Int 0)]
    Cash (Decimal.mk 2000000 2) "".

(** A product with 5 units in stock and a minimum level of 10, and the
    removal of 3 units. *)
Definition bolt : Product.t :=
  Product.mk "Bolt" "BOL-0001" (Decimal.mk 150 2) (Decimal.mk 1600 2) 5 10.

Definition depot : Store := with_products (λ _, {[ 7 := bolt ]}) empty_store.

Definition remove_three : StockAdjustmentSerializer.t :=
  StockAdjustmentSerializer.mk 7 Remove 3 "damaged in transit" "".

(** A pending order of 10 bolts at 5.00, with an alert open on bolts. *)
Definition bolt_order : PurchaseOrder.t :=
  PurchaseOrder.mk "20240101-0A1B2C" 3 None None PurchaseOrder.Pending
    (Decimal.mk 5000 2) (Decimal.mk 80000 4) (Decimal.mk 580000 4) "" 1.

Definition bolt_line : PurchaseOrderItem.t :=
  PurchaseOrderItem.save 4 7 10 0 (Decimal.mk 500 2).

Definition depot_with_order : Store :=
  with_stock_alerts (λ _, [StockAlert.mk 7 10 5 false None])
    (with_purchase_order_items (λ _, [bolt_line])
       (with_purchase_orders (λ _, {[ 4 := bolt_order ]}) depot)).

(** The depot with a supplier, and an order of 10 bolts at 5.00. *)
Definition depot_with_supplier : Store :=
  mkStore (products depot) {[ 3 ]} ∅ [] [] [] ∅ [] [].

Definition ten_bolts : PurchaseOrderCreateSerializer.t :=
  PurchaseOrderCreateSerializer.mk 3 None
    [PurchaseOrderCreateSerializer.mkItem 7 10 (Decimal.mk 500 2)] "".

(** The same depot once the order is cancelled, and a restocking of 20
    bolts by hand. *)
Definition depot_with_cancelled_order : Store :=
  with_purchase_orders
    (λ _, {[ 4 := PurchaseOrder.with_status PurchaseOrder.Cancelled bolt_order ]})
    depot_with_order.

Definition add_twenty : StockAdjustmentSerializer.t :=
  StockAdjustmentSerializer.mk 7 Add 20 "restocked by hand" "".

(** The shop after the sale of two widgets. *)
Definition shop_after_sale : Store :=
  (SaleCreateView.create env two_widgets shop).2.
End Examples.

(** * Vocabulary of the further statements *)

(** A history: the requests handled one after the other, each with the
    values its environment supplied. *)
Definition run_all (history : list (Env * Operation)) (s : Store) : Store :=
  foldl (λ s request, (run request.1 request.2 s).2) s history.

(** The units of product [pid] asked for on the lines of a sale request. *)
Definition requested_for (pid : Z) (items_data : list SaleItemCreateSerializer.t) : Z :=
  total_of SaleItemCreateSerializer.quantity
    (filter (λ item_data, SaleItemCreateSerializer.product_id item_data = pid) items_data).

(** The units of product [pid] on the lines of a purchase-order request. *)
Definition ordered_in (pid : Z) (items_data : list PurchaseOrderCreateSerializer.Item) : Z :=
  total_of PurchaseOrderCreateSerializer.quantity
    (filter (λ item_data, PurchaseOrderCreateSerializer.product_id item_data = pid)
       items_data).

(** The sum of the signed quantities of the ledger rows of product [pid]. *)
Definition ledger_delta (pid : Z) (rows : list StockMovement.t) : Z :=
  total_of StockMovement.quantity
    (filter (λ m, StockMovement.product m = pid) rows).

(** The products of [s'] are those of [s] with the stock of each moved by
    what the rows the ledger gained say. *)
Definition accounted (s s' : Store) : Prop :=
  ∃ new_movements,
    stock_movements s' = stock_movements s ++ new_movements
    ∧ ∀ pid, products s' !! pid
             = add_stock (ledger_delta pid new_movements) <$> products s !! pid.

(** No product holds a negative stock. *)
Definition stock_nonneg (s : Store) : Prop :=
  ∀ pid p, products s !! pid = Some p → 0 ≤ Product.stock_quantity p.

(** Every sale line belongs to a sale on record, and every purchase-order
    line to an order on record (the foreign keys of the two tables). *)
Definition sale_items_attached (s : Store) : Prop :=
  Forall (λ row, is_Some (sales s !! SaleItem.sale row)) (sale_items s).

Definition purchase_order_items_attached (s : Store) : Prop :=
  Forall (λ row, is_Some (purchase_orders s !! PurchaseOrderItem.purchase_order row))
         (purchase_order_items s).

(** Further stores and requests. *)
Module MoreExamples.
(** The widget asked for twice on one request, 6 units each time, out of
    the 10 in stock. *)
Definition widgets_twice : SaleCreateSerializer.t :=
  SaleCreateSerializer.mk ""
    [SaleItemCreateSerializer.mk 1 6 (Dec (Decimal.mk 0 2));
     SaleItemCreateSerializer.mk 1 6 (Dec (Decimal.mk 0 2))]
    Cash (Decimal.mk 200000 2) "".

(** Two widgets, with 1.00 paid. *)
Definition two_widgets_underpaid : SaleCreateSerializer.t :=
  SaleCreateSerializer.mk ""
    [SaleItemCreateSerializer.mk 1 2 (Dec (Decimal.mk 1000 2))]
    Cash (Decimal.mk 100 2) "".

(** An order of bolts and of a product that is not on record. *)
Definition bolts_and_unknown : PurchaseOrderCreateSerializer.t :=
  PurchaseOrderCreateSerializer.mk 3 None
    [PurchaseOrderCreateSerializer.mkItem 7 10 (Decimal.mk 500 2);
     PurchaseOrderCreateSerializer.mkItem 99 1 (Decimal.mk 100 2)] "".


(** A gum at 0.25, untaxed, and one of them sold with a 10% discount. *)
Definition gum : Product.t :=
  Product.mk "Gum" "GUM-0001" (Decimal.mk 25 2) (Decimal.mk 0 2) 10 5.

Definition stall : Store := with_products (λ _, {[ 1 := gum ]}) Examples.empty_store.

Definition one_gum : SaleCreateSerializer.t :=
  SaleCreateSerializer.mk ""
    [SaleItemCreateSerializer.mk 1 1 (Dec (Decimal.mk 1000 2))]
    Cash (Decimal.mk 100 2) "".

(** An order of -3 bolts. *)
Definition minus_three_bolts : PurchaseOrderCreateSerializer.t :=
  PurchaseOrderCreateSerializer.mk 3 None
    [PurchaseOrderCreateSerializer.mkItem 7 (-3) (Decimal.mk 500 2)] "".

(** No bolt added, and no bolt removed. *)
Definition add_zero : StockAdjustmentSerializer.t :=
  StockAdjustmentSerializer.mk 7 Add 0 "recount" "".

Definition remove_zero : StockAdjustmentSerializer.t :=
  StockAdjustmentSerializer.mk 7 Remove 0 "recount" "".

Definition set_to_zero : StockAdjustmentSerializer.t :=
  StockAdjustmentSerializer.mk 7 SetTo 0 "stock count" "".

Definition admin : User.t := User.mk true (Some "admin").
Definition manager : User.t := User.mk true (Some "manager").
Definition cashier : User.t := User.mk true (Some "cashier").
Definition anonymous : User.t := User.mk false None.
End MoreExamples.

(** * Properties *)

(** ** Decimal arithmetic *)

Module DecimalFacts.
Import Decimal.

Lemma pow10_pos n : 0 < pow10 n.
Proof. unfold pow10. apply Z.pow_pos_nonneg; lia. Qed.

Lemma pow10_add a b : pow10 (a + b) = pow10 a * pow10 b.
Proof. unfold pow10. rewrite Nat2Z.inj_add, Z.pow_add_r by lia. done. Qed.

Lemma pow10_0 : pow10 0 = 1.
Proof. done. Qed.

(** Writing a coefficient with more places, in two steps or in one. *)
Lemma scaled_rescale m n d :
  (places d ≤ m)%nat → (m ≤ n)%nat →
  scaled m d * pow10 (n - m) = scaled n d.
Proof.
  intros Hm Hn. unfold scaled.
  replace (n - places d)%nat with ((m - places d) + (n - m))%nat by lia.
  rewrite pow10_add. ring.
Qed.

Lemma scaled_add n a b :
  (Nat.max (places a) (places b) ≤ n)%nat →
  scaled n (a +d b) = scaled n a + scaled n b.
Proof.
  intros Hn. unfold add. unfold scaled at 1. simpl.
  rewrite Z.mul_add_distr_r, !scaled_rescale by lia. done.
Qed.

Lemma scaled_sub n a b :
  (Nat.max (places a) (places b) ≤ n)%nat →
  scaled n (a -d b) = scaled n a - scaled n b.
Proof.
  intros Hn. unfold sub. unfold scaled at 1. simpl.
  rewrite Z.mul_sub_distr_r, !scaled_rescale by lia. done.
Qed.

Lemma scaled_self d : scaled (places d) d = coef d.
Proof. unfold scaled. rewrite Nat.sub_diag, pow10_0. lia. Qed.

Lemma places_add a b : places (a +d b) = Nat.max (places a) (places b).
Proof. done. Qed.

Lemma places_sub a b : places (a -d b) = Nat.max (places a) (places b).
Proof. done. Qed.

Lemma decimal_eq a b : coef a = coef b → places a = places b → a = b.
Proof. destruct a, b; simpl; congruence. Qed.

Lemma add_comm a b : a +d b = b +d a.
Proof.
  apply decimal_eq; simpl; [|lia].
  rewrite (Nat.max_comm (places b)). lia.
Qed.

Lemma add_assoc a b c : a +d (b +d c) = a +d b +d c.
Proof.
  apply decimal_eq; simpl; [|lia].
  rewrite <- Nat.max_assoc.
  set (n := Nat.max (places a) (Nat.max (places b) (places c))).
  change (scaled n a + scaled n (b +d c) = scaled n (a +d b) + scaled n c).
  rewrite !scaled_add by lia. lia.
Qed.

Lemma add_zero2_r a : (2 ≤ places a)%nat → a +d zero2 = a.
Proof.
  intros H. apply decimal_eq; simpl; [|lia].
  rewrite Nat.max_l by (simpl; lia).
  rewrite scaled_self. unfold scaled. simpl. lia.
Qed.

Lemma sum_cons x l : sum (x :: l) = x +d sum l.
Proof. done. Qed.

Lemma places_sum l : (2 ≤ places (sum l))%nat.
Proof. induction l; simpl; lia. Qed.



(** Quantizing yields two places, and changes nothing when the amount
    already has two. *)
Lemma places_quantize2 d : places (quantize2 d) = 2%nat.
Proof. unfold quantize2. by case_bool_decide. Qed.

Lemma quantize2_id d : places d = 2%nat → quantize2 d = d.
Proof.
  intros H. unfold quantize2. rewrite bool_decide_true by lia.
  apply decimal_eq; simpl; [|done]. rewrite H. simpl. rewrite pow10_0. lia.
Qed.

(** Rounding half-even moves an amount by at most half a unit. *)
Lemma round_half_even_bound n d :
  0 < d → 2 * Z.abs (round_half_even n d * d - n) ≤ d.
Proof.
  intros Hd. unfold round_half_even.
  pose proof (Z.div_mod n d ltac:(lia)) as Hdm.
  pose proof (Z.mod_pos_bound n d Hd) as Hr.
  repeat case_bool_decide; [nia|nia|].
  destruct (Z.even (n / d)); nia.
Qed.

Lemma eqv_refl a : a ==d a.
Proof. done. Qed.

(** Two amounts are equal in value when their coefficients agree at any
    common number of places. *)
Lemma eqv_scaled n a b :
  (places a ≤ n)%nat → (places b ≤ n)%nat →
  a ==d b ↔ scaled n a = scaled n b.
Proof.
  intros Ha Hb. unfold eqv.
  set (m := Nat.max (places a) (places b)).
  rewrite <- (scaled_rescale m n a), <- (scaled_rescale m n b) by lia.
  pose proof (pow10_pos (n - m)). split; [by intros ->|].
  intros Heq. apply Z.mul_reg_r in Heq; [done|lia].
Qed.

Lemma scaled_zero2 n : scaled n zero2 = 0.
Proof. done. Qed.

Lemma eqv_sym a b : a ==d b → b ==d a.
Proof. unfold eqv. rewrite (Nat.max_comm (places b)). done. Qed.

Lemma eqv_trans a b c : a ==d b → b ==d c → a ==d c.
Proof.
  set (n := Nat.max (places a) (Nat.max (places b) (places c))).
  rewrite (eqv_scaled n a b), (eqv_scaled n b c), (eqv_scaled n a c) by lia.
  congruence.
Qed.

Lemma places_sum_mono {A} (f g : A → t) l :
  (∀ x, places (f x) ≤ places (g x))%nat →
  (places (sum (f <$> l)) ≤ places (sum (g <$> l)))%nat.
Proof.
  intros Hfg. induction l as [|x l IH]; [done|].
  rewrite !fmap_cons, !sum_cons, !places_add. specialize (Hfg x). lia.
Qed.

(** Quantizing moves an amount by at most half a cent. *)
Lemma quantize2_bound n x :
  (2 ≤ places x)%nat → (places x ≤ n)%nat →
  2 * Z.abs (coef (quantize2 x) * pow10 (n - 2) - scaled n x) ≤ pow10 (n - 2).
Proof.
  intros H2 Hn. unfold quantize2, scaled. case_bool_decide as Hp; simpl.
  - replace (places x) with 2%nat by lia. simpl. rewrite pow10_0.
    replace (coef x * 1 * pow10 (n - 2) - coef x * pow10 (n - 2)) with 0 by ring.
    pose proof (pow10_pos (n - 2)). lia.
  - replace (n - 2)%nat with ((places x - 2) + (n - places x))%nat by lia.
    rewrite pow10_add.
    pose proof (pow10_pos (places x - 2)) as Hu.
    pose proof (pow10_pos (n - places x)) as Hv.
    pose proof (round_half_even_bound (coef x) _ Hu) as Hb.
    set (u := pow10 (places x - 2)) in *. set (v := pow10 (n - places x)) in *.
    set (c := round_half_even (coef x) u) in *.
    replace (c * (u * v) - coef x * v) with ((c * u - coef x) * v) by ring.
    rewrite Z.abs_mul, (Z.abs_eq v) by lia. nia.
Qed.

End DecimalFacts.

(** ** Sale creation *)

Tactic Notation "unfold_monad" :=
  cbv [mbind M_bind bind mret M_ret ret raise get modify atomic
       get_product save_product].
Tactic Notation "unfold_monad" "in" hyp(H) :=
  cbv [mbind M_bind bind mret M_ret ret raise get modify atomic
       get_product save_product] in H.

Section SaleCreation.
Import SaleItemCreateSerializer SaleCreateSerializer SaleAmounts.
Import Decimal DecimalFacts.

Lemma lines_cons s item_data rest p :
  products s !! product_id item_data = Some p →
  lines s (item_data :: rest) = (p, item_data) :: lines s rest.
Proof. intros H. unfold lines. simpl. by rewrite H. Qed.

(** [validate] only reads: its loop returns the three sums and leaves
    the store as it was. *)
Lemma validate_items_loop_ok s items_data a b c :
  Forall (in_stock s) items_data →
  (2 ≤ places a)%nat → (2 ≤ places b)%nat → (2 ≤ places c)%nat →
  validate_items_loop items_data (a, b, c) s =
    (inr (a +d sum (uncurry item_subtotal <$> lines s items_data),
          b +d sum (uncurry item_tax <$> lines s items_data),
          c +d sum (uncurry item_discount <$> lines s items_data)), s).
Proof.
  intros Hall. revert a b c.
  induction Hall as [|item_data rest (p & Hp & Hq) _ IH]; intros a b c Ha Hb Hc.
  - simpl. unfold_monad. by rewrite !add_zero2_r.
  - rewrite (lines_cons _ _ _ _ Hp). simpl. unfold_monad. rewrite Hp.
    rewrite bool_decide_false by lia.
    rewrite IH by (simpl; lia). by rewrite !add_assoc.
Qed.

Lemma validate_ok s data :
  Forall (in_stock s) (items data) →
  ltb (amount_paid data) (computed_total s data) = false →
  validate data s =
    (inr (mkCalculated
            (quantize2 (exact_subtotal s data))
            (quantize2 (exact_tax s data))
            (quantize2 (exact_discount s data))
            (computed_total s data)
            (quantize2 (amount_paid data -d computed_total s data))), s).
Proof.
  intros Hall Hpaid. unfold validate.
  unfold mbind, M_bind, bind.
  rewrite (validate_items_loop_ok s _ _ _ _ Hall) by (simpl; lia).
  assert (Hz : ∀ l, zero2 +d sum l = sum l).
  { intros l. rewrite add_comm. apply add_zero2_r, places_sum. }
  rewrite !Hz. fold (exact_subtotal s data) (exact_tax s data) (exact_discount s data).
  fold (computed_total s data). by rewrite Hpaid.
Qed.

(** The loop of [create] succeeds when every line names a product and
    carries a discount. *)
Lemma create_items_loop_succeeds env sale items_data s :
  Forall (λ item_data, is_Some (products s !! product_id item_data)) items_data →
  Forall discount_given items_data →
  ∃ s', create_items_loop env sale items_data s = (inr tt, s').
Proof.
  revert s. induction items_data as [|item_data rest IH]; intros s Hall Hgiven.
  - by exists s.
  - apply Forall_cons in Hall as [[p Hp] Hrest].
    apply Forall_cons in Hgiven as [[dp Hdp] Hgiven].
    simpl. unfold_monad. rewrite Hp, Hdp. simpl.
    apply IH; [|done]. eapply Forall_impl; [exact Hrest|]. intros d [x Hx]. simpl in *.
    destruct (decide (product_id item_data = product_id d)) as [->|Hne].
    + rewrite lookup_insert_eq. eauto.
    + rewrite lookup_insert_ne by done. eauto.
Qed.

(** What the loop of [create] has done when it returns: it touched
    neither the sales, the payments, the alerts nor the purchase
    orders, and appended one balanced ledger row per line, carrying the
    quantity sold with a minus sign. *)
Lemma create_items_loop_effects env sale items_data s s' :
  create_items_loop env sale items_data s = (inr tt, s') →
  sales s' = sales s
  ∧ payments s' = payments s
  ∧ stock_alerts s' = stock_alerts s
  ∧ purchase_orders s' = purchase_orders s
  ∧ ∃ new_movements,
      stock_movements s' = stock_movements s ++ new_movements
      ∧ Forall StockMovement.balanced new_movements
      ∧ StockMovement.quantity <$> new_movements
          = (λ item_data, - quantity item_data) <$> items_data
      ∧ Forall (λ m, StockMovement.movement_type m = StockMovement.SaleOut)
               new_movements.
Proof.
  revert s. induction items_data as [|item_data rest IH]; intros s Hrun.
  - simpl in Hrun. unfold_monad in Hrun. injection Hrun as <-.
    repeat split. exists []. by rewrite app_nil_r.
  - simpl in Hrun. unfold_monad in Hrun.
    destruct (products s !! product_id item_data) as [p|] eqn:Hp; [|done].
    destruct (discount_percent item_data) as [dp|z]; simpl in Hrun; [|done].
    apply IH in Hrun as (Hsales & Hpay & Hal & Hpo & new & Hmov & Hbal & Hneg & Hty).
    simpl in *. repeat split; try done.
    eexists (_ :: new). rewrite Hmov, <- app_assoc. split; [done|].
    split; [|split].
    + constructor; [|done]. unfold StockMovement.balanced. simpl. lia.
    + by rewrite !fmap_cons, Hneg.
    + by constructor.
Qed.

(** A line whose discount was left out stops the loop of [create]: the
    int [0] reaches [SaleItem.save], which raises [TypeError]. *)
Lemma create_items_loop_type_error env sale items_data s :
  Forall (λ item_data, is_Some (products s !! product_id item_data)) items_data →
  Exists (λ item_data, ¬ discount_given item_data) items_data →
  ∃ s', create_items_loop env sale items_data s = (inl TypeError, s').
Proof.
  revert s. induction items_data as [|item_data rest IH]; intros s Hall Hex.
  - by apply Exists_nil in Hex.
  - apply Forall_cons in Hall as [[p Hp] Hrest]. simpl. unfold_monad. rewrite Hp.
    destruct (discount_percent item_data) as [dp|z] eqn:Hdp; simpl; [|by eexists].
    apply Exists_cons in Hex as [Hhd|Htl]; [destruct Hhd; by exists dp|].
    apply IH; [|done]. eapply Forall_impl; [exact Hrest|]. intros d [x Hx]. simpl in *.
    destruct (decide (product_id item_data = product_id d)) as [->|Hne].
    + rewrite lookup_insert_eq. eauto.
    + rewrite lookup_insert_ne by done. eauto.
Qed.

Lemma in_stock_is_Some s items_data :
  Forall (in_stock s) items_data →
  Forall (λ item_data, is_Some (products s !! product_id item_data)) items_data.
Proof. intros H. eapply Forall_impl; [exact H|]. intros d (p & Hp & _). eauto. Qed.

(** The amounts of a line stay within the 28 digits of the decimal
    context, so that no product or sum of [validate] is rounded: for a
    line whose amount fits the ten digits of the sale's columns, with the
    discount and the tax rate in the range of their own columns. *)
Lemma line_amounts_within_precision p d dp :
  discount_percent d = Dec dp →
  places (Product.price p) = 2%nat →
  places dp = 2%nat →
  places (Product.tax_rate p) = 2%nat →
  0 ≤ coef (Product.price p) →
  1 ≤ quantity d →
  coef (Product.price p) * quantity d < 10 ^ 10 →
  0 ≤ coef dp ≤ 10000 →
  0 ≤ coef (Product.tax_rate p) < 10 ^ 5 →
  Z.abs (coef (item_subtotal p d)) < 10 ^ 28
  ∧ Z.abs (coef (item_discount p d)) < 10 ^ 28
  ∧ Z.abs (coef (item_after_discount p d)) < 10 ^ 28
  ∧ Z.abs (coef (item_tax p d)) < 10 ^ 28.
Proof.
  intros Hdp Hp Hd Ht Hprice Hq Hamount Hdisc Htax.
  unfold item_tax, item_after_discount, item_discount, item_subtotal.
  rewrite Hdp. unfold to_decimal.
  unfold sub, mul, div100, of_int, scaled. simpl. rewrite Hp, Hd. simpl.
  unfold pow10. simpl.
  set (P := coef (Product.price p)) in *. set (D := coef dp) in *.
  set (T := coef (Product.tax_rate p)) in *. set (q := quantity d) in *.
  assert (0 ≤ P * q) by nia.
  assert (0 ≤ P * q * D ≤ 10 ^ 10 * 10000) by nia.
  assert (0 ≤ P * q * 10000 - P * q * D * 1 ≤ 10 ^ 10 * 10000) by nia.
  repeat split; try lia.
  rewrite Z.abs_eq by nia. nia.
Qed.

(** An accepted request: the sale is stored under a fresh key with the
    amounts [validate] computed. *)
Lemma create_view_ok env s data :
  fields_valid data = true →
  Forall (in_stock s) (items data) →
  Forall discount_given (items data) →
  ltb (amount_paid data) (computed_total s data) = false →
  ∃ pk s' new_movements,
    SaleCreateView.create env data s = (inr pk, s')
    ∧ sales s !! pk = None
    ∧ sales s' !! pk = Some
        (Sale.mk (generated_number env) (request_user env) (customer_name data)
           (quantize2 (exact_subtotal s data))
           (quantize2 (exact_tax s data))
           (quantize2 (exact_discount s data))
           (computed_total s data)
           (payment_method data) (amount_paid data)
           (quantize2 (amount_paid data -d computed_total s data))
           Sale.Completed (notes data))
    ∧ stock_movements s' = stock_movements s ++ new_movements
    ∧ Forall StockMovement.balanced new_movements
    ∧ StockMovement.quantity <$> new_movements
        = (λ item_data, - quantity item_data) <$> items data.
Proof.
  intros Hfields Hall Hgiven Hpaid.
  unfold SaleCreateView.create, is_valid. rewrite Hfields.
  unfold mbind at 1. unfold M_bind, bind. rewrite (validate_ok _ _ Hall Hpaid).
  unfold create. unfold_monad. simpl.
  set (pk := fresh (dom (sales s))).
  match goal with |- context [create_items_loop env pk (items data) ?s1] =>
    destruct (create_items_loop_succeeds env pk (items data) s1) as [s' Hrun]
  end.
  { by apply in_stock_is_Some. }
  { done. }
  rewrite Hrun.
  apply create_items_loop_effects
    in Hrun as (Hsales & Hpay & Hal & Hpo & new & Hmov & Hbal & Hneg & _).
  eexists pk, _, new. split; [done|]. simpl in *.
  split; [apply not_elem_of_dom, is_fresh|].
  rewrite Hsales, lookup_insert_eq. done.
Qed.

(** A request that passes validation with a discount left out on some
    line is not stored: [create] raises and its transaction is rolled
    back. *)
Lemma create_view_without_discount env s data :
  fields_valid data = true →
  Forall (in_stock s) (items data) →
  Exists (λ item_data, ¬ discount_given item_data) (items data) →
  ltb (amount_paid data) (computed_total s data) = false →
  SaleCreateView.create env data s = (inl TypeError, s).
Proof.
  intros Hfields Hall Hex Hpaid.
  unfold SaleCreateView.create, is_valid. rewrite Hfields.
  unfold mbind at 1. unfold M_bind, bind. rewrite (validate_ok _ _ Hall Hpaid).
  unfold create. unfold_monad. simpl.
  match goal with |- context [create_items_loop env ?pk (items data) ?s1] =>
    destruct (create_items_loop_type_error env pk (items data) s1) as [s' Hrun]
  end.
  { by apply in_stock_is_Some. }
  { done. }
  by rewrite Hrun.
Qed.

Example one_widget_no_discount_raises :
  SaleCreateView.create Examples.env Examples.one_widget_no_discount Examples.shop
  = (inl TypeError, Examples.shop).
Proof.
  apply create_view_without_discount.
  - reflexivity.
  - repeat constructor. exists Examples.widget. split; [reflexivity | simpl; lia].
  - apply Exists_cons_hd. intros [dp Hdp]. discriminate.
  - reflexivity.
Qed.

(** The stored total is within a cent of what the other stored amounts
    give, when prices are held with two decimal places. *)
Lemma stored_total_within_a_cent s data :
  Forall (λ line, (places (Product.price line.1) ≤ 2)%nat) (lines s (items data)) →
  Z.abs (coef (computed_total s data)
         - (coef (quantize2 (exact_subtotal s data))
            - coef (quantize2 (exact_discount s data))
            + coef (quantize2 (exact_tax s data)))) ≤ 1.
Proof.
  intros Hprices. unfold computed_total.
  set (S := exact_subtotal s data). set (D := exact_discount s data).
  set (T := exact_tax s data).
  assert (HS : places S = 2%nat).
  { unfold S, exact_subtotal. induction Hprices as [|[p d] l Hp _ IH]; [done|].
    rewrite fmap_cons, sum_cons, places_add, IH. simpl in *. lia. }
  assert (HD : (2 ≤ places D)%nat) by apply places_sum.
  assert (HT : (2 ≤ places T)%nat) by apply places_sum.
  assert (HpR : places (S -d D +d T)
                = Nat.max (Nat.max (places S) (places D)) (places T)) by done.
  remember (Nat.max (Nat.max (places S) (places D)) (places T)) as n eqn:Hn.
  pose proof (quantize2_bound n (S -d D +d T) ltac:(lia) ltac:(lia)) as HR.
  pose proof (quantize2_bound n D ltac:(lia) ltac:(lia)) as HDb.
  pose proof (quantize2_bound n T ltac:(lia) ltac:(lia)) as HTb.
  rewrite scaled_add, scaled_sub in HR by (rewrite ?places_sub; lia).
  rewrite (quantize2_id S HS).
  assert (HSs : scaled n S = coef S * pow10 (n - 2)).
  { unfold scaled. by rewrite HS. }
  rewrite HSs in HR.
  pose proof (pow10_pos (n - 2)) as Hu.
  set (u := pow10 (n - 2)) in *.
  set (cR := coef (quantize2 (S -d D +d T))) in *.
  set (cD := coef (quantize2 D)) in *. set (cT := coef (quantize2 T)) in *.
  set (sD := scaled n D) in *. set (sT := scaled n T) in *.
  clearbody cR cD cT sD sT u. clear -HR HDb HTb Hu.
  nia.
Qed.

End SaleCreation.

(** ** The total of a sale *)

Section SaleTotal.
Import SaleItemCreateSerializer SaleCreateSerializer SaleAmounts.
Import Decimal DecimalFacts.

(** The subtotal, discount and tax columns are each rounded on their
    own, from the sums the total is rounded from, and need not add up to
    it: a pen at 0.60 with a 1% discount and a cap at 0.40 taxed at 1%
    are stored with subtotal 1.00, discount 0.01, tax 0.00 and total
    1.00. *)
Example stored_sale_columns_rounded_apart :
  ∃ pk s' sale,
    fields_valid Examples.pen_and_cap = true
    ∧ Forall (in_stock Examples.kiosk) (items Examples.pen_and_cap)
    ∧ SaleCreateView.create Examples.env Examples.pen_and_cap Examples.kiosk = (inr pk, s')
    ∧ sales s' !! pk = Some sale
    ∧ Sale.subtotal sale = Decimal.mk 100 2
    ∧ Sale.discount_amount sale = Decimal.mk 1 2
    ∧ Sale.tax_amount sale = Decimal.mk 0 2
    ∧ Sale.total sale = Decimal.mk 100 2
    ∧ ¬ Sale.total sale
        ==d quantize2 (Sale.subtotal sale -d Sale.discount_amount sale
                       +d Sale.tax_amount sale).
Proof.
  destruct (SaleCreateView.create Examples.env Examples.pen_and_cap Examples.kiosk)
    as [r s'] eqn:Hrun.
  vm_compute in Hrun. injection Hrun as <- <-.
  eexists _, _, _. split; [reflexivity|]. split.
  { repeat constructor.
    - exists Examples.pen. split; [reflexivity | simpl; lia].
    - exists Examples.cap. split; [reflexivity | simpl; lia]. }
  split; [reflexivity|]. split; [vm_compute; reflexivity|].
  repeat split. vm_compute. discriminate.
Qed.

End SaleTotal.

(** ** A sale that asks for more than the stock *)

Section SaleOverStock.
Import SaleItemCreateSerializer SaleCreateSerializer SaleAmounts.

(** The loop of [validate] stops at the first line that names no
    product or asks for too much, before anything is written. *)
Lemma validate_items_loop_over_stock s items_data acc :
  Exists (exceeds_stock s) items_data →
  ∃ e, validate_items_loop items_data acc s = (inl e, s)
       ∧ (kind e = InsufficientStock ∨ kind e = NotFound)
       ∧ (Forall (λ item_data, is_Some (products s !! product_id item_data)) items_data →
          kind e = InsufficientStock).
Proof.
  revert acc. induction items_data as [|item_data rest IH]; intros acc Hex.
  - by apply Exists_nil in Hex.
  - simpl. unfold_monad.
    destruct (products s !! product_id item_data) as [p|] eqn:Hp.
    + case_bool_decide as Hq.
      * eexists. split; [done|]. split; [by left|done].
      * destruct acc as [[a b] c].
        apply Exists_cons in Hex as [(p' & Hp' & Hq')|Hex].
        { rewrite Hp in Hp'. injection Hp' as <-. lia. }
        destruct (IH (a +d item_subtotal p item_data,
                      b +d item_tax p item_data,
                      c +d item_discount p item_data) Hex) as (e & Hrun & Hk & Hres).
        exists e. split; [exact Hrun|]. split; [exact Hk|].
        intros Hall. apply Forall_cons in Hall as [_ Hall]. by apply Hres.
    + eexists. split; [done|]. split; [by right|].
      intros Hall. apply Forall_cons in Hall as [[x Hx] _]. congruence.
Qed.

(** C2, as amended. When some line of a sale request asks for more than
    its product's stock, sale creation fails and leaves the store as it
    was (no Sale, SaleItem, Payment or StockMovement row); the failure is
    InsufficientStock when the fields are valid and every line names a
    product, and otherwise may be NotFound (an unknown product met first)
    or a field validation error. *)
Theorem sale_over_stock_rejected env s data :
  Exists (exceeds_stock s) (items data) →
  ∃ e, SaleCreateView.create env data s = (inl e, s)
       ∧ (kind e = InsufficientStock ∨ kind e = NotFound ∨ kind e = ValidationError)
       ∧ (fields_valid data = true →
          Forall (λ item_data, is_Some (products s !! product_id item_data)) (items data) →
          kind e = InsufficientStock).
Proof.
  intros Hex. unfold SaleCreateView.create, is_valid.
  destruct (fields_valid data) eqn:Hfields.
  - unfold validate.
    destruct (validate_items_loop_over_stock s (items data)
                (Decimal.zero2, Decimal.zero2, Decimal.zero2) Hex)
      as (e & Hrun & Hk & Hres).
    exists e. unfold mbind, M_bind, bind. rewrite Hrun.
    split; [done|]. split; [tauto|]. intros _. exact Hres.
  - exists FieldErrors. split; [done|]. split; [tauto|done].
Qed.

Lemma sale_over_stock_rejected_witness :
  ∃ e, SaleCreateView.create Examples.env Examples.many_widgets Examples.shop
       = (inl e, Examples.shop)
       ∧ kind e = InsufficientStock.
Proof.
  destruct (sale_over_stock_rejected Examples.env Examples.shop Examples.many_widgets)
    as (e & Hrun & _ & Hkind).
  - apply Exists_cons_hd. exists Examples.widget. split; [reflexivity | simpl; lia].
  - exists e. split; [exact Hrun|]. apply Hkind; [reflexivity|].
    repeat constructor. exists Examples.widget. reflexivity.
Defined.

(** C2, as stated, fails: a request whose first line names no product and
    whose second line asks for 100 widgets out of 10 is refused with
    NotFound, not with InsufficientStock. *)
Lemma sale_over_stock_counterexample :
  Exists (exceeds_stock Examples.shop) (items Examples.unknown_then_many_widgets)
  ∧ SaleCreateView.create Examples.env Examples.unknown_then_many_widgets Examples.shop
    = (inl (ProductNotFound 99), Examples.shop)
  ∧ kind (ProductNotFound 99) ≠ InsufficientStock.
Proof.
  split; [|split].
  - apply Exists_cons_tl, Exists_cons_hd.
    exists Examples.widget. split; [reflexivity | simpl; lia].
  - reflexivity.
  - discriminate.
Qed.

End SaleOverStock.

(** ** Stock bookkeeping shared by the loops *)

Section StockFacts.

Lemma add_stock_0 p : add_stock 0 p = p.
Proof. destruct p. unfold add_stock, Product.with_stock_quantity. simpl. f_equal. lia. Qed.

Lemma add_stock_add m n p : add_stock n (add_stock m p) = add_stock (m + n) p.
Proof. unfold add_stock, Product.with_stock_quantity. simpl. f_equal. lia. Qed.

Lemma stock_add_stock n p :
  Product.stock_quantity (add_stock n p) = Product.stock_quantity p + n.
Proof. done. Qed.

Lemma products_exist_insert s pid p pids :
  is_Some (products s !! pid) →
  products_exist s pids →
  products_exist (with_products <[pid := p]> s) pids.
Proof.
  intros _ Hall. eapply Forall_impl; [exact Hall|]. intros k [x Hx]. simpl.
  destruct (decide (pid = k)) as [->|Hne].
  - rewrite lookup_insert_eq. eauto.
  - rewrite lookup_insert_ne by done. eauto.
Qed.

(** One more update of product [pid0] by [q0] units, after which the
    remaining updates are those of [rest]. *)
Lemma stock_step (m m' : gmap Z Product.t) pid0 p0 q0 (rest_for : Z → Z) (all_for : Z → Z) :
  m !! pid0 = Some p0 →
  (∀ pid, m' !! pid = add_stock (rest_for pid) <$> <[pid0 := add_stock q0 p0]> m !! pid) →
  all_for pid0 = q0 + rest_for pid0 →
  (∀ pid, pid ≠ pid0 → all_for pid = rest_for pid) →
  ∀ pid, m' !! pid = add_stock (all_for pid) <$> m !! pid.
Proof.
  intros Hp Hm' Hsame Hother pid. rewrite Hm'.
  destruct (decide (pid0 = pid)) as [<-|Hne].
  - rewrite lookup_insert_eq, Hp. simpl. by rewrite add_stock_add, Hsame.
  - rewrite lookup_insert_ne by done. by rewrite Hother.
Qed.

Lemma atomic_inv {A} (body : M A) s r s' :
  atomic body s = (r, s') →
  (∃ e, r = inl e ∧ s' = s) ∨ (∃ a, r = inr a ∧ body s = (inr a, s')).
Proof.
  unfold atomic. destruct (body s) as [[e|a] s1]; intros [= <- <-]; eauto.
Qed.

End StockFacts.

(** ** Sale cancellation *)

Section SaleCancellation.

Lemma sold_for_cons pid item rest :
  sold_for pid (item :: rest)
  = (if decide (SaleItem.product item = pid) then SaleItem.quantity item else 0)
    + sold_for pid rest.
Proof.
  unfold sold_for. rewrite filter_cons. case_decide; simpl; lia.
Qed.

Lemma restore_stock_loop_succeeds items s :
  products_exist s (SaleItem.product <$> items) →
  ∃ s', restore_stock_loop items s = (inr tt, s').
Proof.
  revert s. induction items as [|item rest IH]; intros s Hall.
  - by exists s.
  - rewrite fmap_cons in Hall. apply Forall_cons in Hall as [[p Hp] Hrest].
    simpl. unfold_monad. rewrite Hp. apply IH. by apply products_exist_insert.
Qed.

(** The loop adds to every product the units the sale took of it, and
    touches no other table. *)
Lemma restore_stock_loop_effects items s s' :
  restore_stock_loop items s = (inr tt, s') →
  (∀ pid, products s' !! pid = add_stock (sold_for pid items) <$> products s !! pid)
  ∧ sales s' = sales s
  ∧ sale_items s' = sale_items s
  ∧ payments s' = payments s
  ∧ stock_movements s' = stock_movements s
  ∧ stock_alerts s' = stock_alerts s
  ∧ purchase_orders s' = purchase_orders s
  ∧ purchase_order_items s' = purchase_order_items s.
Proof.
  revert s. induction items as [|item rest IH]; intros s Hrun.
  - simpl in Hrun. unfold_monad in Hrun. injection Hrun as <-.
    repeat split. intros pid. unfold sold_for. simpl.
    destruct (products s !! pid); simpl; [|done]. by rewrite add_stock_0.
  - simpl in Hrun. unfold_monad in Hrun.
    destruct (products s !! SaleItem.product item) as [p|] eqn:Hp; [|done].
    apply IH in Hrun as (Hprod & Hrest). simpl in *. split; [|exact Hrest].
    eapply stock_step; [exact Hp|exact Hprod|..].
    + rewrite sold_for_cons. by rewrite decide_True.
    + intros pid Hne. rewrite sold_for_cons. rewrite decide_False by done. lia.
Qed.

(** C7. Cancelling a sale that is already cancelled fails with Conflict
    and leaves the store, hence every stock quantity, as it was;
    cancelling a sale that is not cancelled adds back to each product the
    quantities of the sale's lines and sets the sale's status to
    cancelled, after which a second cancellation is refused. *)
Theorem cancel_sale_restores_stock_once s pk sale :
  sales s !! pk = Some sale →
  products_exist s (SaleItem.product <$> sale_items_of s pk) →
  (Sale.status sale = Sale.Cancelled →
     cancel_sale_view pk s = (inl SaleAlreadyCancelled, s)
     ∧ kind SaleAlreadyCancelled = Conflict)
  ∧ (Sale.status sale ≠ Sale.Cancelled →
     ∃ s', cancel_sale_view pk s = (inr tt, s')
       ∧ (∀ pid, products s' !! pid
                 = add_stock (sold_for pid (sale_items_of s pk)) <$> products s !! pid)
       ∧ (∀ pid, stock s' pid
                 = (λ q, q + sold_for pid (sale_items_of s pk)) <$> stock s pid)
       ∧ sales s' = <[pk := Sale.with_status Sale.Cancelled sale]> (sales s)
       ∧ stock_movements s' = stock_movements s
       ∧ cancel_sale_view pk s' = (inl SaleAlreadyCancelled, s')).
Proof.
  intros Hsale Hexist. split; intros Hstatus.
  - unfold cancel_sale_view. unfold_monad. rewrite Hsale.
    by rewrite bool_decide_true.
  - destruct (restore_stock_loop_succeeds _ _ Hexist) as [s1 Hrun].
    pose proof (restore_stock_loop_effects _ _ _ Hrun)
      as (Hprod & Hsales & _ & _ & Hmov & _).
    eexists. unfold cancel_sale_view. unfold_monad. rewrite Hsale.
    rewrite bool_decide_false by done. rewrite Hrun. simpl.
    split; [done|]. simpl. split; [exact Hprod|]. split.
    { intros pid. unfold stock. simpl. rewrite Hprod.
      by destruct (products s !! pid). }
    split; [by rewrite Hsales|]. split; [done|].
    rewrite lookup_insert_eq. done.
Qed.

Lemma cancel_sale_restores_stock_once_witness :
  ∃ s', cancel_sale_view 0 Examples.shop_after_sale = (inr tt, s')
        ∧ stock Examples.shop_after_sale 1 = Some 8
        ∧ stock s' 1 = Some 10
        ∧ cancel_sale_view 0 s' = (inl SaleAlreadyCancelled, s').
Proof.
  destruct (SaleCreateView.create Examples.env Examples.two_widgets Examples.shop)
    as [r s1] eqn:Hcreate.
  assert (Hs1 : Examples.shop_after_sale = s1).
  { unfold Examples.shop_after_sale. by rewrite Hcreate. }
  vm_compute in Hcreate. injection Hcreate as _ <-.
  rewrite Hs1.
  match goal with |- context [cancel_sale_view 0 ?s1] =>
    destruct (cancel_sale_restores_stock_once s1 0
      (Sale.mk "20240101-0A1B2C3D" 1 "" (Decimal.mk 20000 2) (Decimal.mk 2880 2)
         (Decimal.mk 2000 2) (Decimal.mk 20880 2) Cash (Decimal.mk 25000 2)
         (Decimal.mk 4120 2) Sale.Completed ""))
      as [_ Hcancel]
  end.
  - reflexivity.
  - repeat constructor. eexists. reflexivity.
  - destruct Hcancel as (s' & Hrun & _ & Hstock & _ & _ & Hagain); [discriminate|].
    exists s'. split; [exact Hrun|]. split; [reflexivity|].
    split; [|exact Hagain]. rewrite Hstock. reflexivity.
Defined.

End SaleCancellation.

(** ** Manual stock adjustment *)

Section StockAdjustment.
Import StockAdjustmentSerializer.

Lemma open_alerts_app pid rows rows' :
  open_alerts pid (rows ++ rows') = open_alerts pid rows ++ open_alerts pid rows'.
Proof. apply filter_app. Qed.

Lemma open_alerts_new pid level current :
  open_alerts pid [StockAlert.mk pid level current false None]
  = [StockAlert.mk pid level current false None].
Proof.
  unfold open_alerts. rewrite filter_cons, decide_True; [done|].
  unfold StockAlert.is_open_for. simpl. by rewrite bool_decide_true.
Qed.

(** [get_or_create] with at most one alert open: afterwards exactly one
    is open, and a row was added only if none was. *)
Lemma get_or_create_open_alert_spec pid level current s :
  (length (open_alerts pid (stock_alerts s)) ≤ 1)%nat →
  ∃ s', get_or_create_open_alert pid level current s = (inr tt, s')
    ∧ length (open_alerts pid (stock_alerts s')) = 1%nat
    ∧ ((open_alerts pid (stock_alerts s) = []
        ∧ s' = with_stock_alerts
                 (λ rows, rows ++ [StockAlert.mk pid level current false None]) s)
       ∨ (open_alerts pid (stock_alerts s) ≠ [] ∧ s' = s)).
Proof.
  intros Hone. unfold get_or_create_open_alert. unfold_monad.
  destruct (open_alerts pid (stock_alerts s)) as [|a [|b rest]] eqn:Hopen.
  - eexists. split; [done|]. simpl. split; [|by left].
    by rewrite open_alerts_app, Hopen, open_alerts_new.
  - exists s. split; [done|]. rewrite Hopen. split; [done|by right].
  - simpl in Hone. lia.
Qed.

(** The transaction of [post], for the new quantity and the delta its
    three branches compute. *)
Lemma adjustment_commits env data product new_quantity delta s :
  products s !! product_id data = Some product →
  (length (open_alerts (product_id data) (stock_alerts s)) ≤ 1)%nat →
  StockAdjustmentSerializer.is_valid data s = (inr product, s) →
  (let previous_quantity := Product.stock_quantity product in
   match adjustment_type data with
   | Add => (previous_quantity + quantity data, quantity data)
   | Remove => (previous_quantity - quantity data, - quantity data)
   | SetTo => (quantity data, quantity data - previous_quantity)
   end) = (new_quantity, delta) →
  adjusted env data product new_quantity delta s.
Proof.
  intros Hp Hone Hvalid Hbranch. unfold adjusted, StockAdjustmentView.post.
  unfold mbind at 1. unfold M_bind at 1. unfold bind at 1. rewrite Hvalid.
  simpl in Hbranch. rewrite Hbranch. unfold_monad.
  case_bool_decide as Hlow.
  - match goal with |- context [get_or_create_open_alert ?a ?b ?c ?s1] =>
      destruct (get_or_create_open_alert_spec a b c s1)
        as (s' & Hrun & Hcount & Hcase); [exact Hone|]
    end.
    rewrite Hrun. eexists _, s'. split; [done|]. simpl in Hcase.
    destruct Hcase as [[Hnone ->]|[Hsome ->]]; simpl in *;
      repeat split; try done; try lia;
      unfold stock; simpl; by rewrite lookup_insert_eq.
  - eexists _, _. split; [done|]. simpl.
    repeat split; try done; try lia.
    unfold stock; simpl; by rewrite lookup_insert_eq.
Qed.

(** C8. A manual adjustment by q >= 0 of a product holding p: add gives
    p+q with delta +q; remove fails with InsufficientStock when p < q and
    otherwise gives p-q with delta -q; set gives q with delta q-p; and
    when the resulting stock is at most min_stock_level exactly one alert
    is open for the product afterwards, created only if none was open
    (the store holding at most one open alert per product beforehand). *)
Theorem stock_adjustment_semantics env s data product :
  fields_valid data = true →
  products s !! product_id data = Some product →
  (length (open_alerts (product_id data) (stock_alerts s)) ≤ 1)%nat →
  let p := Product.stock_quantity product in
  let q := quantity data in
  0 ≤ q
  ∧ match adjustment_type data with
    | Add => adjusted env data product (p + q) q s
    | Remove =>
        if decide (p < q)
        then StockAdjustmentView.post env data s = (inl (CannotRemoveUnits q p), s)
             ∧ kind (CannotRemoveUnits q p) = InsufficientStock
        else adjusted env data product (p - q) (- q) s
    | SetTo => adjusted env data product q (q - p) s
    end.
Proof.
  intros Hfields Hp Hone p q. split.
  { unfold fields_valid in Hfields. rewrite !andb_true_iff in Hfields.
    destruct Hfields as [[[Hq _] _] _]. by apply bool_decide_eq_true in Hq. }
  assert (Hvalid : adjustment_type data ≠ Remove ∨ ¬ p < q →
                   StockAdjustmentSerializer.is_valid data s = (inr product, s)).
  { intros Hok. unfold is_valid, validate. rewrite Hfields. unfold_monad. rewrite Hp.
    destruct (adjustment_type data); try done.
    rewrite bool_decide_false; [done|]. destruct Hok; [done|]. done. }
  destruct (adjustment_type data) eqn:Hty.
  - eapply adjustment_commits; try done; [by apply Hvalid; left|by rewrite Hty].
  - case_decide as Hlt.
    + split; [|done]. unfold StockAdjustmentView.post, is_valid, validate.
      rewrite Hfields. unfold_monad. rewrite Hp, Hty.
      by rewrite bool_decide_true.
    + eapply adjustment_commits; try done; [by apply Hvalid; right|by rewrite Hty].
  - eapply adjustment_commits; try done; [by apply Hvalid; left|by rewrite Hty].
Qed.

Lemma stock_adjustment_semantics_witness :
  ∃ movement s',
    StockAdjustmentView.post Examples.env Examples.remove_three Examples.depot
    = (inr movement, s')
    ∧ stock s' 7 = Some 2
    ∧ StockMovement.quantity movement = -3
    ∧ stock_alerts s' = [StockAlert.mk 7 10 2 false None].
Proof.
  destruct (stock_adjustment_semantics Examples.env Examples.depot
              Examples.remove_three Examples.bolt) as [_ Hadj].
  - reflexivity.
  - reflexivity.
  - simpl. lia.
  - simpl in Hadj. destruct Hadj
      as (movement & s' & Hrun & _ & Hstock & _ & _ & Hq & _ & _ & _ & Hlow & _).
    exists movement, s'. split; [exact Hrun|]. split; [exact Hstock|].
    split; [exact Hq|]. destruct Hlow as (_ & Hnew & _); [simpl; lia|].
    apply Hnew. reflexivity.
Defined.

End StockAdjustment.

(** ** Receiving a purchase order *)

Section Receiving.

Lemma ordered_for_cons pid item rest :
  ordered_for pid (item :: rest)
  = (if decide (PurchaseOrderItem.product item = pid)
     then PurchaseOrderItem.quantity_ordered item else 0)
    + ordered_for pid rest.
Proof.
  unfold ordered_for. rewrite filter_cons. case_decide; simpl; lia.
Qed.

Lemma resolve_for_nil now rows : resolve_for now [] rows = rows.
Proof.
  unfold resolve_for. rewrite <- (list_fmap_id rows) at 2.
  apply list_fmap_ext. intros i a _. rewrite bool_decide_false; [done|].
  apply not_elem_of_nil.
Qed.

Lemma resolve_for_cons now pid pids rows :
  resolve_for now pids (resolve_open_alerts now pid rows)
  = resolve_for now (pid :: pids) rows.
Proof.
  unfold resolve_for, resolve_open_alerts. rewrite <- list_fmap_compose.
  apply list_fmap_ext. intros i [prod level current resolved at_] _.
  unfold StockAlert.is_open_for, StockAlert.resolve. simpl.
  destruct resolved; simpl; repeat (case_bool_decide; simpl); try done;
    exfalso; rewrite elem_of_cons in *; tauto.
Qed.

Lemma receive_items_loop_succeeds env po items s :
  products_exist s (PurchaseOrderItem.product <$> items.*2) →
  ∃ s', receive_items_loop env po items s = (inr tt, s').
Proof.
  revert s. induction items as [|[i item] rest IH]; intros s Hall.
  - by exists s.
  - rewrite !fmap_cons in Hall. apply Forall_cons in Hall as [[p Hp] Hrest].
    simpl in *. unfold_monad. rewrite Hp. apply IH.
    eapply Forall_impl; [exact Hrest|]. intros k [x Hx]. simpl.
    destruct (decide (PurchaseOrderItem.product item = k)) as [->|Hne].
    + rewrite lookup_insert_eq. eauto.
    + rewrite lookup_insert_ne by done. eauto.
Qed.

(** What the loop of [receive_purchase_order] has done when it returns. *)
Lemma receive_items_loop_effects env po items s s' :
  receive_items_loop env po items s = (inr tt, s') →
  (∀ pid, products s' !! pid
          = add_stock (ordered_for pid items.*2) <$> products s !! pid)
  ∧ stock_alerts s'
    = resolve_for (now env) (PurchaseOrderItem.product <$> items.*2) (stock_alerts s)
  ∧ purchase_orders s' = purchase_orders s
  ∧ sales s' = sales s
  ∧ (∃ new_movements,
       stock_movements s' = stock_movements s ++ new_movements
       ∧ Forall StockMovement.balanced new_movements
       ∧ Forall (λ m, StockMovement.movement_type m = StockMovement.Purchase)
                new_movements)
  ∧ length (purchase_order_items s') = length (purchase_order_items s)
  ∧ (∀ j, j ∉ items.*1 → purchase_order_items s' !! j = purchase_order_items s !! j)
  ∧ (NoDup items.*1 → ∀ i item, (i, item) ∈ items →
       (i < length (purchase_order_items s))%nat →
       purchase_order_items s' !! i = Some (received_item item)).
Proof.
  revert s. induction items as [|[i0 item0] rest IH]; intros s Hrun.
  - simpl in Hrun. unfold_monad in Hrun. injection Hrun as <-.
    split.
    { intros pid. unfold ordered_for. simpl.
      destruct (products s !! pid); simpl; [|done]. by rewrite add_stock_0. }
    split; [by rewrite resolve_for_nil|].
    repeat split; try done.
    + exists []. by rewrite app_nil_r.
    + intros _ i item Hin. by apply elem_of_nil in Hin.
  - simpl in Hrun. unfold_monad in Hrun.
    destruct (products s !! PurchaseOrderItem.product item0) as [p|] eqn:Hp; [|done].
    apply IH in Hrun
      as (Hprod & Hal & Hpo & Hsales & (new & Hmov & Hbal & Hty) & Hlen & Hout & Hin).
    simpl in *. split; [|split; [|split; [|split; [|split; [|split; [|split]]]]]].
    + eapply stock_step; [exact Hp|exact Hprod|..].
      * rewrite ordered_for_cons. by rewrite decide_True.
      * intros pid Hne. rewrite ordered_for_cons. by rewrite decide_False.
    + rewrite Hal. apply resolve_for_cons.
    + done.
    + done.
    + eexists (_ :: new). rewrite Hmov, <- app_assoc. split; [done|].
      split; constructor; try done. unfold StockMovement.balanced. simpl. lia.
    + by rewrite Hlen, length_insert.
    + intros j Hj. rewrite Hout.
      * apply list_lookup_insert_ne. intros ->. apply Hj, list_elem_of_here.
      * intros Hj'. apply Hj. by apply list_elem_of_further.
    + intros Hnd i item Hmem Hi. apply NoDup_cons in Hnd as [Hfresh Hnd].
      apply elem_of_cons in Hmem as [[= -> ->]|Hmem].
      * rewrite Hout by done. by apply list_lookup_insert_eq.
      * apply Hin; [done..|]. by rewrite length_insert.
Qed.

(** The lines of an order, as read from the table. *)
Lemma purchase_order_items_of_spec s pk i item :
  (i, item) ∈ purchase_order_items_of s pk
  ↔ purchase_order_items s !! i = Some item
    ∧ PurchaseOrderItem.purchase_order item = pk.
Proof.
  unfold purchase_order_items_of. rewrite list_elem_of_filter. simpl.
  rewrite elem_of_lookup_imap. split.
  - intros (Hpk & j & y & [= -> ->] & Hj). done.
  - intros (Hi & Hpk). split; [done|]. by exists i, item.
Qed.

Lemma purchase_order_items_of_NoDup s pk : NoDup (purchase_order_items_of s pk).*1.
Proof.
  apply NoDup_fmap_fst.
  - intros i x y [Hx _]%purchase_order_items_of_spec [Hy _]%purchase_order_items_of_spec.
    congruence.
  - unfold purchase_order_items_of. apply NoDup_filter.
    eapply (NoDup_fmap_1 fst). rewrite fmap_imap.
    rewrite (imap_ext _ (λ j _, j)) by done.
    rewrite (imap_seq_0 _ id), list_fmap_id. apply NoDup_seq.
Qed.

Lemma resolve_for_resolved now pids rows a :
  a ∈ resolve_for now pids rows →
  StockAlert.product a ∈ pids →
  StockAlert.is_resolved a = true.
Proof.
  unfold resolve_for. intros (a0 & -> & _)%list_elem_of_fmap.
  destruct a0 as [prod level current resolved at_]. simpl.
  destruct resolved; simpl.
  - by rewrite andb_false_r.
  - rewrite andb_true_r. case_bool_decide; simpl; done.
Qed.

(** A purchase order that is not yet received, with its products on
    record, is received in full. *)
Lemma receive_commits env s pk po :
  purchase_orders s !! pk = Some po →
  PurchaseOrder.status po ≠ PurchaseOrder.Received →
  products_exist s (PurchaseOrderItem.product <$> (purchase_order_items_of s pk).*2) →
  let items := (purchase_order_items_of s pk).*2 in
  ∃ s', receive_purchase_order env pk s = (inr tt, s')
    ∧ (∀ pid, stock s' pid = (λ q, q + ordered_for pid items) <$> stock s pid)
    ∧ stock_alerts s'
      = resolve_for (now env) (PurchaseOrderItem.product <$> items) (stock_alerts s)
    ∧ (∀ i item, purchase_order_items s !! i = Some item →
            PurchaseOrderItem.purchase_order item = pk →
            purchase_order_items s' !! i = Some (received_item item))
    ∧ purchase_orders s'
      = <[pk := PurchaseOrder.with_received_date (now env)
                  (PurchaseOrder.with_status PurchaseOrder.Received po)]>
          (purchase_orders s).
Proof.
  intros Hpo Hstatus Hexist items.
  destruct (receive_items_loop_succeeds env po _ _ Hexist) as [s1 Hrun].
  pose proof (receive_items_loop_effects _ _ _ _ _ Hrun)
    as (Hprod & Hal & Hpos & _ & _ & Hlen & _ & Hin).
  eexists. unfold receive_purchase_order. unfold_monad. rewrite Hpo.
  rewrite bool_decide_false by done. rewrite Hrun. simpl.
  split; [done|]. simpl. split; [|split; [|split]].
  - intros pid. unfold stock. simpl. rewrite Hprod.
    by destruct (products s !! pid).
  - exact Hal.
  - intros i item Hi Hpk. apply Hin.
    + apply purchase_order_items_of_NoDup.
    + by apply purchase_order_items_of_spec.
    + by apply lookup_lt_Some in Hi.
  - by rewrite Hpos.
Qed.

(** C4. Receiving a purchase order that is not already received adds to
    each product's stock the sum of quantity_ordered over the order's
    lines for that product, resolves every alert open for a product on
    those lines, sets each line's quantity_received to its
    quantity_ordered and the order's status to received; receiving an
    order already received fails with Conflict and changes nothing. *)
Theorem receive_purchase_order_effects env s pk po :
  purchase_orders s !! pk = Some po →
  products_exist s (PurchaseOrderItem.product <$> (purchase_order_items_of s pk).*2) →
  let items := (purchase_order_items_of s pk).*2 in
  (PurchaseOrder.status po = PurchaseOrder.Received →
     receive_purchase_order env pk s = (inl PurchaseOrderAlreadyReceived, s)
     ∧ kind PurchaseOrderAlreadyReceived = Conflict)
  ∧ (PurchaseOrder.status po ≠ PurchaseOrder.Received →
     ∃ s', receive_purchase_order env pk s = (inr tt, s')
       ∧ (∀ pid, stock s' pid = (λ q, q + ordered_for pid items) <$> stock s pid)
       ∧ stock_alerts s'
         = resolve_for (now env) (PurchaseOrderItem.product <$> items) (stock_alerts s)
       ∧ (∀ a, a ∈ stock_alerts s' →
               StockAlert.product a ∈ (PurchaseOrderItem.product <$> items) →
               StockAlert.is_resolved a = true)
       ∧ (∀ i item, purchase_order_items s !! i = Some item →
               PurchaseOrderItem.purchase_order item = pk →
               ∃ item', purchase_order_items s' !! i = Some item'
                        ∧ PurchaseOrderItem.quantity_received item'
                          = PurchaseOrderItem.quantity_ordered item
                        ∧ PurchaseOrderItem.quantity_ordered item'
                          = PurchaseOrderItem.quantity_ordered item
                        ∧ PurchaseOrderItem.product item' = PurchaseOrderItem.product item)
       ∧ PurchaseOrder.status <$> purchase_orders s' !! pk = Some PurchaseOrder.Received).
Proof.
  intros Hpo Hexist items. split; intros Hstatus.
  - unfold receive_purchase_order. unfold_monad. rewrite Hpo.
    by rewrite bool_decide_true.
  - destruct (receive_commits env s pk po Hpo Hstatus Hexist)
      as (s' & Hrun & Hstock & Hal & Hitems & Hpos).
    exists s'. split; [exact Hrun|]. split; [exact Hstock|]. split; [exact Hal|].
    split; [|split].
    + intros a. rewrite Hal. apply resolve_for_resolved.
    + intros i item Hi Hpk. exists (received_item item).
      split; [by apply Hitems|done].
    + by rewrite Hpos, lookup_insert_eq.
Qed.

Lemma receive_purchase_order_effects_witness :
  ∃ s', receive_purchase_order Examples.env 4 Examples.depot_with_order = (inr tt, s')
        ∧ stock Examples.depot_with_order 7 = Some 5
        ∧ stock s' 7 = Some 15
        ∧ stock_alerts s' = [StockAlert.mk 7 10 5 true (Some 1700000000)]
        ∧ PurchaseOrder.status <$> purchase_orders s' !! 4 = Some PurchaseOrder.Received.
Proof.
  destruct (receive_purchase_order_effects Examples.env Examples.depot_with_order 4
              Examples.bolt_order) as [_ Hreceive].
  - reflexivity.
  - repeat constructor. eexists. reflexivity.
  - destruct Hreceive as (s' & Hrun & Hstock & Hal & _ & _ & Hstatus); [discriminate|].
    exists s'. split; [exact Hrun|]. split; [reflexivity|].
    split; [by rewrite Hstock|]. split; [by rewrite Hal|]. exact Hstatus.
Defined.

End Receiving.

(** ** Creating a purchase order *)

Section PurchaseOrderCreation.
Import PurchaseOrderCreateSerializer.
Import Decimal DecimalFacts.


(** What the loop of [create] has done when it returns: one row per
    line, in order, and nothing else. *)
Lemma po_create_items_loop_effects pk items_data subtotal s r s' :
  create_items_loop pk items_data subtotal s = (inr r, s') →
  products s' = products s
  ∧ purchase_orders s' = purchase_orders s
  ∧ stock_alerts s' = stock_alerts s
  ∧ stock_movements s' = stock_movements s
  ∧ sales s' = sales s
  ∧ purchase_order_items s'
    = purchase_order_items s
      ++ ((λ item_data, PurchaseOrderItem.save pk (product_id item_data)
                          (quantity item_data) 0 (unit_cost item_data))
          <$> items_data).
Proof.
  revert s subtotal. induction items_data as [|item_data rest IH]; intros s subtotal Hrun.
  - simpl in Hrun. unfold_monad in Hrun. injection Hrun as <- <-.
    repeat split. by rewrite app_nil_r.
  - simpl in Hrun. unfold_monad in Hrun.
    destruct (products s !! product_id item_data) as [p|] eqn:Hp; [|done].
    apply IH in Hrun as (Hprod & Hpo & Hal & Hmov & Hsales & Hitems).
    simpl in *. repeat split; try done.
    rewrite Hitems, <- app_assoc. done.
Qed.







End PurchaseOrderCreation.

(** ** What each operation leaves untouched *)

Section Frames.

Lemma ledger_extended_refl s : ledger_extended s s.
Proof. exists []. by rewrite app_nil_r. Qed.

Lemma ledger_extended_same s s' :
  stock_movements s' = stock_movements s → ledger_extended s s'.
Proof. intros H. exists []. by rewrite app_nil_r. Qed.

Lemma alerts_extended_same s s' :
  stock_alerts s' = stock_alerts s → alerts_extended s s'.
Proof. intros H. exists []. by rewrite app_nil_r. Qed.

(** [validate] writes nothing, whatever it answers. *)
Lemma validate_items_loop_reads s items_data acc :
  (SaleCreateSerializer.validate_items_loop items_data acc s).2 = s.
Proof.
  revert acc. induction items_data as [|item_data rest IH]; intros acc; [done|].
  simpl. unfold_monad.
  destruct (products s !! _) as [p|]; [|done].
  case_bool_decide; [done|]. destruct acc as [[a b] c]. apply IH.
Qed.

Lemma sale_is_valid_reads s data :
  (SaleCreateSerializer.is_valid data s).2 = s.
Proof.
  unfold SaleCreateSerializer.is_valid, SaleCreateSerializer.validate.
  destruct (SaleCreateSerializer.fields_valid data); [|done].
  unfold mbind, M_bind, bind.
  pose proof (validate_items_loop_reads s (SaleCreateSerializer.items data)
                (Decimal.zero2, Decimal.zero2, Decimal.zero2)) as Hs.
  destruct (SaleCreateSerializer.validate_items_loop _ _ s) as [[e|[[a b] c]] s1];
    simpl in Hs; subst s1; [done|].
  by destruct (Decimal.ltb _ _).
Qed.

Lemma sale_is_valid_fields s data calculated s1 :
  SaleCreateSerializer.is_valid data s = (inr calculated, s1) →
  SaleCreateSerializer.fields_valid data = true.
Proof.
  unfold SaleCreateSerializer.is_valid.
  by destruct (SaleCreateSerializer.fields_valid data).
Qed.

Lemma sold_quantities_negative items_data (new_movements : list StockMovement.t) :
  forallb SaleItemCreateSerializer.fields_valid items_data = true →
  StockMovement.quantity <$> new_movements
  = (λ item_data, - SaleItemCreateSerializer.quantity item_data) <$> items_data →
  Forall (λ m, StockMovement.movement_type m = StockMovement.SaleOut →
               StockMovement.quantity m < 0) new_movements.
Proof.
  revert new_movements.
  induction items_data as [|item_data rest IH]; intros [|m new] Hvalid Hq; try done.
  simpl in Hvalid. apply andb_true_iff in Hvalid as [Hhd Htl].
  rewrite !fmap_cons in Hq. injection Hq as Hm Hq. constructor; [|by apply IH].
  intros _. unfold SaleItemCreateSerializer.fields_valid in Hhd.
  apply andb_true_iff in Hhd as [Hone _]. apply bool_decide_eq_true in Hone. lia.
Qed.

Lemma create_sale_frame env data s r s' :
  SaleCreateView.create env data s = (r, s') →
  ledger_extended s s'
  ∧ stock_alerts s' = stock_alerts s
  ∧ purchase_orders s' = purchase_orders s.
Proof.
  unfold SaleCreateView.create. unfold mbind at 1. unfold M_bind, bind.
  pose proof (sale_is_valid_reads s data) as Hreads.
  destruct (SaleCreateSerializer.is_valid data s) as [[e|calculated] s1] eqn:Hvalid;
    simpl in Hreads; subst s1.
  { intros [= <- <-]. split; [apply ledger_extended_refl|done]. }
  apply sale_is_valid_fields in Hvalid.
  intros [(e & -> & ->)|(pk & -> & Hbody)]%atomic_inv.
  { split; [apply ledger_extended_refl|done]. }
  unfold_monad in Hbody.
  match type of Hbody with context [SaleCreateSerializer.create_items_loop ?e ?k ?l ?s1] =>
    destruct (SaleCreateSerializer.create_items_loop e k l s1) as [[e1|[]] s2] eqn:Hloop
  end; [done|].
  injection Hbody as _ <-.
  apply create_items_loop_effects
    in Hloop as (_ & _ & Hal & Hpo & new & Hmov & Hbal & Hq & _).
  simpl in *. split; [|done]. exists new. split; [done|]. split; [done|].
  apply (sold_quantities_negative (SaleCreateSerializer.items data)); [|done].
  unfold SaleCreateSerializer.fields_valid in Hvalid.
  rewrite !andb_true_iff in Hvalid. tauto.
Qed.

Lemma cancel_sale_frame pk s r s' :
  cancel_sale_view pk s = (r, s') →
  stock_movements s' = stock_movements s
  ∧ stock_alerts s' = stock_alerts s
  ∧ purchase_orders s' = purchase_orders s.
Proof.
  unfold cancel_sale_view. unfold mbind at 1. unfold M_bind, bind, get.
  destruct (sales s !! pk) as [sale|]; [|by intros [= <- <-]].
  case_bool_decide; [by intros [= <- <-]|].
  intros [(e & -> & ->)|([] & -> & Hbody)]%atomic_inv; [done|].
  unfold_monad in Hbody.
  destruct (restore_stock_loop _ s) as [[e1|[]] s2] eqn:Hloop; [done|].
  injection Hbody as <-.
  apply restore_stock_loop_effects in Hloop as (_ & _ & _ & _ & Hmov & Hal & Hpo & _).
  done.
Qed.

(** [get_or_create], when it returns, has added a row only if no alert
    was open. *)
Lemma get_or_create_open_alert_effects pid level current s s' :
  get_or_create_open_alert pid level current s = (inr tt, s') →
  s' = s
  ∨ (open_alerts pid (stock_alerts s) = []
     ∧ s' = with_stock_alerts
              (λ rows, rows ++ [StockAlert.mk pid level current false None]) s).
Proof.
  unfold get_or_create_open_alert. unfold_monad.
  destruct (open_alerts pid (stock_alerts s)) as [|a [|b rest]];
    intros [= <-]; eauto.
Qed.

Lemma adjust_stock_frame env data s r s' :
  StockAdjustmentView.post env data s = (r, s') →
  ledger_extended s s'
  ∧ (stock_alerts s' = stock_alerts s
     ∨ (open_alerts (StockAdjustmentSerializer.product_id data) (stock_alerts s) = []
        ∧ ∃ level current,
            stock_alerts s'
            = stock_alerts s
              ++ [StockAlert.mk (StockAdjustmentSerializer.product_id data)
                    level current false None]))
  ∧ purchase_orders s' = purchase_orders s.
Proof.
  unfold StockAdjustmentView.post. unfold mbind at 1. unfold M_bind, bind.
  assert (Hreads : (StockAdjustmentSerializer.is_valid data s).2 = s).
  { unfold StockAdjustmentSerializer.is_valid, StockAdjustmentSerializer.validate.
    destruct (StockAdjustmentSerializer.fields_valid data); [|done].
    unfold_monad. destruct (products s !! _); [|done].
    destruct (StockAdjustmentSerializer.adjustment_type data); try done.
    by case_bool_decide. }
  destruct (StockAdjustmentSerializer.is_valid data s) as [[e|product] s1];
    simpl in Hreads; subst s1.
  { intros [= <- <-]. split; [apply ledger_extended_refl|]. split; [by left|done]. }
  intros [(e & -> & ->)|(movement & -> & Hbody)]%atomic_inv.
  { split; [apply ledger_extended_refl|]. split; [by left|done]. }
  destruct (match StockAdjustmentSerializer.adjustment_type data with
            | Add => _ | Remove => _ | SetTo => _ end) as [new_quantity delta] eqn:Hbranch
    in Hbody.
  unfold_monad in Hbody.
  assert (Hrow : StockMovement.balanced
            (StockMovement.mk (StockAdjustmentSerializer.product_id data)
               StockMovement.Adjustment delta (Product.stock_quantity product)
               new_quantity None (StockAdjustmentSerializer.reference_number data)
               None None (request_user env) (StockAdjustmentSerializer.reason data))).
  { unfold StockMovement.balanced. simpl.
    destruct (StockAdjustmentSerializer.adjustment_type data);
      injection Hbranch as <- <-; lia. }
  case_bool_decide.
  - match type of Hbody with context [get_or_create_open_alert ?a ?b ?c ?s1] =>
      destruct (get_or_create_open_alert a b c s1) as [[e1|[]] s2] eqn:Halert
    end; [done|].
    injection Hbody as _ <-.
    apply get_or_create_open_alert_effects in Halert as [->|[Hnone ->]]; simpl.
    + split; [|split; [by left|done]].
      eexists [_]. split; [done|]. split; [by constructor|]. by constructor.
    + split; [|split; [right; split; [exact Hnone|by eexists _, _]|done]].
      eexists [_]. split; [done|]. split; [by constructor|]. by constructor.
  - injection Hbody as _ <-. simpl.
    split; [|split; [by left|done]].
    eexists [_]. split; [done|]. split; [by constructor|]. by constructor.
Qed.

Lemma create_purchase_order_frame env data s r s' :
  PurchaseOrderCreateView.create env data s = (r, s') →
  stock_movements s' = stock_movements s
  ∧ stock_alerts s' = stock_alerts s
  ∧ (∀ pk po, purchase_orders s !! pk = Some po → purchase_orders s' !! pk = Some po).
Proof.
  unfold PurchaseOrderCreateView.create, PurchaseOrderCreateSerializer.is_valid.
  unfold mbind at 1. unfold M_bind, bind. unfold_monad.
  case_bool_decide; [|by intros [= <- <-]].
  case_bool_decide; [|by intros [= <- <-]].
  intros [(e & -> & ->)|(pk0 & -> & Hbody)]%atomic_inv; [done|].
  unfold_monad in Hbody.
  match type of Hbody with context [PurchaseOrderCreateSerializer.create_items_loop ?k ?l ?a ?s1] =>
    destruct (PurchaseOrderCreateSerializer.create_items_loop k l a s1)
      as [[e1|subtotal] s2] eqn:Hloop
  end; [done|].
  injection Hbody as _ <-.
  apply po_create_items_loop_effects in Hloop as (_ & Hpo & Hal & Hmov & _).
  simpl in *. split; [done|]. split; [done|].
  intros pk po Hpk. rewrite Hpo.
  assert (fresh (dom (purchase_orders s)) ≠ pk) as Hne.
  { intros <-. apply (is_fresh (dom (purchase_orders s))). by apply elem_of_dom. }
  by rewrite !lookup_insert_ne.
Qed.

Lemma receive_purchase_order_frame env pk s r s' :
  receive_purchase_order env pk s = (r, s') →
  ledger_extended s s'
  ∧ (∃ pids, stock_alerts s' = resolve_for (now env) pids (stock_alerts s))
  ∧ (s' = s
     ∨ ∃ po, purchase_orders s !! pk = Some po
         ∧ PurchaseOrder.status po ≠ PurchaseOrder.Received
         ∧ r = inr tt
         ∧ purchase_orders s'
           = <[pk := PurchaseOrder.with_received_date (now env)
                       (PurchaseOrder.with_status PurchaseOrder.Received po)]>
               (purchase_orders s)).
Proof.
  unfold receive_purchase_order. unfold mbind at 1. unfold M_bind, bind, get.
  assert (Hsame : ledger_extended s s
                  ∧ (∃ pids, stock_alerts s = resolve_for (now env) pids (stock_alerts s))).
  { split; [apply ledger_extended_refl|]. exists []. by rewrite resolve_for_nil. }
  destruct (purchase_orders s !! pk) as [po|] eqn:Hpk.
  2:{ intros [= <- <-]. destruct Hsame. repeat split; try done. by left. }
  case_bool_decide as Hstatus.
  { intros [= <- <-]. destruct Hsame. repeat split; try done. by left. }
  intros [(e & -> & ->)|([] & -> & Hbody)]%atomic_inv.
  { destruct Hsame. repeat split; try done. by left. }
  unfold_monad in Hbody.
  destruct (receive_items_loop env po _ s) as [[e1|[]] s2] eqn:Hloop; [done|].
  injection Hbody as <-.
  apply receive_items_loop_effects
    in Hloop as (_ & Hal & Hpo & _ & (new & Hmov & Hbal & Hty) & _).
  simpl. split; [|split].
  - exists new. split; [done|]. split; [done|].
    eapply Forall_impl; [exact Hty|]. intros m -> ?. done.
  - by eexists.
  - right. exists po. by rewrite Hpo.
Qed.

Lemma cancel_purchase_order_frame pk s r s' :
  cancel_purchase_order pk s = (r, s') →
  stock_movements s' = stock_movements s
  ∧ stock_alerts s' = stock_alerts s
  ∧ (s' = s
     ∨ ∃ po, purchase_orders s !! pk = Some po
         ∧ PurchaseOrder.status po ≠ PurchaseOrder.Received
         ∧ purchase_orders s'
           = <[pk := PurchaseOrder.with_status PurchaseOrder.Cancelled po]>
               (purchase_orders s)).
Proof.
  unfold cancel_purchase_order. unfold_monad.
  destruct (purchase_orders s !! pk) as [po|] eqn:Hpk.
  2:{ intros [= <- <-]. repeat split. by left. }
  case_bool_decide as Hstatus.
  { intros [= <- <-]. repeat split. by left. }
  intros [= <- <-]. repeat split. right. by exists po.
Qed.

End Frames.

(** ** The ledger, the status of purchase orders, and the alerts,
    under every operation *)

Section Operations.

(** The purchase orders after an operation: a row other than the one the
    operation receives or cancels is as it was. *)
Lemma purchase_order_kept env op s pk po :
  purchase_orders s !! pk = Some po →
  op ≠ ReceivePurchaseOrder pk →
  op ≠ CancelPurchaseOrder pk →
  purchase_orders (run env op s).2 !! pk = Some po.
Proof.
  intros Hpk Hreceive Hcancel.
  destruct op as [data|pk'|data|data|pk'|pk']; simpl.
  - destruct (SaleCreateView.create env data s) as [r s'] eqn:Hrun.
    apply create_sale_frame in Hrun as (_ & _ & Hpo). simpl. by rewrite Hpo.
  - destruct (cancel_sale_view pk' s) as [r s'] eqn:Hrun.
    apply cancel_sale_frame in Hrun as (_ & _ & Hpo). simpl. by rewrite Hpo.
  - destruct (StockAdjustmentView.post env data s) as [r s'] eqn:Hrun.
    apply adjust_stock_frame in Hrun as (_ & _ & Hpo). simpl. by rewrite Hpo.
  - destruct (PurchaseOrderCreateView.create env data s) as [r s'] eqn:Hrun.
    apply create_purchase_order_frame in Hrun as (_ & _ & Hpo). simpl. by apply Hpo.
  - destruct (receive_purchase_order env pk' s) as [r s'] eqn:Hrun.
    apply receive_purchase_order_frame in Hrun as (_ & _ & [->|(po' & _ & _ & _ & Hpo)]);
      simpl; [done|].
    rewrite Hpo, lookup_insert_ne; [done|]. congruence.
  - destruct (cancel_purchase_order pk' s) as [r s'] eqn:Hrun.
    apply cancel_purchase_order_frame in Hrun as (_ & _ & [->|(po' & _ & _ & Hpo)]);
      simpl; [done|].
    rewrite Hpo, lookup_insert_ne; [done|]. congruence.
Qed.

Lemma operation_cases op pk :
  op = ReceivePurchaseOrder pk
  ∨ op = CancelPurchaseOrder pk
  ∨ (op ≠ ReceivePurchaseOrder pk ∧ op ≠ CancelPurchaseOrder pk).
Proof.
  destruct op as [data|pk'|data|data|pk'|pk']; try (right; right; split; discriminate).
  - destruct (decide (pk' = pk)) as [->|Hne]; [by left|].
    right; right. split; [congruence|discriminate].
  - destruct (decide (pk' = pk)) as [->|Hne]; [by right; left|].
    right; right. split; [discriminate|congruence].
Qed.

(** C5, as amended. Once a purchase order is received no operation changes
    it: receiving it again and cancelling it both fail with Conflict. A
    cancelled order stays cancelled under every operation but receiving:
    receive does not refuse a cancelled order, moves it to received and
    adds the quantities of its lines to the stock. *)
Theorem purchase_order_status_transitions env op s pk po :
  purchase_orders s !! pk = Some po →
  (PurchaseOrder.status po = PurchaseOrder.Received →
     purchase_orders (run env op s).2 !! pk = Some po
     ∧ (op = ReceivePurchaseOrder pk →
          run env op s = (Some PurchaseOrderAlreadyReceived, s)
          ∧ kind PurchaseOrderAlreadyReceived = Conflict)
     ∧ (op = CancelPurchaseOrder pk →
          run env op s = (Some CannotCancelReceived, s)
          ∧ kind CannotCancelReceived = Conflict))
  ∧ (PurchaseOrder.status po = PurchaseOrder.Cancelled →
     (op ≠ ReceivePurchaseOrder pk →
        PurchaseOrder.status <$> purchase_orders (run env op s).2 !! pk
        = Some PurchaseOrder.Cancelled)
     ∧ (op = ReceivePurchaseOrder pk →
        products_exist s
          (PurchaseOrderItem.product <$> (purchase_order_items_of s pk).*2) →
        (run env op s).1 = None
        ∧ PurchaseOrder.status <$> purchase_orders (run env op s).2 !! pk
          = Some PurchaseOrder.Received
        ∧ ∀ pid, stock (run env op s).2 pid
                 = (λ q, q + ordered_for pid (purchase_order_items_of s pk).*2)
                   <$> stock s pid)).
Proof.
  intros Hpk. split; intros Hstatus.
  - assert (Hreceive : run env (ReceivePurchaseOrder pk) s
                       = (Some PurchaseOrderAlreadyReceived, s)).
    { simpl. unfold receive_purchase_order. unfold_monad. rewrite Hpk.
      by rewrite bool_decide_true. }
    assert (Hcancel : run env (CancelPurchaseOrder pk) s
                      = (Some CannotCancelReceived, s)).
    { simpl. unfold cancel_purchase_order. unfold_monad. rewrite Hpk.
      by rewrite bool_decide_true. }
    split; [|split; intros ->; done].
    destruct (operation_cases op pk) as [->|[->|[Hne1 Hne2]]];
      [by rewrite Hreceive|by rewrite Hcancel|].
    by apply purchase_order_kept.
  - split.
    + intros Hne1.
      destruct (operation_cases op pk) as [->|[->|[_ Hne2]]]; [done| |].
      * simpl. unfold cancel_purchase_order. unfold_monad. rewrite Hpk.
        rewrite bool_decide_false by (rewrite Hstatus; done). simpl.
        by rewrite lookup_insert_eq.
      * rewrite (purchase_order_kept env op s pk po) by done. simpl. by rewrite Hstatus.
    + intros -> Hexist.
      destruct (receive_commits env s pk po Hpk) as (s' & Hrun & Hstock & _ & _ & Hpos);
        [by rewrite Hstatus|done|].
      simpl. rewrite Hrun. simpl. split; [done|].
      split; [by rewrite Hpos, lookup_insert_eq|]. exact Hstock.
Qed.

Lemma purchase_order_status_transitions_witness :
  (run Examples.env (ReceivePurchaseOrder 4) Examples.depot_with_cancelled_order).1 = None
  ∧ PurchaseOrder.status <$>
      purchase_orders
        (run Examples.env (ReceivePurchaseOrder 4) Examples.depot_with_cancelled_order).2
      !! 4
    = Some PurchaseOrder.Received
  ∧ stock (run Examples.env (ReceivePurchaseOrder 4)
             Examples.depot_with_cancelled_order).2 7 = Some 15.
Proof.
  destruct (purchase_order_status_transitions Examples.env (ReceivePurchaseOrder 4)
              Examples.depot_with_cancelled_order 4
              (PurchaseOrder.with_status PurchaseOrder.Cancelled Examples.bolt_order))
    as [_ Hcancelled].
  - reflexivity.
  - destruct Hcancelled as [_ Hreceive]; [reflexivity|].
    destruct Hreceive as (Hrun & Hreceived & Hstock); [reflexivity| |].
    + repeat constructor. eexists. reflexivity.
    + split; [exact Hrun|]. split; [exact Hreceived|]. rewrite Hstock. reflexivity.
Defined.

(** C5, as stated, fails: the pending order of the depot is cancelled, and
    then received, which moves it from cancelled to received and adds
    its 10 bolts to the stock. *)
Lemma cancelled_order_received_counterexample :
  ∃ s1 s2,
    run Examples.env (CancelPurchaseOrder 4) Examples.depot_with_order = (None, s1)
    ∧ PurchaseOrder.status <$> purchase_orders s1 !! 4 = Some PurchaseOrder.Cancelled
    ∧ run Examples.env (ReceivePurchaseOrder 4) s1 = (None, s2)
    ∧ PurchaseOrder.status <$> purchase_orders s2 !! 4 = Some PurchaseOrder.Received
    ∧ stock s1 7 = Some 5
    ∧ stock s2 7 = Some 15.
Proof.
  eexists _, _. split; [reflexivity|]. split; [reflexivity|].
  split; [vm_compute; reflexivity|]. split; [reflexivity|].
  split; reflexivity.
Qed.

(** The alerts after an operation other than receiving: those of before,
    untouched, and at most one more. *)
Lemma alerts_kept env op s :
  (∀ pk, op ≠ ReceivePurchaseOrder pk) →
  alerts_extended s (run env op s).2.
Proof.
  intros Hop.
  destruct op as [data|pk|data|data|pk|pk]; simpl.
  - destruct (SaleCreateView.create env data s) as [r s'] eqn:Hrun.
    apply create_sale_frame in Hrun as (_ & Hal & _). by apply alerts_extended_same.
  - destruct (cancel_sale_view pk s) as [r s'] eqn:Hrun.
    apply cancel_sale_frame in Hrun as (_ & Hal & _). by apply alerts_extended_same.
  - destruct (StockAdjustmentView.post env data s) as [r s'] eqn:Hrun.
    apply adjust_stock_frame in Hrun as (_ & [Hal|(_ & level & current & Hal)] & _).
    + by apply alerts_extended_same.
    + by eexists.
  - destruct (PurchaseOrderCreateView.create env data s) as [r s'] eqn:Hrun.
    apply create_purchase_order_frame in Hrun as (_ & Hal & _).
    by apply alerts_extended_same.
  - by destruct (Hop pk).
  - destruct (cancel_purchase_order pk s) as [r s'] eqn:Hrun.
    apply cancel_purchase_order_frame in Hrun as (_ & Hal & _).
    by apply alerts_extended_same.
Qed.

Lemma open_alerts_resolve_for now pids pid rows :
  (length (open_alerts pid (resolve_for now pids rows))
   ≤ length (open_alerts pid rows))%nat.
Proof.
  unfold open_alerts, resolve_for.
  induction rows as [|[prod level current resolved at_] rows IH]; [done|].
  rewrite fmap_cons, !filter_cons. unfold StockAlert.is_open_for in *. simpl.
  destruct resolved; simpl; repeat (case_bool_decide; simpl);
    repeat case_decide; simpl; try done; lia.
Qed.

(** At most one alert is open per product, before and after every
    operation. *)
Lemma one_open_alert_preserved env op s :
  (∀ pid, length (open_alerts pid (stock_alerts s)) ≤ 1)%nat →
  ∀ pid, (length (open_alerts pid (stock_alerts (run env op s).2)) ≤ 1)%nat.
Proof.
  intros Hinv pid.
  destruct op as [data|pk|data|data|pk|pk]; simpl.
  - destruct (SaleCreateView.create env data s) as [r s'] eqn:Hrun.
    apply create_sale_frame in Hrun as (_ & Hal & _). simpl. by rewrite Hal.
  - destruct (cancel_sale_view pk s) as [r s'] eqn:Hrun.
    apply cancel_sale_frame in Hrun as (_ & Hal & _). simpl. by rewrite Hal.
  - destruct (StockAdjustmentView.post env data s) as [r s'] eqn:Hrun.
    apply adjust_stock_frame in Hrun as (_ & [Hal|(Hnone & level & current & Hal)] & _);
      simpl; rewrite Hal; [done|].
    rewrite open_alerts_app, length_app.
    destruct (decide (StockAdjustmentSerializer.product_id data = pid)) as [<-|Hne].
    + by rewrite Hnone, open_alerts_new.
    + unfold open_alerts at 2. rewrite filter_cons, decide_False.
      * specialize (Hinv pid). simpl. lia.
      * unfold StockAlert.is_open_for. simpl. by rewrite bool_decide_false.
  - destruct (PurchaseOrderCreateView.create env data s) as [r s'] eqn:Hrun.
    apply create_purchase_order_frame in Hrun as (_ & Hal & _). simpl. by rewrite Hal.
  - destruct (receive_purchase_order env pk s) as [r s'] eqn:Hrun.
    apply receive_purchase_order_frame in Hrun as (_ & [pids Hal] & _). simpl.
    rewrite Hal. pose proof (open_alerts_resolve_for (now env) pids pid (stock_alerts s)).
    specialize (Hinv pid). lia.
  - destruct (cancel_purchase_order pk s) as [r s'] eqn:Hrun.
    apply cancel_purchase_order_frame in Hrun as (_ & Hal & _). simpl. by rewrite Hal.
Qed.

(** C6, as amended. Alerts are resolved by purchase-order receiving only:
    after an order is received every alert of a product on its lines is
    resolved, whatever the stock and the minimum level; under any other
    operation the alerts of before are untouched, so an alert that was
    open stays open even when the operation leaves the stock above the
    minimum level. *)
Theorem alerts_resolved_only_by_receiving env op s :
  ((∀ pk, op ≠ ReceivePurchaseOrder pk) →
     (∃ new_alerts, stock_alerts (run env op s).2 = stock_alerts s ++ new_alerts)
     ∧ (∀ pid a, a ∈ open_alerts pid (stock_alerts s) →
                 a ∈ open_alerts pid (stock_alerts (run env op s).2)))
  ∧ (∀ pk po,
       op = ReceivePurchaseOrder pk →
       purchase_orders s !! pk = Some po →
       PurchaseOrder.status po ≠ PurchaseOrder.Received →
       products_exist s
         (PurchaseOrderItem.product <$> (purchase_order_items_of s pk).*2) →
       (run env op s).1 = None
       ∧ (∀ a, a ∈ stock_alerts (run env op s).2 →
               StockAlert.product a
                 ∈ (PurchaseOrderItem.product <$> (purchase_order_items_of s pk).*2) →
               StockAlert.is_resolved a = true)).
Proof.
  split.
  - intros Hop. destruct (alerts_kept env op s Hop) as [new Hal].
    split; [by exists new|].
    intros pid a Ha. rewrite Hal, open_alerts_app. apply elem_of_app. by left.
  - intros pk po -> Hpk Hstatus Hexist.
    destruct (receive_commits env s pk po Hpk Hstatus Hexist)
      as (s' & Hrun & _ & Hal & _).
    simpl. rewrite Hrun. simpl. split; [done|].
    intros a. rewrite Hal. apply resolve_for_resolved.
Qed.

Lemma alerts_resolved_only_by_receiving_witness :
  (run Examples.env (ReceivePurchaseOrder 4) Examples.depot_with_order).1 = None
  ∧ open_alerts 7 (stock_alerts Examples.depot_with_order)
    = [StockAlert.mk 7 10 5 false None]
  ∧ ∀ a, a ∈ stock_alerts
               (run Examples.env (ReceivePurchaseOrder 4) Examples.depot_with_order).2 →
         StockAlert.product a = 7 →
         StockAlert.is_resolved a = true.
Proof.
  destruct (alerts_resolved_only_by_receiving Examples.env (ReceivePurchaseOrder 4)
              Examples.depot_with_order) as [_ Hreceive].
  destruct (Hreceive 4 Examples.bolt_order) as [Hrun Hresolved].
  - reflexivity.
  - reflexivity.
  - discriminate.
  - repeat constructor. eexists. reflexivity.
  - split; [exact Hrun|]. split; [reflexivity|].
    intros a Ha Hproduct. apply Hresolved; [exact Ha|].
    rewrite Hproduct. apply list_elem_of_here.
Defined.

(** C6, as stated, fails: with 5 bolts in stock, a minimum level of 10 and
    an alert open, adding 20 bolts by hand leaves 25 in stock, above the
    minimum level, and the alert is still open. *)
Lemma adjustment_leaves_alert_open_counterexample :
  ∃ s',
    run Examples.env (AdjustStock Examples.add_twenty) Examples.depot_with_order
    = (None, s')
    ∧ (Product.min_stock_level <$> products s' !! 7) = Some 10
    ∧ stock s' 7 = Some 25
    ∧ open_alerts 7 (stock_alerts Examples.depot_with_order)
      = [StockAlert.mk 7 10 5 false None]
    ∧ open_alerts 7 (stock_alerts s') = [StockAlert.mk 7 10 5 false None].
Proof.
  eexists. split; [reflexivity|]. split; [reflexivity|]. split; [reflexivity|].
  split; reflexivity.
Qed.

End Operations.

(** ** The subtotal of a sale line *)

Section SaleItemSubtotal.
Import SaleItemCreateSerializer SaleCreateSerializer SaleAmounts.
Import Decimal DecimalFacts.

Lemma places_item_amounts p d :
  (places (item_subtotal p d) ≤ places (item_discount p d))%nat
  ∧ (places (item_discount p d) ≤ places (item_tax p d))%nat
  ∧ places (item_total p d) = places (item_tax p d).
Proof.
  unfold item_total, item_tax, item_after_discount, item_discount, item_subtotal.
  simpl. lia.
Qed.

Lemma places_sums_le_tax (l : list (Product.t * SaleItemCreateSerializer.t)) :
  (places (sum (uncurry item_subtotal <$> l)) ≤ places (sum (uncurry item_tax <$> l)))%nat
  ∧ (places (sum (uncurry item_discount <$> l)) ≤ places (sum (uncurry item_tax <$> l)))%nat
  ∧ (places (sum (uncurry item_total <$> l)) ≤ places (sum (uncurry item_tax <$> l)))%nat.
Proof.
  repeat split; apply places_sum_mono; intros [p d];
    destruct (places_item_amounts p d) as (? & ? & ?);
    change (uncurry ?f (p, d)) with (f p d); lia.
Qed.

(** The line totals add up to subtotal - discount + tax, all unrounded. *)
Lemma scaled_sum_item_total n l :
  (places (sum (uncurry item_tax <$> l)) ≤ n)%nat →
  scaled n (sum (uncurry item_total <$> l))
  = scaled n (sum (uncurry item_subtotal <$> l))
    - scaled n (sum (uncurry item_discount <$> l))
    + scaled n (sum (uncurry item_tax <$> l)).
Proof.
  induction l as [|[p d] l IH]; intros Hn; [done|].
  rewrite !fmap_cons, !sum_cons in *. rewrite places_add in Hn.
  change (uncurry ?f (p, d)) with (f p d) in *.
  destruct (places_item_amounts p d) as (H1 & H2 & H3).
  destruct (places_sums_le_tax l) as (M1 & M2 & M3).
  rewrite !scaled_add by lia. rewrite IH by lia.
  unfold item_total at 1.
  rewrite scaled_add, scaled_sub by (rewrite ?places_sub; lia). lia.
Qed.

Lemma sum_item_total_eqv l :
  sum (uncurry item_total <$> l)
  ==d sum (uncurry item_subtotal <$> l) -d sum (uncurry item_discount <$> l)
      +d sum (uncurry item_tax <$> l).
Proof.
  destruct (places_sums_le_tax l) as (M1 & M2 & M3).
  apply (eqv_scaled (places (sum (uncurry item_tax <$> l))));
    [lia|rewrite places_add, places_sub; lia|].
  rewrite scaled_add, scaled_sub by (rewrite ?places_sub; lia).
  by apply scaled_sum_item_total.
Qed.

(** The rows the loop of [create] appends: one per line, with the line's
    total in cents as subtotal, priced from the product as it was on
    record. *)
Lemma create_items_loop_rows env sale items_data s0 s s' :
  (∀ pid, pricing <$> products s !! pid = pricing <$> products s0 !! pid) →
  create_items_loop env sale items_data s = (inr tt, s') →
  ∃ rows,
    sale_items s' = sale_items s ++ rows
    ∧ Forall2 (λ line row,
         SaleItem.sale row = sale
         ∧ SaleItem.quantity row = quantity line.2
         ∧ SaleItem.unit_price row = Product.price line.1
         ∧ Dec (SaleItem.discount_percent row) = discount_percent line.2
         ∧ SaleItem.tax_rate row = Product.tax_rate line.1
         ∧ SaleItem.subtotal row = quantize2 (item_total line.1 line.2))
       (lines s0 items_data) rows.
Proof.
  revert s. induction items_data as [|item_data rest IH]; intros s Hpricing Hrun.
  - simpl in Hrun. unfold_monad in Hrun. injection Hrun as <-.
    exists []. rewrite app_nil_r. split; [done|]. constructor.
  - simpl in Hrun. unfold_monad in Hrun.
    destruct (products s !! product_id item_data) as [p|] eqn:Hp; [|done].
    pose proof (Hpricing (product_id item_data)) as Hp0. rewrite Hp in Hp0.
    destruct (products s0 !! product_id item_data) as [p0|] eqn:Hp0'; [|done].
    injection Hp0 as Hname Hsku Hprice Htax.
    destruct (discount_percent item_data) as [dp|z] eqn:Hdp; simpl in Hrun; [|done].
    apply IH in Hrun as (rows & Hrows & Hall).
    + eexists (_ :: rows). simpl in Hrows. rewrite Hrows, <- app_assoc.
      split; [done|]. rewrite (lines_cons _ _ _ _ Hp0'). constructor; [|done].
      unfold item_total, item_tax, item_after_discount, item_discount, item_subtotal.
      simpl. rewrite Hdp, Hprice, Htax. done.
    + intros pid. simpl. rewrite <- Hpricing.
      destruct (decide (product_id item_data = pid)) as [<-|Hne].
      * rewrite lookup_insert_eq, Hp. done.
      * by rewrite lookup_insert_ne.
Qed.

End SaleItemSubtotal.

(** * Further properties *)

(** ** What a stored sale has written *)

Section SaleCommit.
Import SaleItemCreateSerializer SaleCreateSerializer SaleAmounts.

Lemma with_stock_sub p q :
  Product.with_stock_quantity (Product.stock_quantity p - q) p = add_stock (- q) p.
Proof. unfold add_stock. f_equal. Qed.

Lemma requested_for_cons pid item_data rest :
  requested_for pid (item_data :: rest)
  = (if decide (product_id item_data = pid) then quantity item_data else 0)
    + requested_for pid rest.
Proof.
  unfold requested_for. rewrite filter_cons. case_decide; simpl; lia.
Qed.

(** The rows and the stock the loop of [create] leaves behind. *)
Lemma create_items_loop_commit env sale items_data s s' :
  create_items_loop env sale items_data s = (inr tt, s') →
  (∀ pid, products s' !! pid
          = add_stock (- requested_for pid items_data) <$> products s !! pid)
  ∧ (∃ rows,
       sale_items s' = sale_items s ++ rows
       ∧ (λ row, (SaleItem.sale row, SaleItem.product row, SaleItem.quantity row))
           <$> rows
         = (λ item_data, (sale, product_id item_data, quantity item_data))
             <$> items_data)
  ∧ (∃ new_movements,
       stock_movements s' = stock_movements s ++ new_movements
       ∧ (λ m, (StockMovement.product m, StockMovement.quantity m)) <$> new_movements
         = (λ item_data, (product_id item_data, - quantity item_data)) <$> items_data).
Proof.
  revert s. induction items_data as [|item_data rest IH]; intros s Hrun.
  - simpl in Hrun. unfold_monad in Hrun. injection Hrun as <-.
    split; [|split; exists []; by rewrite app_nil_r].
    intros pid. unfold requested_for. simpl.
    destruct (products s !! pid); simpl; [|done]. by rewrite add_stock_0.
  - simpl in Hrun. unfold_monad in Hrun.
    destruct (products s !! product_id item_data) as [p|] eqn:Hp; [|done].
    destruct (discount_percent item_data) as [dp|z]; simpl in Hrun; [|done].
    apply IH in Hrun as (Hprod & (rows & Hrows & Htriples) & (new & Hmov & Hpairs)).
    simpl in Hprod, Hrows, Hmov. rewrite with_stock_sub in Hprod.
    split; [|split].
    + eapply stock_step; [exact Hp|exact Hprod|..].
      * rewrite requested_for_cons, decide_True by done. lia.
      * intros pid Hne. rewrite requested_for_cons, decide_False by done. lia.
    + eexists (_ :: rows). rewrite Hrows, <- app_assoc. split; [done|].
      by rewrite !fmap_cons, Htriples.
    + eexists (_ :: new). rewrite Hmov, <- app_assoc. split; [done|].
      by rewrite !fmap_cons, Hpairs.
Qed.

(** A sale request that went through: the steps it took. *)
Lemma create_view_inv env data s pk s' :
  SaleCreateView.create env data s = (inr pk, s') →
  fields_valid data = true
  ∧ sales s !! pk = None
  ∧ ∃ calculated s1,
      validate data s = (inr calculated, s)
      ∧ create_items_loop env pk (items data)
          (with_sales <[pk :=
             Sale.mk (generated_number env) (request_user env) (customer_name data)
               (subtotal calculated) (tax_amount calculated)
               (discount_amount calculated) (total calculated)
               (payment_method data) (amount_paid data)
               (change_amount calculated) Sale.Completed (notes data)]> s)
        = (inr tt, s1)
      ∧ s' = with_payments
               (λ rows, rows ++ [Payment.mk pk (payment_method data) (amount_paid data)])
               s1.
Proof.
  unfold SaleCreateView.create. unfold mbind at 1. unfold M_bind, bind.
  pose proof (sale_is_valid_reads s data) as Hreads.
  destruct (is_valid data s) as [[e|calculated] s0] eqn:Hvalid;
    simpl in Hreads; subst s0; [done|].
  pose proof (sale_is_valid_fields _ _ _ _ Hvalid) as Hfields.
  unfold is_valid in Hvalid. rewrite Hfields in Hvalid.
  intros [(e & [=] & _)|(pk' & [= <-] & Hbody)]%atomic_inv.
  unfold_monad in Hbody.
  match type of Hbody with context [create_items_loop ?e ?k ?l ?s1] =>
    destruct (create_items_loop e k l s1) as [[e1|[]] s2] eqn:Hloop
  end; [done|].
  injection Hbody as <- <-.
  split; [done|]. split; [apply not_elem_of_dom, is_fresh|].
  by exists calculated, s2.
Qed.

(** [validate] lets a request through only if every line names a product
    that holds the quantity asked on that line. *)
Lemma validate_items_loop_inv s items_data acc r s1 :
  validate_items_loop items_data acc s = (inr r, s1) →
  Forall (in_stock s) items_data.
Proof.
  revert acc. induction items_data as [|item_data rest IH]; intros acc Hrun; [done|].
  simpl in Hrun. unfold_monad in Hrun.
  destruct (products s !! product_id item_data) as [p|] eqn:Hp; [|done].
  case_bool_decide as Hq; [done|]. destruct acc as [[a b] c].
  constructor; [|by eapply IH]. exists p. split; [done|lia].
Qed.

Lemma create_view_in_stock env data s pk s' :
  SaleCreateView.create env data s = (inr pk, s') →
  Forall (in_stock s) (items data).
Proof.
  intros (_ & _ & calculated & s1 & Hvalid & _)%create_view_inv.
  unfold validate in Hvalid. unfold mbind, M_bind, bind in Hvalid.
  destruct (validate_items_loop (items data) _ s) as [[e|r] s2] eqn:Hloop; [done|].
  by eapply validate_items_loop_inv.
Qed.

Lemma sold_for_requested pid sale (rows : list SaleItem.t) items_data :
  (λ row, (SaleItem.sale row, SaleItem.product row, SaleItem.quantity row)) <$> rows
  = (λ item_data, (sale, product_id item_data, quantity item_data)) <$> items_data →
  sold_for pid rows = requested_for pid items_data
  ∧ Forall (λ row, SaleItem.sale row = sale) rows
  ∧ SaleItem.product <$> rows = product_id <$> items_data.
Proof.
  revert items_data. induction rows as [|row rows IH]; intros [|item_data rest] Heq;
    try done.
  rewrite !fmap_cons in Heq. injection Heq as Hsale Hproduct Hquantity Hrest.
  destruct (IH _ Hrest) as (Hsold & Hall & Hproducts).
  rewrite sold_for_cons, requested_for_cons, Hsold, Hproduct, Hquantity.
  split; [done|]. split; [by constructor|]. by rewrite !fmap_cons, Hproduct, Hproducts.
Qed.

(** X1. A sale request that goes through takes from each product the
    quantities asked on its lines, and writes one sale line and one
    ledger row per line of the request, one payment for the amount paid,
    and no alert, whatever the stock it leaves. *)
Theorem sale_commit_effects env data s pk s' :
  SaleCreateView.create env data s = (inr pk, s') →
  (∀ pid, stock s' pid = (λ q, q - requested_for pid (items data)) <$> stock s pid)
  ∧ (∃ rows,
       sale_items s' = sale_items s ++ rows
       ∧ (λ row, (SaleItem.sale row, SaleItem.product row, SaleItem.quantity row))
           <$> rows
         = (λ item_data, (pk, product_id item_data, quantity item_data))
             <$> items data)
  ∧ (∃ new_movements,
       stock_movements s' = stock_movements s ++ new_movements
       ∧ (λ m, (StockMovement.product m, StockMovement.quantity m)) <$> new_movements
         = (λ item_data, (product_id item_data, - quantity item_data)) <$> items data)
  ∧ payments s'
    = payments s ++ [Payment.mk pk (payment_method data) (amount_paid data)]
  ∧ stock_alerts s' = stock_alerts s.
Proof.
  intros (_ & _ & calculated & s1 & _ & Hloop & ->)%create_view_inv.
  pose proof (create_items_loop_commit _ _ _ _ _ Hloop) as (Hprod & Hrows & Hmov).
  pose proof (create_items_loop_effects _ _ _ _ _ Hloop) as (_ & Hpay & Hal & _).
  simpl in *. split; [|split; [exact Hrows|split; [exact Hmov|]]].
  - intros pid. unfold stock. simpl. rewrite Hprod.
    by destruct (products s !! pid).
  - by rewrite Hpay, Hal.
Qed.

Lemma sale_commit_effects_witness :
  stock Examples.shop 1 = Some 10
  ∧ stock Examples.shop_after_sale 1 = Some 8
  ∧ payments Examples.shop_after_sale = [Payment.mk 0 Cash (Decimal.mk 25000 2)].
Proof.
  destruct (sale_commit_effects Examples.env Examples.two_widgets Examples.shop 0
              Examples.shop_after_sale) as (Hstock & _ & _ & Hpay & _).
  - vm_compute. reflexivity.
  - split; [reflexivity|]. split; [by rewrite Hstock|by rewrite Hpay].
Defined.

Lemma requested_for_distinct s pid p items_data :
  NoDup (product_id <$> items_data) →
  Forall (in_stock s) items_data →
  products s !! pid = Some p →
  0 ≤ Product.stock_quantity p →
  requested_for pid items_data ≤ Product.stock_quantity p.
Proof.
  intros Hnd Hall Hp Hp0. induction Hall as [|item_data rest (p' & Hp' & Hq) _ IH].
  - unfold requested_for. simpl. lia.
  - rewrite fmap_cons in Hnd. apply NoDup_cons in Hnd as [Hfresh Hnd].
    rewrite requested_for_cons. case_decide as Hpid; [|specialize (IH Hnd); lia].
    subst pid. rewrite Hp in Hp'. injection Hp' as <-.
    assert (requested_for (product_id item_data) rest = 0) as ->; [|lia].
    clear -Hfresh. induction rest as [|d rest IH]; [done|].
    rewrite fmap_cons in Hfresh. apply not_elem_of_cons in Hfresh as [Hne Hfresh].
    rewrite requested_for_cons, decide_False by done. by rewrite IH.
Qed.

(** X2. A sale whose lines name distinct products leaves no stock
    negative. *)
Theorem sale_of_distinct_products_keeps_stock_nonneg env data s pk s' :
  SaleCreateView.create env data s = (inr pk, s') →
  NoDup (product_id <$> items data) →
  stock_nonneg s →
  stock_nonneg s'.
Proof.
  intros Hrun Hnd Hnonneg pid p' Hp'.
  pose proof (create_view_in_stock _ _ _ _ _ Hrun) as Hall.
  apply create_view_inv in Hrun as (_ & _ & calculated & s1 & _ & Hloop & ->).
  apply create_items_loop_commit in Hloop as (Hprod & _ & _).
  simpl in Hp', Hprod. rewrite Hprod in Hp'.
  destruct (products s !! pid) as [p|] eqn:Hp; [|done].
  injection Hp' as <-. rewrite stock_add_stock.
  pose proof (requested_for_distinct s pid p _ Hnd Hall Hp (Hnonneg _ _ Hp)). lia.
Qed.

Lemma sale_of_distinct_products_keeps_stock_nonneg_witness :
  stock_nonneg Examples.shop_after_sale.
Proof.
  apply (sale_of_distinct_products_keeps_stock_nonneg Examples.env Examples.two_widgets
           Examples.shop 0).
  - vm_compute. reflexivity.
  - apply NoDup_singleton.
  - intros pid p Hp.
    change (products Examples.shop)
      with ({[ 1 := Examples.widget ]} : gmap Z Product.t) in Hp.
    apply lookup_singleton_Some in Hp as [_ <-]. simpl. lia.
Defined.

(** X3. The stock check of [validate] is made line by line against the
    stock on record: when the lines of a request that goes through ask
    together for more of a product than it holds, its stock ends
    negative. *)
Theorem sale_repeated_lines_oversell env data s pk s' pid p :
  SaleCreateView.create env data s = (inr pk, s') →
  products s !! pid = Some p →
  Product.stock_quantity p < requested_for pid (items data) →
  Forall (in_stock s) (items data)
  ∧ ∃ n, stock s' pid = Some n ∧ n < 0.
Proof.
  intros Hrun Hp Hover. split; [by eapply create_view_in_stock|].
  apply create_view_inv in Hrun as (_ & _ & calculated & s1 & _ & Hloop & ->).
  apply create_items_loop_commit in Hloop as (Hprod & _ & _).
  unfold stock. simpl in *. rewrite Hprod, Hp. simpl.
  eexists. split; [done|]. lia.
Qed.

Lemma sale_repeated_lines_oversell_witness :
  ∃ s', SaleCreateView.create Examples.env MoreExamples.widgets_twice Examples.shop
        = (inr 0, s')
        ∧ stock Examples.shop 1 = Some 10
        ∧ stock s' 1 = Some (-2).
Proof.
  destruct (SaleCreateView.create Examples.env MoreExamples.widgets_twice Examples.shop)
    as [r s'] eqn:Hrun.
  assert (r = inr 0) as -> by (vm_compute in Hrun; congruence).
  destruct (sale_repeated_lines_oversell Examples.env MoreExamples.widgets_twice
              Examples.shop 0 s' 1 Examples.widget Hrun) as [_ (n & Hn & Hneg)].
  - reflexivity.
  - vm_compute. reflexivity.
  - exists s'. split; [done|]. split; [reflexivity|].
    vm_compute in Hrun. injection Hrun as <-. reflexivity.
Defined.

End SaleCommit.

(** ** A sale and its cancellation *)

Section SaleRoundTrip.
Import SaleItemCreateSerializer SaleCreateSerializer SaleAmounts.

Lemma filter_none {A} (P : A → Prop) `{∀ x, Decision (P x)} (l : list A) :
  Forall (λ x, ¬ P x) l → filter P l = [].
Proof.
  induction 1 as [|x l Hx _ IH]; [done|]. by rewrite filter_cons, decide_False.
Qed.

Lemma filter_all {A} (P : A → Prop) `{∀ x, Decision (P x)} (l : list A) :
  Forall P l → filter P l = l.
Proof.
  induction 1 as [|x l Hx _ IH]; [done|]. by rewrite filter_cons, decide_True, IH.
Qed.

(** X4. Cancelling a sale that has just been stored gives every product
    back the stock it had before the sale; the sale is then cancelled,
    and the ledger keeps the rows of the sale without a row for the
    return. *)
Theorem sale_then_cancel_restores_products env data s pk s' :
  SaleCreateView.create env data s = (inr pk, s') →
  sale_items_attached s →
  ∃ s'', cancel_sale_view pk s' = (inr tt, s'')
    ∧ products s'' = products s
    ∧ Sale.status <$> sales s'' !! pk = Some Sale.Cancelled
    ∧ stock_movements s'' = stock_movements s'.
Proof.
  intros Hrun Hattached.
  pose proof (create_view_in_stock _ _ _ _ _ Hrun) as Hall.
  apply create_view_inv in Hrun as (_ & Hfresh & calculated & s1 & _ & Hloop & ->).
  pose proof (create_items_loop_commit _ _ _ _ _ Hloop)
    as (Hprod & (rows & Hrows & Htriples) & _).
  pose proof (create_items_loop_effects _ _ _ _ _ Hloop) as (Hsales & _).
  destruct (sold_for_requested 0 _ _ _ Htriples) as (_ & Hmine & Hproducts).
  simpl in Hprod, Hrows, Hsales.
  set (s' := with_payments _ s1).
  assert (Hitems : sale_items_of s' pk = rows).
  { unfold sale_items_of. simpl. rewrite Hrows, filter_app.
    rewrite filter_none, filter_all; [done|done|].
    eapply Forall_impl; [exact Hattached|]. intros row [x Hx] Heq.
    rewrite Heq in Hx. congruence. }
  assert (Hexist : products_exist s' (SaleItem.product <$> sale_items_of s' pk)).
  { rewrite Hitems, Hproducts. unfold products_exist. rewrite Forall_fmap.
    eapply Forall_impl; [exact Hall|]. intros d (p & Hp & _). simpl.
    rewrite Hprod, Hp. by eexists. }
  destruct (restore_stock_loop_succeeds _ _ Hexist) as [s2 Hrestore].
  pose proof (restore_stock_loop_effects _ _ _ Hrestore)
    as (Hback & Hsales2 & _ & _ & Hmov & _).
  eexists. unfold cancel_sale_view. unfold_monad.
  assert (Hsale : sales s' !! pk = Some
            (Sale.mk (generated_number env) (request_user env) (customer_name data)
               (subtotal calculated) (tax_amount calculated)
               (discount_amount calculated) (total calculated)
               (payment_method data) (amount_paid data)
               (change_amount calculated) Sale.Completed (notes data))).
  { simpl. by rewrite Hsales, lookup_insert_eq. }
  rewrite Hsale. rewrite bool_decide_false by done. rewrite Hrestore. simpl.
  split; [done|]. simpl. split; [|split; [by rewrite lookup_insert_eq|done]].
  apply map_eq. intros pid. rewrite Hback. simpl. rewrite Hprod, Hitems.
  destruct (sold_for_requested pid _ _ _ Htriples) as (-> & _).
  destruct (products s !! pid) as [p|]; simpl; [|done].
  rewrite add_stock_add. replace (- requested_for pid (items data)
                                  + requested_for pid (items data)) with 0 by lia.
  by rewrite add_stock_0.
Qed.

Lemma sale_then_cancel_restores_products_witness :
  ∃ s'', cancel_sale_view 0 Examples.shop_after_sale = (inr tt, s'')
    ∧ stock Examples.shop_after_sale 1 = Some 8
    ∧ products s'' = products Examples.shop.
Proof.
  destruct (sale_then_cancel_restores_products Examples.env Examples.two_widgets
              Examples.shop 0 Examples.shop_after_sale) as (s'' & Hrun & Hprod & _).
  - vm_compute. reflexivity.
  - constructor.
  - exists s''. split; [exact Hrun|]. split; [reflexivity|exact Hprod].
Defined.

(** X5. A request that pays less than the computed total is refused with
    InsufficientPayment, and nothing is written. *)
Theorem sale_underpaid_rejected env data s :
  fields_valid data = true →
  Forall (in_stock s) (items data) →
  Decimal.ltb (amount_paid data) (computed_total s data) = true →
  SaleCreateView.create env data s
  = (inl (AmountPaidLessThanTotal (amount_paid data) (computed_total s data)), s)
  ∧ kind (AmountPaidLessThanTotal (amount_paid data) (computed_total s data))
    = InsufficientPayment.
Proof.
  intros Hfields Hall Hpaid. split; [|done].
  unfold SaleCreateView.create, is_valid, validate. rewrite Hfields.
  unfold mbind, M_bind, bind.
  rewrite (validate_items_loop_ok s _ _ _ _ Hall) by (simpl; lia).
  assert (Hz : ∀ l, Decimal.zero2 +d Decimal.sum l = Decimal.sum l).
  { intros l. rewrite DecimalFacts.add_comm.
    apply DecimalFacts.add_zero2_r, DecimalFacts.places_sum. }
  rewrite !Hz. fold (exact_subtotal s data) (exact_tax s data) (exact_discount s data).
  fold (computed_total s data). by rewrite Hpaid.
Qed.

Lemma sale_underpaid_rejected_witness :
  SaleCreateView.create Examples.env MoreExamples.two_widgets_underpaid Examples.shop
  = (inl (AmountPaidLessThanTotal (Decimal.mk 100 2) (Decimal.mk 20880 2)),
     Examples.shop).
Proof.
  destruct (sale_underpaid_rejected Examples.env MoreExamples.two_widgets_underpaid
              Examples.shop) as [Hrun _].
  - reflexivity.
  - repeat constructor. exists Examples.widget. split; [reflexivity | simpl; lia].
  - reflexivity.
  - rewrite Hrun. reflexivity.
Defined.

End SaleRoundTrip.

(** ** A sale line without its discount *)

Section SaleWithoutDiscount.
Import SaleItemCreateSerializer SaleCreateSerializer SaleAmounts.

(** X6. A request that leaves out the discount of a line passes
    [validate], which reads the default through [Decimal(str(...))], but
    is not stored: [SaleItem.save] divides the int default by 100 and
    multiplies a [Decimal] by the float it gets, the [TypeError] leaves
    the transaction, and the sale row already written is rolled back with
    everything else. *)
Theorem sale_without_discount_rolled_back env data s :
  fields_valid data = true →
  Forall (in_stock s) (items data) →
  Exists (λ item_data, ∃ z, discount_percent item_data = Int z) (items data) →
  Decimal.ltb (amount_paid data) (computed_total s data) = false →
  (∃ calculated, is_valid data s = (inr calculated, s))
  ∧ SaleCreateView.create env data s = (inl TypeError, s)
  ∧ kind TypeError = ServerError.
Proof.
  intros Hfields Hall Hex Hpaid.
  assert (Hvalid : is_valid data s = validate data s).
  { unfold is_valid. by rewrite Hfields. }
  split; [|split; [|done]].
  - eexists. rewrite Hvalid. by apply validate_ok.
  - unfold SaleCreateView.create. unfold mbind at 1. unfold M_bind, bind.
    rewrite Hvalid, (validate_ok _ _ Hall Hpaid).
    unfold create. unfold_monad. simpl.
    match goal with |- context [create_items_loop env ?pk (items data) ?s1] =>
      destruct (create_items_loop_type_error env pk (items data) s1) as [s' Hrun]
    end.
    + by apply in_stock_is_Some.
    + eapply Exists_impl; [exact Hex|]. intros d [z Hz] [dp Hdp]. congruence.
    + by rewrite Hrun.
Qed.

Lemma sale_without_discount_rolled_back_witness :
  SaleCreateView.create Examples.env Examples.one_widget_no_discount Examples.shop
  = (inl TypeError, Examples.shop).
Proof.
  destruct (sale_without_discount_rolled_back Examples.env
              Examples.one_widget_no_discount Examples.shop) as (_ & Hrun & _).
  - reflexivity.
  - repeat constructor. exists Examples.widget. split; [reflexivity | simpl; lia].
  - apply Exists_cons_hd. by exists 0.
  - reflexivity.
  - exact Hrun.
Defined.

End SaleWithoutDiscount.

(** ** Stock after a manual adjustment *)

Section AdjustmentStock.
Import StockAdjustmentSerializer.

(** What [is_valid] has checked when it hands over the product. *)
Lemma adjustment_is_valid_inv data s r s1 :
  is_valid data s = (r, s1) →
  s1 = s
  ∧ ∀ product, r = inr product →
      products s !! product_id data = Some product
      ∧ 0 ≤ quantity data
      ∧ (adjustment_type data = Remove → quantity data ≤ Product.stock_quantity product).
Proof.
  unfold is_valid, validate.
  destruct (fields_valid data) eqn:Hfields; [|intros [= <- <-]; by split].
  assert (Hq : 0 ≤ quantity data).
  { unfold fields_valid in Hfields. rewrite !andb_true_iff in Hfields.
    destruct Hfields as [[[Hq _] _] _]. by apply bool_decide_eq_true in Hq. }
  unfold_monad.
  destruct (products s !! product_id data) as [p|] eqn:Hp;
    [|intros [= <- <-]; by split].
  destruct (adjustment_type data) eqn:Htype.
  - intros [= <- <-]. split; [done|]. by intros product [= <-].
  - case_bool_decide as Hlt; intros [= <- <-]; split; try done.
    intros product [= <-]. split; [done|]. split; [done|]. intros _. lia.
  - intros [= <- <-]. split; [done|]. by intros product [= <-].
Qed.

(** An adjustment either leaves the store as it was, with an error, or
    has written the product and one ledger row that accounts for the
    change. *)
Lemma adjust_stock_inv env data s r s' :
  StockAdjustmentView.post env data s = (r, s') →
  ((∃ e, r = inl e) ∧ s' = s)
  ∨ ∃ p movement,
      r = inr movement
      ∧ products s !! product_id data = Some p
      ∧ StockMovement.product movement = product_id data
      ∧ StockMovement.new_quantity movement
        = Product.stock_quantity p + StockMovement.quantity movement
      ∧ (0 ≤ Product.stock_quantity p → 0 ≤ StockMovement.new_quantity movement)
      ∧ products s'
        = <[product_id data :=
              Product.with_stock_quantity (StockMovement.new_quantity movement) p]>
            (products s)
      ∧ stock_movements s' = stock_movements s ++ [movement].
Proof.
  unfold StockAdjustmentView.post. unfold mbind at 1. unfold M_bind, bind.
  destruct (is_valid data s) as [[e|product] s1] eqn:Hvalid;
    apply adjustment_is_valid_inv in Hvalid as [-> Hchecked].
  { intros [= <- <-]. left. eauto. }
  destruct (Hchecked product eq_refl) as (Hp & Hq & Hremove).
  intros [(e & -> & ->)|(movement & -> & Hbody)]%atomic_inv; [left; eauto|].
  right. exists product, movement.
  destruct (match adjustment_type data with
            | Add => _ | Remove => _ | SetTo => _ end) as [new_quantity delta] eqn:Hbranch
    in Hbody.
  unfold_monad in Hbody.
  assert (Hnew : new_quantity = Product.stock_quantity product + delta
                 ∧ (0 ≤ Product.stock_quantity product → 0 ≤ new_quantity)).
  { destruct (adjustment_type data); injection Hbranch as <- <-;
      [lia| specialize (Hremove eq_refl); lia | lia]. }
  destruct Hnew as [Hsum Hnonneg].
  case_bool_decide.
  - match type of Hbody with context [get_or_create_open_alert ?a ?b ?c ?s1] =>
      destruct (get_or_create_open_alert a b c s1) as [[e1|[]] s2] eqn:Halert
    end; [done|].
    injection Hbody as <- <-.
    apply get_or_create_open_alert_effects in Halert as [->|[_ ->]]; simpl;
      repeat split; done.
  - injection Hbody as <- <-. simpl. repeat split; done.
Qed.

(** X7. A manual adjustment leaves no stock negative, whatever its type
    and its outcome: [remove] is refused beyond the stock on record and
    the quantity of [set] is a valid field only from 0 up. *)
Theorem adjustment_keeps_stock_nonneg env data s :
  stock_nonneg s →
  stock_nonneg (StockAdjustmentView.post env data s).2.
Proof.
  intros Hnonneg.
  destruct (StockAdjustmentView.post env data s) as [r s'] eqn:Hrun.
  apply adjust_stock_inv in Hrun
    as [[_ ->]|(p & movement & _ & Hp & _ & _ & Hnew & Hprod & _)]; [done|].
  intros pid p' Hp'. simpl in Hp'. rewrite Hprod in Hp'.
  destruct (decide (product_id data = pid)) as [<-|Hne].
  - rewrite lookup_insert_eq in Hp'. injection Hp' as <-. simpl.
    apply Hnew. by eapply Hnonneg.
  - rewrite lookup_insert_ne in Hp' by done. by eapply Hnonneg.
Qed.

Lemma adjustment_keeps_stock_nonneg_witness :
  stock_nonneg
    (StockAdjustmentView.post Examples.env MoreExamples.set_to_zero Examples.depot).2
  ∧ stock (StockAdjustmentView.post Examples.env MoreExamples.set_to_zero
             Examples.depot).2 7 = Some 0.
Proof.
  split; [|reflexivity].
  apply (adjustment_keeps_stock_nonneg Examples.env MoreExamples.set_to_zero
           Examples.depot).
  intros pid p Hp.
  change (products Examples.depot) with ({[ 7 := Examples.bolt ]} : gmap Z Product.t) in Hp.
  apply lookup_singleton_Some in Hp as [_ <-]. simpl. lia.
Defined.

End AdjustmentStock.

(** ** A purchase order from its creation to its receipt *)

Section PurchaseOrderFlow.
Import PurchaseOrderCreateSerializer.

Lemma po_create_items_loop_unknown pk items_data subtotal s :
  Exists (λ item_data, products s !! product_id item_data = None) items_data →
  ∃ s', create_items_loop pk items_data subtotal s = (inl DoesNotExist, s').
Proof.
  revert s subtotal. induction items_data as [|item_data rest IH]; intros s subtotal Hex.
  - by apply Exists_nil in Hex.
  - simpl. unfold_monad.
    destruct (products s !! product_id item_data) as [p|] eqn:Hp; [|by eexists].
    apply Exists_cons in Hex as [Hhd|Htl]; [congruence|].
    apply IH. exact Htl.
Qed.

Lemma po_create_items_loop_inv pk items_data subtotal s r s' :
  create_items_loop pk items_data subtotal s = (inr r, s') →
  products_exist s (product_id <$> items_data).
Proof.
  revert s subtotal. induction items_data as [|item_data rest IH]; intros s subtotal Hrun.
  - constructor.
  - simpl in Hrun. unfold_monad in Hrun. rewrite fmap_cons.
    destruct (products s !! product_id item_data) as [p|] eqn:Hp; [|done].
    constructor; [by rewrite Hp|]. by apply IH in Hrun.
Qed.

(** A purchase-order request that went through: the order has the fresh
    key, its lines are the rows added, and nothing else has changed. *)
Lemma create_purchase_order_inv env data s pk s' :
  PurchaseOrderCreateView.create env data s = (inr pk, s') →
  purchase_orders s !! pk = None
  ∧ products_exist s (product_id <$> items data)
  ∧ products s' = products s
  ∧ (∃ po, purchase_orders s' = <[pk := po]> (purchase_orders s)
           ∧ PurchaseOrder.status po = PurchaseOrder.Pending)
  ∧ purchase_order_items s'
    = purchase_order_items s
      ++ ((λ item_data, PurchaseOrderItem.save pk (product_id item_data)
                          (quantity item_data) 0 (unit_cost item_data))
          <$> items data).
Proof.
  unfold PurchaseOrderCreateView.create, is_valid.
  unfold mbind at 1. unfold M_bind, bind. unfold_monad.
  case_bool_decide; [|done]. case_bool_decide; [|done].
  intros [(e & [=] & _)|(pk0 & [= <-] & Hbody)]%atomic_inv.
  unfold_monad in Hbody.
  match type of Hbody with context [create_items_loop ?k ?l ?a ?s1] =>
    destruct (create_items_loop k l a s1) as [[e1|subtotal] s2] eqn:Hloop
  end; [done|].
  injection Hbody as <- <-.
  pose proof (po_create_items_loop_inv _ _ _ _ _ _ Hloop) as Hexist.
  apply po_create_items_loop_effects in Hloop as (Hprod & Hpo & _ & _ & _ & Hrows).
  simpl in *.
  split; [apply not_elem_of_dom, is_fresh|]. split; [exact Hexist|].
  split; [done|]. split; [|done].
  eexists. rewrite Hpo, insert_insert_eq. split; done.
Qed.

(** X9. A purchase-order request that names a product not on record, on
    any of its lines, is not stored: the lookup of [create] fails inside
    the transaction, and the order and the lines written before it are
    rolled back. The serializer validates the supplier and the presence
    of the keys, not the products. *)
Theorem purchase_order_unknown_product_rolled_back env data s :
  supplier_id data ∈ suppliers s →
  Exists (λ item_data, products s !! product_id item_data = None) (items data) →
  PurchaseOrderCreateView.create env data s = (inl DoesNotExist, s)
  ∧ kind DoesNotExist = ServerError.
Proof.
  intros Hsupplier Hex. split; [|done].
  unfold PurchaseOrderCreateView.create, is_valid, create. unfold_monad.
  rewrite bool_decide_true by done.
  rewrite bool_decide_true by (intros Hnil; rewrite Hnil in Hex; by apply Exists_nil in Hex).
  match goal with |- context [create_items_loop ?k ?l ?a ?s1] =>
    destruct (po_create_items_loop_unknown k l a s1) as [s' Hrun]; [exact Hex|]
  end.
  by rewrite Hrun.
Qed.

Lemma purchase_order_unknown_product_rolled_back_witness :
  PurchaseOrderCreateView.create Examples.env MoreExamples.bolts_and_unknown
    Examples.depot_with_supplier
  = (inl DoesNotExist, Examples.depot_with_supplier).
Proof.
  apply (purchase_order_unknown_product_rolled_back Examples.env
           MoreExamples.bolts_and_unknown Examples.depot_with_supplier).
  - vm_compute. reflexivity.
  - apply Exists_cons_tl, Exists_cons_hd. reflexivity.
Defined.

(** The lines [po.items.all()] yields are the rows of the table that
    carry the key of the order, in the order of the table. *)
Lemma purchase_order_items_of_rows s pk :
  (purchase_order_items_of s pk).*2
  = filter (λ item, PurchaseOrderItem.purchase_order item = pk) (purchase_order_items s).
Proof.
  unfold purchase_order_items_of.
  generalize (purchase_order_items s). intros rows.
  assert (Hkey : ∀ i x, (@pair nat PurchaseOrderItem.t i x).2 = x) by done.
  revert Hkey. generalize (@pair nat PurchaseOrderItem.t). intros key Hkey.
  revert key Hkey. induction rows as [|row rows IH]; intros key Hkey; [done|].
  simpl. rewrite !filter_cons. simpl. rewrite Hkey.
  case_decide; simpl; rewrite ?Hkey, IH; try done; intros i x; apply Hkey.
Qed.

Lemma ordered_for_saved pid pk items_data :
  ordered_for pid
    ((λ item_data, PurchaseOrderItem.save pk (product_id item_data)
                     (quantity item_data) 0 (unit_cost item_data)) <$> items_data)
  = ordered_in pid items_data.
Proof.
  unfold ordered_for, ordered_in.
  induction items_data as [|item_data rest IH]; [done|].
  rewrite fmap_cons, !filter_cons. simpl.
  case_decide; simpl; by rewrite IH.
Qed.

(** The ledger rows of the loop of receive: one per line, for its
    product and the quantity ordered. *)
Lemma receive_items_loop_ledger env po items s s' :
  receive_items_loop env po items s = (inr tt, s') →
  ∃ new_movements,
    stock_movements s' = stock_movements s ++ new_movements
    ∧ (λ m, (StockMovement.product m, StockMovement.quantity m)) <$> new_movements
      = (λ item, (PurchaseOrderItem.product item,
                  PurchaseOrderItem.quantity_ordered item)) <$> items.*2.
Proof.
  revert s. induction items as [|[i item] rest IH]; intros s Hrun.
  - simpl in Hrun. unfold_monad in Hrun. injection Hrun as <-.
    exists []. by rewrite app_nil_r.
  - simpl in Hrun. unfold_monad in Hrun.
    destruct (products s !! PurchaseOrderItem.product item) as [p|] eqn:Hp; [|done].
    apply IH in Hrun as (new & Hmov & Hpairs). simpl in Hmov.
    eexists (_ :: new). rewrite Hmov, <- app_assoc. split; [done|].
    rewrite !fmap_cons, Hpairs. done.
Qed.

(** X10. A purchase order that was created can be received, in any later
    environment: each product then holds the units of before plus those
    the request ordered of it, over all its lines, the ledger has one
    purchase row per line of the request, the order is received, and
    receiving it once more is refused and changes nothing. *)
Theorem purchase_order_created_then_received env env' data s pk s' :
  PurchaseOrderCreateView.create env data s = (inr pk, s') →
  purchase_order_items_attached s →
  ∃ s'',
    receive_purchase_order env' pk s' = (inr tt, s'')
    ∧ (∀ pid, stock s'' pid = (λ q, q + ordered_in pid (items data)) <$> stock s pid)
    ∧ (∃ new_movements,
         stock_movements s'' = stock_movements s' ++ new_movements
         ∧ (λ m, (StockMovement.product m, StockMovement.quantity m)) <$> new_movements
           = (λ item_data, (product_id item_data, quantity item_data)) <$> items data)
    ∧ PurchaseOrder.status <$> purchase_orders s'' !! pk = Some PurchaseOrder.Received
    ∧ ∀ env'', receive_purchase_order env'' pk s''
               = (inl PurchaseOrderAlreadyReceived, s'').
Proof.
  intros Hcreate Hattached.
  apply create_purchase_order_inv in Hcreate
    as (Hfresh & Hexist & Hprod & (po & Hpos & Hstatus) & Hrows).
  assert (Hlines : (purchase_order_items_of s' pk).*2
                   = (λ item_data, PurchaseOrderItem.save pk (product_id item_data)
                                     (quantity item_data) 0 (unit_cost item_data))
                     <$> items data).
  { rewrite purchase_order_items_of_rows, Hrows, filter_app.
    rewrite filter_none, filter_all; [done| |].
    - apply Forall_fmap, Forall_true. done.
    - eapply Forall_impl; [exact Hattached|]. intros row [x Hx] Heq. simpl in *.
      rewrite Heq in Hx. congruence. }
  assert (Hpk : purchase_orders s' !! pk = Some po).
  { by rewrite Hpos, lookup_insert_eq. }
  destruct (receive_commits env' s' pk po Hpk) as (s'' & Hrun & Hstock & _ & _ & Hpos'').
  { by rewrite Hstatus. }
  { rewrite Hlines, <- list_fmap_compose. unfold products_exist. by rewrite Hprod. }
  exists s''. split; [exact Hrun|].
  assert (Hreceived : purchase_orders s'' !! pk
                      = Some (PurchaseOrder.with_received_date (now env')
                                (PurchaseOrder.with_status PurchaseOrder.Received po))).
  { by rewrite Hpos'', lookup_insert_eq. }
  split; [|split; [|split]].
  - intros pid. rewrite Hstock, Hlines, ordered_for_saved.
    unfold stock. by rewrite Hprod.
  - unfold receive_purchase_order in Hrun. unfold_monad in Hrun. rewrite Hpk in Hrun.
    rewrite bool_decide_false in Hrun by (by rewrite Hstatus).
    destruct (receive_items_loop env' po (purchase_order_items_of s' pk) s')
      as [[e|[]] s1] eqn:Hloop; [done|].
    injection Hrun as <-.
    apply receive_items_loop_ledger in Hloop as (new & Hmov & Hpairs).
    exists new. split; [done|].
    rewrite Hpairs, Hlines, <- list_fmap_compose. done.
  - by rewrite Hreceived.
  - intros env''. unfold receive_purchase_order. unfold_monad.
    rewrite Hreceived. by rewrite bool_decide_true.
Qed.

Lemma purchase_order_created_then_received_witness :
  ∃ pk s' s'',
    PurchaseOrderCreateView.create Examples.env Examples.ten_bolts
      Examples.depot_with_supplier = (inr pk, s')
    ∧ receive_purchase_order Examples.env pk s' = (inr tt, s'')
    ∧ stock Examples.depot_with_supplier 7 = Some 5
    ∧ stock s'' 7 = Some 15.
Proof.
  eexists _, _.
  destruct (purchase_order_created_then_received Examples.env Examples.env
              Examples.ten_bolts Examples.depot_with_supplier _ _ eq_refl)
    as (s'' & Hrun & Hstock & _).
  - constructor.
  - exists s''. split; [reflexivity|]. split; [exact Hrun|]. split; [reflexivity|].
    rewrite Hstock. reflexivity.
Defined.

End PurchaseOrderFlow.

(** ** Failed requests, and the ledger against the stock *)

Section Histories.

Lemma create_sale_failure env data s e s' :
  SaleCreateView.create env data s = (inl e, s') → s' = s.
Proof.
  unfold SaleCreateView.create. unfold mbind at 1. unfold M_bind, bind.
  pose proof (sale_is_valid_reads s data) as Hreads.
  destruct (SaleCreateSerializer.is_valid data s) as [[e0|calculated] s1];
    simpl in Hreads; subst s1; [by intros [= _ <-]|].
  by intros [(e1 & _ & ->)|(pk & [=] & _)]%atomic_inv.
Qed.

Lemma cancel_sale_failure pk s e s' :
  cancel_sale_view pk s = (inl e, s') → s' = s.
Proof.
  unfold cancel_sale_view. unfold mbind at 1. unfold M_bind, bind, get.
  destruct (sales s !! pk) as [sale|]; [|by intros [= _ <-]].
  case_bool_decide; [by intros [= _ <-]|].
  by intros [(e1 & _ & ->)|([] & [=] & _)]%atomic_inv.
Qed.

Lemma create_purchase_order_failure env data s e s' :
  PurchaseOrderCreateView.create env data s = (inl e, s') → s' = s.
Proof.
  unfold PurchaseOrderCreateView.create, PurchaseOrderCreateSerializer.is_valid.
  unfold mbind at 1. unfold M_bind, bind. unfold_monad.
  case_bool_decide; [|by intros [= _ <-]].
  case_bool_decide; [|by intros [= _ <-]].
  by intros [(e1 & _ & ->)|(pk & [=] & _)]%atomic_inv.
Qed.

(** Receiving either leaves the store as it was or has run its loop over
    the lines of the order and marked the order. *)
Lemma receive_purchase_order_inv env pk s r s' :
  receive_purchase_order env pk s = (r, s') →
  ((∃ e, r = inl e) ∧ s' = s)
  ∨ ∃ po s1,
      r = inr tt
      ∧ receive_items_loop env po (purchase_order_items_of s pk) s = (inr tt, s1)
      ∧ s' = with_purchase_orders
               <[pk := PurchaseOrder.with_received_date (now env)
                         (PurchaseOrder.with_status PurchaseOrder.Received po)]> s1.
Proof.
  unfold receive_purchase_order. unfold mbind at 1. unfold M_bind, bind, get.
  destruct (purchase_orders s !! pk) as [po|]; [|intros [= <- <-]; left; eauto].
  case_bool_decide; [intros [= <- <-]; left; eauto|].
  intros [(e & -> & ->)|([] & -> & Hbody)]%atomic_inv; [left; eauto|].
  unfold_monad in Hbody.
  destruct (receive_items_loop env po _ s) as [[e1|[]] s2] eqn:Hloop; [done|].
  injection Hbody as <-. right. by exists po, s2.
Qed.

Lemma cancel_purchase_order_inv pk s r s' :
  cancel_purchase_order pk s = (r, s') →
  ((∃ e, r = inl e) ∧ s' = s)
  ∨ (r = inr tt
     ∧ products s' = products s
     ∧ stock_movements s' = stock_movements s).
Proof.
  unfold cancel_purchase_order. unfold_monad.
  destruct (purchase_orders s !! pk) as [po|]; [|intros [= <- <-]; left; eauto].
  case_bool_decide; intros [= <- <-]; [left; eauto|by right].
Qed.

(** An operation that answers with an error has written nothing. *)
Lemma run_failure env op s e :
  (run env op s).1 = Some e → (run env op s).2 = s.
Proof.
  destruct op as [data|pk|data|data|pk|pk]; simpl.
  - destruct (SaleCreateView.create env data s) as [[e0|pk] s'] eqn:Hrun; [|done].
    intros _. by apply create_sale_failure in Hrun.
  - destruct (cancel_sale_view pk s) as [[e0|[]] s'] eqn:Hrun; [|done].
    intros _. by apply cancel_sale_failure in Hrun.
  - destruct (StockAdjustmentView.post env data s) as [[e0|m] s'] eqn:Hrun; [|done].
    intros _. by apply adjust_stock_inv in Hrun as [[_ ->]|(? & ? & [=] & _)].
  - destruct (PurchaseOrderCreateView.create env data s) as [[e0|pk] s'] eqn:Hrun; [|done].
    intros _. by apply create_purchase_order_failure in Hrun.
  - destruct (receive_purchase_order env pk s) as [[e0|[]] s'] eqn:Hrun; [|done].
    intros _. by apply receive_purchase_order_inv in Hrun as [[_ ->]|(? & ? & [=] & _)].
  - destruct (cancel_purchase_order pk s) as [[e0|[]] s'] eqn:Hrun; [|done].
    intros _. by apply cancel_purchase_order_inv in Hrun as [[_ ->]|([=] & _)].
Qed.

Lemma run_all_cons request history s :
  run_all (request :: history) s = run_all history (run request.1 request.2 s).2.
Proof. done. Qed.

Lemma total_of_app {A} (f : A → Z) (l1 l2 : list A) :
  total_of f (l1 ++ l2) = total_of f l1 + total_of f l2.
Proof. unfold total_of. induction l1 as [|x l1 IH]; simpl; lia. Qed.

Lemma ledger_delta_app pid rows1 rows2 :
  ledger_delta pid (rows1 ++ rows2) = ledger_delta pid rows1 + ledger_delta pid rows2.
Proof. unfold ledger_delta. by rewrite filter_app, total_of_app. Qed.

(** The delta of ledger rows that were written one per line of a list. *)
Lemma ledger_delta_pairs {A} (f g : A → Z) pid (rows : list StockMovement.t) (xs : list A) :
  (λ m, (StockMovement.product m, StockMovement.quantity m)) <$> rows
  = (λ x, (f x, g x)) <$> xs →
  ledger_delta pid rows = total_of g (filter (λ x, f x = pid) xs).
Proof.
  unfold ledger_delta. revert xs.
  induction rows as [|m rows IH]; intros [|x xs] Hpairs; try done.
  rewrite !fmap_cons in Hpairs. injection Hpairs as Hp Hq Hrest.
  rewrite !filter_cons, Hp. case_decide; simpl; rewrite (IH xs Hrest); [lia|done].
Qed.

Lemma total_of_opp {A} (f : A → Z) (l : list A) :
  total_of (λ x, - f x) l = - total_of f l.
Proof. unfold total_of. induction l as [|x l IH]; simpl; lia. Qed.

Lemma ledger_extended_trans s1 s2 s3 :
  ledger_extended s1 s2 → ledger_extended s2 s3 → ledger_extended s1 s3.
Proof.
  intros (new1 & H1 & Hb1 & Hn1) (new2 & H2 & Hb2 & Hn2).
  exists (new1 ++ new2). rewrite H2, H1, <- app_assoc.
  split; [done|]. split; by apply Forall_app.
Qed.

Lemma run_ledger_extended env op s : ledger_extended s (run env op s).2.
Proof.
  destruct op as [data|pk|data|data|pk|pk]; simpl.
  - destruct (SaleCreateView.create env data s) as [r s'] eqn:Hrun.
    by apply create_sale_frame in Hrun as [? _].
  - destruct (cancel_sale_view pk s) as [r s'] eqn:Hrun.
    apply cancel_sale_frame in Hrun as [? _]. by apply ledger_extended_same.
  - destruct (StockAdjustmentView.post env data s) as [r s'] eqn:Hrun.
    by apply adjust_stock_frame in Hrun as [? _].
  - destruct (PurchaseOrderCreateView.create env data s) as [r s'] eqn:Hrun.
    apply create_purchase_order_frame in Hrun as [? _]. by apply ledger_extended_same.
  - destruct (receive_purchase_order env pk s) as [r s'] eqn:Hrun.
    by apply receive_purchase_order_frame in Hrun as [? _].
  - destruct (cancel_purchase_order pk s) as [r s'] eqn:Hrun.
    apply cancel_purchase_order_frame in Hrun as [? _]. by apply ledger_extended_same.
Qed.

Lemma accounted_same s s' :
  products s' = products s → stock_movements s' = stock_movements s → accounted s s'.
Proof.
  intros Hprod Hmov. exists []. rewrite Hprod, Hmov, app_nil_r. split; [done|].
  intros pid. destruct (products s !! pid) as [p|]; [|done].
  simpl. change (ledger_delta pid []) with 0. by rewrite add_stock_0.
Qed.

Lemma accounted_trans s1 s2 s3 : accounted s1 s2 → accounted s2 s3 → accounted s1 s3.
Proof.
  intros (new1 & Hmov1 & Hprod1) (new2 & Hmov2 & Hprod2).
  exists (new1 ++ new2). rewrite Hmov2, Hmov1, <- app_assoc. split; [done|].
  intros pid. rewrite Hprod2, Hprod1, ledger_delta_app.
  destruct (products s1 !! pid) as [p|]; [|done]. simpl. by rewrite add_stock_add.
Qed.

(** Every operation but the cancellation of a sale accounts in the ledger
    for the stock it moves. *)
Lemma run_accounted env op s :
  (∀ pk, op ≠ CancelSale pk) → accounted s (run env op s).2.
Proof.
  intros Hop.
  destruct op as [data|pk|data|data|pk|pk]; simpl.
  - destruct (SaleCreateView.create env data s) as [[e|pk] s'] eqn:Hrun; simpl.
    { apply create_sale_failure in Hrun as ->. by apply accounted_same. }
    apply create_view_inv in Hrun as (_ & _ & calculated & s1 & _ & Hloop & ->).
    apply create_items_loop_commit in Hloop as (Hprod & _ & new & Hmov & Hpairs).
    exists new. split; [done|]. intros pid. simpl in *. rewrite Hprod.
    rewrite (ledger_delta_pairs _ _ _ _ _ Hpairs), total_of_opp. done.
  - by destruct (Hop pk).
  - destruct (StockAdjustmentView.post env data s) as [r s'] eqn:Hrun; simpl.
    apply adjust_stock_inv in Hrun
      as [[_ ->]|(p & m & _ & Hp & Hpid & Hnew & _ & Hprod & Hmov)];
      [by apply accounted_same|].
    exists [m]. split; [done|]. intros pid. rewrite Hprod.
    unfold ledger_delta. rewrite filter_cons, Hpid.
    destruct (decide (StockAdjustmentSerializer.product_id data = pid)) as [<-|Hne].
    + rewrite lookup_insert_eq, Hp. simpl. unfold add_stock. rewrite Hnew.
      do 2 f_equal. lia.
    + rewrite lookup_insert_ne by done.
      destruct (products s !! pid) as [p'|]; [|done].
      simpl. change (total_of StockMovement.quantity (filter _ [])) with 0.
      by rewrite add_stock_0.
  - destruct (PurchaseOrderCreateView.create env data s) as [[e|pk] s'] eqn:Hrun; simpl.
    { apply create_purchase_order_failure in Hrun as ->. by apply accounted_same. }
    pose proof (create_purchase_order_frame _ _ _ _ _ Hrun) as (Hmov & _).
    apply create_purchase_order_inv in Hrun as (_ & _ & Hprod & _).
    by apply accounted_same.
  - destruct (receive_purchase_order env pk s) as [r s'] eqn:Hrun; simpl.
    apply receive_purchase_order_inv in Hrun
      as [[_ ->]|(po & s1 & _ & Hloop & ->)]; [by apply accounted_same|].
    pose proof (receive_items_loop_ledger _ _ _ _ _ Hloop) as (new & Hmov & Hpairs).
    apply receive_items_loop_effects in Hloop as (Hprod & _).
    exists new. split; [done|]. intros pid. simpl. rewrite Hprod.
    by rewrite (ledger_delta_pairs _ _ _ _ _ Hpairs).
  - destruct (cancel_purchase_order pk s) as [r s'] eqn:Hrun; simpl.
    apply cancel_purchase_order_inv in Hrun as [[_ ->]|(_ & Hprod & Hmov)];
      by apply accounted_same.
Qed.

(** X11. Whatever requests are handled, in whatever order, the ledger
    only grows, and every row it gains is balanced. When none of the
    requests cancels a sale the ledger also accounts for the stock: each
    product holds the units of before plus the signed quantities of the
    rows the history wrote for it, and no product appears or goes. The
    cancellation of a sale is left out because it puts units back
    without a ledger row. *)
Theorem ledger_accounts_for_stock history s :
  ledger_extended s (run_all history s)
  ∧ (Forall (λ request : Env * Operation, ∀ pk, request.2 ≠ CancelSale pk) history →
     ∃ new_movements,
       stock_movements (run_all history s) = stock_movements s ++ new_movements
       ∧ ∀ pid, stock (run_all history s) pid
                = (λ q, q + ledger_delta pid new_movements) <$> stock s pid).
Proof.
  split.
  - revert s. induction history as [|[env op] history IH]; intros s.
    + apply ledger_extended_refl.
    + rewrite run_all_cons. eapply ledger_extended_trans; [|apply IH].
      apply run_ledger_extended.
  - intros Hops.
    assert (Hacc : accounted s (run_all history s)).
    { revert s. induction Hops as [|[env op] history Hop _ IH]; intros s.
      - by apply accounted_same.
      - rewrite run_all_cons. eapply accounted_trans; [|apply IH].
        by apply run_accounted. }
    destruct Hacc as (new & Hmov & Hprod). exists new. split; [done|].
    intros pid. unfold stock. rewrite Hprod. by destruct (products s !! pid).
Qed.

Lemma ledger_accounts_for_stock_witness :
  ∃ new_movements,
    stock_movements
      (run_all [(Examples.env, CreatePurchaseOrder Examples.ten_bolts);
                (Examples.env, AdjustStock Examples.remove_three);
                (Examples.env, ReceivePurchaseOrder 0);
                (Examples.env, AdjustStock Examples.remove_three)]
         Examples.depot_with_supplier)
    = new_movements
    ∧ ledger_delta 7 new_movements = 4
    ∧ stock
        (run_all [(Examples.env, CreatePurchaseOrder Examples.ten_bolts);
                  (Examples.env, AdjustStock Examples.remove_three);
                  (Examples.env, ReceivePurchaseOrder 0);
                  (Examples.env, AdjustStock Examples.remove_three)]
           Examples.depot_with_supplier) 7
      = Some 9.
Proof.
  destruct (ledger_accounts_for_stock
              [(Examples.env, CreatePurchaseOrder Examples.ten_bolts);
               (Examples.env, AdjustStock Examples.remove_three);
               (Examples.env, ReceivePurchaseOrder 0);
               (Examples.env, AdjustStock Examples.remove_three)]
              Examples.depot_with_supplier) as [_ Haccounted].
  destruct Haccounted as (new & Hmov & Hstock).
  - repeat constructor; discriminate.
  - exists new. split; [exact Hmov|].
    assert (Hnew : new = stock_movements
              (run_all [(Examples.env, CreatePurchaseOrder Examples.ten_bolts);
                        (Examples.env, AdjustStock Examples.remove_three);
                        (Examples.env, ReceivePurchaseOrder 0);
                        (Examples.env, AdjustStock Examples.remove_three)]
                 Examples.depot_with_supplier)) by (symmetry; exact Hmov).
    split; [rewrite Hnew; vm_compute; reflexivity|].
    rewrite Hstock, Hnew. vm_compute. reflexivity.
Defined.

End Histories.

(** ** The alerts a manager is shown *)

Section AlertListing.

Lemma get_queryset_of_product pid s :
  filter (λ a, StockAlert.product a = pid) (StockAlertListView.get_queryset s)
  = open_alerts pid (stock_alerts s).
Proof.
  unfold StockAlertListView.get_queryset, open_alerts.
  induction (stock_alerts s) as [|[prod level current resolved at_] rows IH]; [done|].
  rewrite !filter_cons. unfold StockAlert.is_open_for in *. simpl.
  destruct resolved; simpl.
  - rewrite andb_false_r, decide_False by done. exact IH.
  - rewrite andb_true_r, filter_cons. simpl.
    destruct (decide (prod = pid)) as [Heq|Hne].
    + rewrite decide_True by (by apply bool_decide_eq_true). by rewrite IH.
    + rewrite decide_False by (by rewrite bool_decide_eq_true). exact IH.
Qed.

(** X8. The list of unresolved alerts never shows two alerts of one
    product, after any history of requests, provided it did not before:
    an adjustment opens an alert only when none is open for the product,
    and no other operation opens one. *)
Theorem alert_list_has_one_alert_per_product history s :
  (∀ pid, length (open_alerts pid (stock_alerts s)) ≤ 1)%nat →
  ∀ pid,
    (length (filter (λ a, StockAlert.product a = pid)
               (StockAlertListView.get_queryset (run_all history s))) ≤ 1)%nat.
Proof.
  intros Hone pid. rewrite get_queryset_of_product.
  revert s Hone pid. induction history as [|[env op] history IH]; intros s Hone pid.
  - apply Hone.
  - rewrite run_all_cons. apply IH. by apply one_open_alert_preserved.
Qed.

Lemma alert_list_has_one_alert_per_product_witness :
  (length (filter (λ a, StockAlert.product a = 7%Z)
             (StockAlertListView.get_queryset
                (run_all [(Examples.env, AdjustStock MoreExamples.set_to_zero);
                          (Examples.env, AdjustStock Examples.add_twenty);
                          (Examples.env, AdjustStock Examples.remove_three);
                          (Examples.env, AdjustStock MoreExamples.set_to_zero)]
                   Examples.depot))) ≤ 1)%nat
  ∧ StockAlertListView.get_queryset
      (run_all [(Examples.env, AdjustStock MoreExamples.set_to_zero);
                (Examples.env, AdjustStock Examples.add_twenty);
                (Examples.env, AdjustStock Examples.remove_three);
                (Examples.env, AdjustStock MoreExamples.set_to_zero)]
         Examples.depot)
    = [StockAlert.mk 7 10 0 false None].
Proof.
  split; [|reflexivity].
  apply (alert_list_has_one_alert_per_product
           [(Examples.env, AdjustStock MoreExamples.set_to_zero);
            (Examples.env, AdjustStock Examples.add_twenty);
            (Examples.env, AdjustStock Examples.remove_three);
            (Examples.env, AdjustStock MoreExamples.set_to_zero)]
           Examples.depot).
  intros pid. simpl. lia.
Defined.

End AlertListing.

(** ** Who may do what *)

Section Permissions.

Lemma requested_for_nonneg pid items_data :
  forallb SaleItemCreateSerializer.fields_valid items_data = true →
  0 ≤ requested_for pid items_data.
Proof.
  induction items_data as [|item_data rest IH]; intros Hvalid; [done|].
  simpl in Hvalid. apply andb_true_iff in Hvalid as [Hhd Htl].
  rewrite requested_for_cons. specialize (IH Htl).
  unfold SaleItemCreateSerializer.fields_valid in Hhd.
  apply andb_true_iff in Hhd as [Hone _]. apply bool_decide_eq_true in Hone.
  case_decide; lia.
Qed.

(** X12. A request writes to the store only when its user is let
    through and its operation commits. A refusal comes before the view
    runs, and an error of validation or inside the transaction leaves the
    store as it was, whatever the operation wrote before it being rolled
    back. An error raised later, while the response of a committed
    operation is rendered, is answered with the writes in place. *)
Theorem request_writes_only_when_committed renders user env op s answer s' :
  respond renders user env op s = (answer, s') →
  match answer with
  | Forbidden => permission_classes op user = false ∧ s' = s
  | Failed e =>
      permission_classes op user = true ∧ run env op s = (Some e, s) ∧ s' = s
  | Rendered =>
      permission_classes op user = true ∧ run env op s = (None, s')
      ∧ renders op s' = true
  | RenderingFailed =>
      permission_classes op user = true ∧ run env op s = (None, s')
      ∧ renders op s' = false
  end.
Proof.
  unfold respond, dispatch.
  destruct (permission_classes op user); [|by intros [= <- <-]].
  pose proof (run_failure env op s) as Hfailure.
  destruct (run env op s) as [[e|] s1]; simpl in *.
  - intros [= <- <-]. by rewrite (Hfailure e).
  - destruct (renders op s1) eqn:Hrenders; by intros [= <- <-].
Qed.

Lemma request_writes_only_when_committed_witness :
  (respond (λ _ _, true) MoreExamples.cashier Examples.env
     (AdjustStock Examples.remove_three) Examples.depot).2 = Examples.depot
  ∧ run Examples.env (CreatePurchaseOrder MoreExamples.bolts_and_unknown)
      Examples.depot_with_supplier
    = (Some DoesNotExist, Examples.depot_with_supplier).
Proof.
  split.
  - apply (request_writes_only_when_committed (λ _ _, true) MoreExamples.cashier
             Examples.env (AdjustStock Examples.remove_three) Examples.depot
             Forbidden).
    reflexivity.
  - apply (request_writes_only_when_committed (λ _ _, true) MoreExamples.manager
             Examples.env (CreatePurchaseOrder MoreExamples.bolts_and_unknown)
             Examples.depot_with_supplier (Failed DoesNotExist)
             Examples.depot_with_supplier).
    reflexivity.
Defined.

(** X13. A user who is neither admin nor manager can change the store
    only by creating a sale: whatever the request, the purchase orders
    and the alerts stay as they were, and no product ends with more
    units than it had. *)
Theorem non_manager_only_sells user env op s :
  IsManager.has_permission user = false →
  purchase_orders (dispatch user env op s).2 = purchase_orders s
  ∧ stock_alerts (dispatch user env op s).2 = stock_alerts s
  ∧ (∀ pid q, stock s pid = Some q →
       ∃ q', stock (dispatch user env op s).2 pid = Some q' ∧ q' ≤ q)
  ∧ ((dispatch user env op s).2 = s
     ∨ ∃ data, op = CreateSale data ∧ IsCashier.has_permission user = true).
Proof.
  intros Hrefused.
  assert (Hsame : ∀ s', s' = s →
            purchase_orders s' = purchase_orders s
            ∧ stock_alerts s' = stock_alerts s
            ∧ (∀ pid q, stock s pid = Some q → ∃ q', stock s' pid = Some q' ∧ q' ≤ q)
            ∧ (s' = s ∨ ∃ data, op = CreateSale data
                                ∧ IsCashier.has_permission user = true)).
  { intros s' ->. split; [done|]. split; [done|]. split; [|by left].
    intros pid q Hq. exists q. split; [done|lia]. }
  unfold dispatch.
  destruct op as [data|pk|data|data|pk|pk]; simpl; rewrite ?Hrefused; try by apply Hsame.
  destruct (IsCashier.has_permission user) eqn:Hcashier; [|by apply Hsame].
  destruct (SaleCreateView.create env data s) as [[e|pk] s'] eqn:Hrun; simpl.
  { apply Hsame. by apply create_sale_failure in Hrun. }
  pose proof (create_sale_frame _ _ _ _ _ Hrun) as (_ & Hal & Hpo).
  split; [done|]. split; [done|]. split; [|right; by exists data].
  apply create_view_inv in Hrun as (Hfields & _ & calculated & s1 & _ & Hloop & ->).
  apply create_items_loop_commit in Hloop as (Hprod & _).
  intros pid q Hq. unfold stock in *. simpl in *. rewrite Hprod.
  destruct (products s !! pid) as [p|]; [|done]. simpl in *. injection Hq as <-.
  eexists. split; [done|].
  pose proof (requested_for_nonneg pid (SaleCreateSerializer.items data)) as Hnonneg.
  unfold SaleCreateSerializer.fields_valid in Hfields.
  rewrite !andb_true_iff in Hfields. destruct Hfields as [[[_ Hitems] _] _].
  specialize (Hnonneg Hitems). lia.
Qed.

Lemma non_manager_only_sells_witness :
  purchase_orders
    (dispatch MoreExamples.cashier Examples.env (CancelPurchaseOrder 4)
       Examples.depot_with_order).2
  = purchase_orders Examples.depot_with_order
  ∧ ∃ q', stock (dispatch MoreExamples.cashier Examples.env
                   (CreateSale Examples.two_widgets) Examples.shop).2 1 = Some q'
          ∧ q' ≤ 10.
Proof.
  split.
  - apply (non_manager_only_sells MoreExamples.cashier Examples.env
             (CancelPurchaseOrder 4) Examples.depot_with_order). reflexivity.
  - destruct (non_manager_only_sells MoreExamples.cashier Examples.env
                (CreateSale Examples.two_widgets) Examples.shop) as (_ & _ & Hstock & _);
      [reflexivity|].
    apply Hstock. reflexivity.
Defined.

(** X14. The permission classes are nested: whoever [IsAdmin] lets
    through [IsManager] lets through, and whoever [IsManager] lets
    through [IsCashier] lets through; all three refuse the anonymous
    user and a user without a role. [IsAdminOrReadOnly] lets an admin do
    everything and, for a method that is not safe, lets through exactly
    those [IsAdmin] does. A user [IsManager] lets through may invoke
    every operation. *)
Theorem permission_classes_nested user :
  (IsAdmin.has_permission user = true → IsManager.has_permission user = true)
  ∧ (IsManager.has_permission user = true → IsCashier.has_permission user = true)
  ∧ (IsCashier.has_permission user = true →
       User.is_authenticated user = true ∧ is_Some (User.role user))
  ∧ (∀ method, IsAdmin.has_permission user = true →
       IsAdminOrReadOnly.has_permission user method = true)
  ∧ (∀ method, method ∉ SAFE_METHODS →
       IsAdminOrReadOnly.has_permission user method = IsAdmin.has_permission user)
  ∧ (∀ op, IsManager.has_permission user = true → permission_classes op user = true).
Proof.
  unfold IsAdmin.has_permission, IsManager.has_permission, IsCashier.has_permission,
    IsAdminOrReadOnly.has_permission, User.is_admin, User.is_manager, User.is_cashier.
  destruct user as [authenticated [name|]]; simpl.
  - split; [|split; [|split; [|split; [|split]]]].
    + intros [-> ->]%andb_true_iff. done.
    + intros [-> ->]%andb_true_iff. done.
    + intros [-> _]%andb_true_iff. by eauto.
    + intros method [-> ->]%andb_true_iff. by case_bool_decide.
    + intros method Hunsafe. by rewrite bool_decide_false.
    + intros op Hmanager. destruct op; simpl; try done.
      unfold IsCashier.has_permission, User.is_admin, User.is_manager. simpl.
      apply andb_true_iff in Hmanager as [-> ->]. done.
  - rewrite !andb_false_r. repeat split; try done.
    intros method Hunsafe. by rewrite bool_decide_false.
Qed.

Lemma permission_classes_nested_witness :
  IsManager.has_permission MoreExamples.admin = true
  ∧ IsCashier.has_permission MoreExamples.manager = true
  ∧ IsAdminOrReadOnly.has_permission MoreExamples.admin DELETE = true.
Proof.
  destruct (permission_classes_nested MoreExamples.admin)
    as (Hadmin & _ & _ & Hmethods & _).
  destruct (permission_classes_nested MoreExamples.manager) as (_ & Hmanager & _).
  split; [apply Hadmin; reflexivity|].
  split; [apply Hmanager; reflexivity|].
  apply Hmethods. reflexivity.
Defined.

End Permissions.

(** ** The change of a sale *)

Section SaleChange.
Import SaleItemCreateSerializer SaleCreateSerializer.
Import DecimalFacts.

(** What [validate] has computed and checked when it returns. *)
Lemma validate_inv data s calculated s1 :
  validate data s = (inr calculated, s1) →
  Decimal.places (total calculated) = 2%nat
  ∧ Decimal.ltb (amount_paid data) (total calculated) = false
  ∧ change_amount calculated
    = Decimal.quantize2 (amount_paid data -d total calculated).
Proof.
  unfold validate. unfold mbind, M_bind, bind.
  destruct (validate_items_loop _ _ s) as [[e|[[a b] c]] s2]; [done|].
  destruct (Decimal.ltb _ _) eqn:Hpaid; [done|].
  intros [= <- _]. simpl. split; [apply places_quantize2|]. by split.
Qed.

(** X15. The sale a request stores is completed, keeps the amount paid
    as it was sent, and has a change that is never negative and makes up
    the amount paid with the total, to the cent: [validate] refuses a
    payment below the total it has rounded. *)
Theorem stored_sale_change env data s pk s' :
  SaleCreateView.create env data s = (inr pk, s') →
  ∃ sale,
    sales s' !! pk = Some sale
    ∧ Sale.status sale = Sale.Completed
    ∧ Sale.amount_paid sale = amount_paid data
    ∧ Decimal.places (Sale.change_amount sale) = 2%nat
    ∧ 0 ≤ Decimal.coef (Sale.change_amount sale)
    ∧ Sale.total sale +d Sale.change_amount sale = Sale.amount_paid sale.
Proof.
  intros (Hfields & _ & calculated & s1 & Hvalid & Hloop & ->)%create_view_inv.
  apply create_items_loop_effects in Hloop as (Hsales & _).
  apply validate_inv in Hvalid as (Htotal & Hpaid & Hchange).
  assert (Hplaces : Decimal.places (amount_paid data) = 2%nat).
  { unfold fields_valid in Hfields. rewrite !andb_true_iff in Hfields.
    destruct Hfields as [[_ Hp] _]. by apply bool_decide_eq_true in Hp. }
  eexists. simpl in *. rewrite Hsales. simpl. rewrite lookup_insert_eq.
  split; [done|]. simpl. split; [done|]. split; [done|].
  rewrite Hchange.
  rewrite quantize2_id by (by rewrite places_sub, Hplaces, Htotal).
  unfold Decimal.ltb in Hpaid. rewrite Hplaces, Htotal in Hpaid. simpl in Hpaid.
  apply bool_decide_eq_false in Hpaid.
  destruct (amount_paid data) as [paid n], (total calculated) as [tot m].
  simpl in *. subst n m.
  unfold Decimal.scaled in *. simpl in *. rewrite !pow10_0 in *.
  split; [done|]. split; [lia|].
  unfold Decimal.add, Decimal.sub, Decimal.scaled. simpl. rewrite !pow10_0.
  f_equal. lia.
Qed.

Lemma stored_sale_change_witness :
  ∃ pk s' sale,
    SaleCreateView.create Examples.env Examples.two_widgets Examples.shop = (inr pk, s')
    ∧ sales s' !! pk = Some sale
    ∧ 0 ≤ Decimal.coef (Sale.change_amount sale)
    ∧ Sale.total sale +d Sale.change_amount sale
      = SaleCreateSerializer.amount_paid Examples.two_widgets.
Proof.
  eexists _, _.
  destruct (stored_sale_change Examples.env Examples.two_widgets Examples.shop _ _ eq_refl)
    as (sale & Hsale & _ & Hpaid & _ & Hchange & Hsum).
  exists sale. split; [reflexivity|]. split; [exact Hsale|]. split; [exact Hchange|].
  by rewrite <- Hpaid.
Defined.

End SaleChange.

(** ** The sale stored for an accepted request *)

Section AcceptedSale.
Import SaleItemCreateSerializer SaleCreateSerializer SaleAmounts.
Import Decimal DecimalFacts.

(** A request that went through was in stock and paid for, and the sale
    stored is the one [validate] computed. *)
Lemma create_view_sale env data s pk s' :
  SaleCreateView.create env data s = (inr pk, s') →
  fields_valid data = true
  ∧ Forall (in_stock s) (items data)
  ∧ ltb (amount_paid data) (computed_total s data) = false
  ∧ sales s' !! pk = Some
      (Sale.mk (generated_number env) (request_user env) (customer_name data)
         (quantize2 (exact_subtotal s data))
         (quantize2 (exact_tax s data))
         (quantize2 (exact_discount s data))
         (computed_total s data)
         (payment_method data) (amount_paid data)
         (quantize2 (amount_paid data -d computed_total s data))
         Sale.Completed (notes data)).
Proof.
  intros Hrun. pose proof (create_view_in_stock _ _ _ _ _ Hrun) as Hall.
  apply create_view_inv in Hrun as (Hfields & _ & calculated & s1 & Hvalid & Hloop & ->).
  assert (Hpaid : ltb (amount_paid data) (computed_total s data) = false).
  { destruct (ltb (amount_paid data) (computed_total s data)) eqn:Hpaid; [|done].
    unfold validate in Hvalid. unfold mbind, M_bind, bind in Hvalid.
    rewrite (validate_items_loop_ok s _ _ _ _ Hall) in Hvalid by (simpl; lia).
    assert (Hz : ∀ l, zero2 +d sum l = sum l).
    { intros l. rewrite add_comm. apply add_zero2_r, places_sum. }
    rewrite !Hz in Hvalid.
    fold (exact_subtotal s data) (exact_tax s data) (exact_discount s data) in Hvalid.
    fold (computed_total s data) in Hvalid. by rewrite Hpaid in Hvalid. }
  rewrite (validate_ok _ _ Hall Hpaid) in Hvalid. injection Hvalid as <-.
  apply create_items_loop_effects in Hloop as (Hsales & _).
  split; [done|]. split; [done|]. split; [done|].
  simpl in *. rewrite Hsales. simpl. by rewrite lookup_insert_eq.
Qed.

(** C1. For every sale request that is accepted, every line was within
    the stock on record and the amount paid was not below the computed
    total, and the sale stored is completed, with as total subtotal -
    discount + tax rounded to two decimals, where subtotal, discount and
    tax are the sums over the lines of unit_price x quantity, of the
    line discounts and of the line taxes, none of them rounded before,
    and with as change amount_paid - total. *)
Theorem sale_total_from_exact_sums env data s pk s' :
  SaleCreateView.create env data s = (inr pk, s') →
  Forall (in_stock s) (items data)
  ∧ ltb (amount_paid data) (computed_total s data) = false
  ∧ ∃ sale,
      sales s' !! pk = Some sale
      ∧ Sale.status sale = Sale.Completed
      ∧ Sale.total sale
        = quantize2 (exact_subtotal s data -d exact_discount s data +d exact_tax s data)
      ∧ Sale.amount_paid sale = amount_paid data
      ∧ Sale.change_amount sale = Sale.amount_paid sale -d Sale.total sale.
Proof.
  intros (Hfields & Hall & Hpaid & Hsale)%create_view_sale.
  split; [exact Hall|]. split; [exact Hpaid|].
  eexists. split; [exact Hsale|]. simpl. repeat split.
  apply quantize2_id. rewrite places_sub. unfold computed_total.
  rewrite places_quantize2.
  unfold fields_valid in Hfields. rewrite !andb_true_iff in Hfields.
  destruct Hfields as [[[_ _] Hp] _]. apply bool_decide_eq_true in Hp.
  by rewrite Hp.
Qed.

Lemma sale_total_from_exact_sums_witness :
  ∃ pk s' sale,
    SaleCreateView.create Examples.env Examples.two_widgets Examples.shop = (inr pk, s')
    ∧ sales s' !! pk = Some sale
    ∧ Sale.total sale = Decimal.mk 20880 2
    ∧ Sale.change_amount sale = Decimal.mk 4120 2.
Proof.
  eexists _, _.
  destruct (sale_total_from_exact_sums Examples.env Examples.two_widgets Examples.shop
              _ _ eq_refl)
    as (_ & _ & sale & Hsale & _ & Htotal & Hpaid & Hchange).
  exists sale. split; [reflexivity|]. split; [exact Hsale|]. split.
  - rewrite Htotal. reflexivity.
  - rewrite Hchange, Hpaid, Htotal. reflexivity.
Defined.

End AcceptedSale.

(** ** The subtotal of a stored sale line *)

Section StoredSaleItems.
Import SaleItemCreateSerializer SaleCreateSerializer SaleAmounts.
Import Decimal DecimalFacts.

Lemma places_sum_quantized xs : places (sum (quantize2 <$> xs)) = 2%nat.
Proof.
  induction xs as [|x xs IH]; [done|].
  by rewrite fmap_cons, sum_cons, places_add, places_quantize2, IH.
Qed.

Lemma places_sum_le n xs :
  (2 ≤ n)%nat → Forall (λ x, (places x ≤ n)%nat) xs → (places (sum xs) ≤ n)%nat.
Proof.
  intros Hn. induction 1 as [|x xs Hx _ IH]; [done|].
  rewrite sum_cons, places_add. lia.
Qed.

Lemma places_le_sum xs : Forall (λ x, (places x ≤ places (sum xs))%nat) xs.
Proof.
  induction xs as [|x xs IH]; constructor.
  - rewrite sum_cons, places_add. lia.
  - eapply Forall_impl; [exact IH|]. intros y Hy. simpl in Hy.
    rewrite sum_cons, places_add. lia.
Qed.

Lemma scaled_quantize2 n x :
  scaled n (quantize2 x) = coef (quantize2 x) * pow10 (n - 2).
Proof. unfold scaled. by rewrite places_quantize2. Qed.

(** Amounts rounded to cents one by one add up to within half a cent
    each of what they add up to unrounded. *)
Lemma sum_quantized_bound n xs :
  (2 ≤ n)%nat →
  Forall (λ x, (2 ≤ places x ≤ n)%nat) xs →
  2 * Z.abs (scaled n (sum (quantize2 <$> xs)) - scaled n (sum xs))
  ≤ Z.of_nat (length xs) * pow10 (n - 2).
Proof.
  intros Hn. induction 1 as [|x xs [Hx1 Hx2] Hxs IH]; [simpl; lia|].
  assert (Hsum : (places (sum xs) ≤ n)%nat).
  { apply places_sum_le; [done|]. eapply Forall_impl; [exact Hxs|]. simpl. lia. }
  pose proof (places_sum_quantized xs) as Hq.
  rewrite fmap_cons, !sum_cons.
  rewrite !scaled_add by (rewrite ?places_quantize2; lia).
  rewrite scaled_quantize2.
  pose proof (quantize2_bound n x Hx1 Hx2) as Hx.
  rewrite length_cons, Nat2Z.inj_succ, Z.mul_succ_l. lia.
Qed.

(** C10, as amended. Every sale line stored by sale creation has as
    subtotal the line amount with discount and tax, in cents: unit_price
    x quantity, minus that amount x discount_percent / 100, plus the
    discounted amount x tax_rate / 100, rounded to two decimals. The
    subtotals of the lines therefore add up to the sale's unrounded
    subtotal - discount + tax to within half a cent per line, and not to
    the sale's subtotal field, the rounded sum of unit_price x quantity,
    once tax and discount differ by more than half a cent per line and
    half a cent more. *)
Theorem sale_item_subtotal_inclusive env data s pk s' :
  SaleCreateView.create env data s = (inr pk, s') →
  ∃ sale rows,
    sales s' !! pk = Some sale
    ∧ sale_items s' = sale_items s ++ rows
    ∧ Forall2 (λ line row,
         SaleItem.sale row = pk
         ∧ SaleItem.quantity row = quantity line.2
         ∧ SaleItem.unit_price row = Product.price line.1
         ∧ Dec (SaleItem.discount_percent row) = discount_percent line.2
         ∧ SaleItem.tax_rate row = Product.tax_rate line.1
         ∧ SaleItem.subtotal row
           = quantize2
               (SaleItem.unit_price row *d of_int (SaleItem.quantity row)
                -d SaleItem.unit_price row *d of_int (SaleItem.quantity row)
                   *d div100 (SaleItem.discount_percent row)
                +d (SaleItem.unit_price row *d of_int (SaleItem.quantity row)
                    -d SaleItem.unit_price row *d of_int (SaleItem.quantity row)
                       *d div100 (SaleItem.discount_percent row))
                   *d div100 (SaleItem.tax_rate row)))
       (lines s (items data)) rows
    ∧ Sale.subtotal sale = quantize2 (exact_subtotal s data)
    ∧ 2 * Z.abs (scaled (places (exact_tax s data)) (sum (SaleItem.subtotal <$> rows))
                 - (scaled (places (exact_tax s data)) (exact_subtotal s data)
                    - scaled (places (exact_tax s data)) (exact_discount s data)
                    + scaled (places (exact_tax s data)) (exact_tax s data)))
      ≤ Z.of_nat (length rows) * pow10 (places (exact_tax s data) - 2)
    ∧ ((Z.of_nat (length rows) + 1) * pow10 (places (exact_tax s data) - 2)
       < 2 * Z.abs (scaled (places (exact_tax s data)) (exact_tax s data)
                    - scaled (places (exact_tax s data)) (exact_discount s data)) →
       ¬ sum (SaleItem.subtotal <$> rows) ==d Sale.subtotal sale).
Proof.
  intros Hrun.
  pose proof (create_view_sale _ _ _ _ _ Hrun) as (_ & _ & _ & Hsale).
  apply create_view_inv in Hrun as (_ & _ & calculated & s1 & _ & Hloop & ->).
  apply (create_items_loop_rows _ _ _ s) in Hloop as (rows & Hitems & Hlines); [|done].
  simpl in Hitems.
  set (L := lines s (items data)) in *.
  assert (Hsubs : SaleItem.subtotal <$> rows = quantize2 <$> (uncurry item_total <$> L)).
  { clear -Hlines. induction Hlines as [|[p d] row l rows' (_ & _ & _ & _ & _ & Hs) _ IH];
      [done|]. rewrite !fmap_cons, IH, Hs. done. }
  assert (Hlen : length rows = length (uncurry item_total <$> L)).
  { rewrite length_fmap. symmetry. by eapply Forall2_length. }
  eexists _, rows. split; [exact Hsale|]. split; [exact Hitems|]. split.
  { eapply Forall2_impl; [exact Hlines|].
    intros [p d] row (H1 & H2 & H3 & H4 & H5 & H6). simpl in *.
    repeat split; try done. rewrite H6, H2, H3, H5.
    unfold item_total, item_tax, item_after_discount, item_discount, item_subtotal.
    by rewrite <- H4. }
  split; [done|]. simpl.
  set (S := exact_subtotal s data). set (D := exact_discount s data).
  set (T := exact_tax s data). set (n := places T).
  assert (Hn : (2 ≤ n)%nat) by apply places_sum.
  destruct (places_sums_le_tax L) as (M1 & M2 & M3).
  fold (exact_subtotal s data) (exact_discount s data) (exact_tax s data) in M1, M2, M3.
  fold S D T n in M1, M2, M3.
  assert (Hbound : 2 * Z.abs (scaled n (sum (SaleItem.subtotal <$> rows))
                              - (scaled n S - scaled n D + scaled n T))
                   ≤ Z.of_nat (length rows) * pow10 (n - 2)).
  { rewrite Hsubs, Hlen.
    change (scaled n S - scaled n D + scaled n T)
      with (scaled n (sum (uncurry item_subtotal <$> L))
            - scaled n (sum (uncurry item_discount <$> L))
            + scaled n (sum (uncurry item_tax <$> L))).
    rewrite <- (scaled_sum_item_total n L) by done.
    apply sum_quantized_bound; [done|].
    apply Forall_fmap. pose proof (places_le_sum (uncurry item_tax <$> L)) as Htax.
    apply Forall_fmap in Htax. eapply Forall_impl; [exact Htax|].
    intros [p d] Hpd. simpl in Hpd |- *.
    unfold n, T, exact_tax. fold L. lia. }
  split; [exact Hbound|].
  intros Hfar Heq.
  apply (eqv_scaled n) in Heq;
    [|rewrite Hsubs, places_sum_quantized; lia|rewrite places_quantize2; lia].
  rewrite scaled_quantize2 in Heq.
  pose proof (quantize2_bound n S ltac:(apply places_sum) M1) as HS.
  rewrite <- Heq in HS.
  pose proof (pow10_pos (n - 2)) as Hu.
  lia.
Qed.

Lemma sale_item_subtotal_inclusive_witness :
  ∃ pk s' sale rows,
    SaleCreateView.create Examples.env Examples.two_widgets Examples.shop = (inr pk, s')
    ∧ sales s' !! pk = Some sale
    ∧ sale_items s' = rows
    ∧ Sale.subtotal sale = Decimal.mk 20000 2
    ∧ SaleItem.subtotal <$> rows = [Decimal.mk 20880 2]
    ∧ ¬ sum (SaleItem.subtotal <$> rows) ==d Sale.subtotal sale.
Proof.
  eexists _, _.
  destruct (sale_item_subtotal_inclusive Examples.env Examples.two_widgets Examples.shop
              _ _ eq_refl)
    as (sale & rows & Hsale & Hrows & Hlines & Hsub & _ & Hfar).
  exists sale, rows. split; [reflexivity|]. split; [exact Hsale|].
  assert (Hrows' : rows = sale_items (SaleCreateView.create Examples.env
                                        Examples.two_widgets Examples.shop).2).
  { symmetry. exact Hrows. }
  split; [symmetry; exact Hrows'|]. split; [rewrite Hsub; reflexivity|].
  split; [rewrite Hrows'; vm_compute; reflexivity|].
  apply Hfar. rewrite Hrows'. vm_compute. reflexivity.
Defined.

(** C10, as stated, fails: one gum at 0.25 sold with a 10% discount and
    no tax has the line amount 0.25 - 0.025 + 0 = 0.225, and the line is
    stored with subtotal 0.22. *)
Lemma sale_item_subtotal_counterexample :
  ∃ pk s' row,
    SaleCreateView.create Examples.env MoreExamples.one_gum MoreExamples.stall
    = (inr pk, s')
    ∧ sale_items s' = [row]
    ∧ SaleItem.subtotal row = Decimal.mk 22 2
    ∧ ¬ SaleItem.subtotal row
        ==d SaleItem.unit_price row *d of_int (SaleItem.quantity row)
            -d SaleItem.unit_price row *d of_int (SaleItem.quantity row)
               *d div100 (SaleItem.discount_percent row)
            +d (SaleItem.unit_price row *d of_int (SaleItem.quantity row)
                -d SaleItem.unit_price row *d of_int (SaleItem.quantity row)
                   *d div100 (SaleItem.discount_percent row))
               *d div100 (SaleItem.tax_rate row).
Proof.
  eexists _, _, _. split; [reflexivity|]. split; [reflexivity|].
  split; [vm_compute; reflexivity|]. vm_compute. discriminate.
Qed.

End StoredSaleItems.

(** ** The rows of the ledger and their signs *)

Section MovementSigns.
Import StockAdjustmentSerializer.

(** The quantity of the row an adjustment writes. *)
Lemma adjust_stock_quantity env data s movement s' :
  StockAdjustmentView.post env data s = (inr movement, s') →
  0 ≤ quantity data
  ∧ StockMovement.quantity movement
    = match adjustment_type data with
      | Add => quantity data
      | Remove => - quantity data
      | SetTo => quantity data - StockMovement.previous_quantity movement
      end.
Proof.
  unfold StockAdjustmentView.post. unfold mbind at 1. unfold M_bind, bind.
  destruct (is_valid data s) as [[e|product] s1] eqn:Hvalid;
    apply adjustment_is_valid_inv in Hvalid as [-> Hchecked]; [done|].
  destruct (Hchecked product eq_refl) as (_ & Hq & _).
  intros [(e & [=] & _)|(movement' & [= <-] & Hbody)]%atomic_inv.
  split; [exact Hq|].
  destruct (match adjustment_type data with
            | Add => _ | Remove => _ | SetTo => _ end) as [new_quantity delta] eqn:Hbranch
    in Hbody.
  unfold_monad in Hbody.
  assert (Hdelta : delta = match adjustment_type data with
                           | Add => quantity data
                           | Remove => - quantity data
                           | SetTo => quantity data - Product.stock_quantity product
                           end).
  { by destruct (adjustment_type data); injection Hbranch as <- <-. }
  case_bool_decide.
  - match type of Hbody with context [get_or_create_open_alert ?a ?b ?c ?s1] =>
      destruct (get_or_create_open_alert a b c s1) as [[e1|[]] s2]
    end; [done|].
    injection Hbody as <- _. simpl. exact Hdelta.
  - injection Hbody as <- _. simpl. exact Hdelta.
Qed.

(** C3, as amended. Every StockMovement row that an operation creates
    (sale creation, manual adjustment, purchase-order receiving; the
    other operations create none) satisfies new_quantity -
    previous_quantity = quantity. The quantity of a sale row is
    negative. That of an adjustment row is +q for add, -q for remove and
    q - previous_quantity for set, where q >= 0 is the quantity of the
    request: zero when nothing is added or removed. That of a receiving
    row is the quantity ordered on its line, positive when the quantity
    ordered is. *)
Theorem stock_movements_balanced env op s :
  ∃ new_movements,
    stock_movements (run env op s).2 = stock_movements s ++ new_movements
    ∧ Forall (λ m, StockMovement.new_quantity m - StockMovement.previous_quantity m
                   = StockMovement.quantity m) new_movements
    ∧ Forall (λ m, StockMovement.movement_type m = StockMovement.SaleOut →
                   StockMovement.quantity m < 0) new_movements
    ∧ (∀ data, op = AdjustStock data →
         Forall (λ m, 0 ≤ quantity data
                      ∧ StockMovement.quantity m
                        = match adjustment_type data with
                          | Add => quantity data
                          | Remove => - quantity data
                          | SetTo => quantity data - StockMovement.previous_quantity m
                          end) new_movements)
    ∧ (∀ pk, op = ReceivePurchaseOrder pk →
         (new_movements = []
          ∨ StockMovement.quantity <$> new_movements
            = PurchaseOrderItem.quantity_ordered <$> (purchase_order_items_of s pk).*2)
         ∧ (Forall (λ item, 0 < PurchaseOrderItem.quantity_ordered item)
                   (purchase_order_items_of s pk).*2 →
            Forall (λ m, 0 < StockMovement.quantity m) new_movements)).
Proof.
  destruct (run_ledger_extended env op s) as (new & Hmov & Hbalanced & Hsale).
  exists new. split; [exact Hmov|]. split; [exact Hbalanced|]. split; [exact Hsale|].
  split.
  - intros data ->. simpl in Hmov.
    destruct (StockAdjustmentView.post env data s) as [[e|movement] s'] eqn:Hrun.
    + apply adjust_stock_inv in Hrun as [[_ ->]|(? & ? & [=] & _)].
      simpl in Hmov. rewrite <- (app_nil_r (stock_movements s)) in Hmov at 1.
      apply app_inv_head in Hmov as <-. constructor.
    + pose proof (adjust_stock_quantity _ _ _ _ _ Hrun) as Hquantity.
      apply adjust_stock_inv in Hrun
        as [[[e [=]] _]|(p & m & [= <-] & _ & _ & _ & _ & _ & Hrows)].
      simpl in Hmov. rewrite Hrows in Hmov. apply app_inv_head in Hmov as <-.
      by constructor.
  - intros pk ->. simpl in Hmov.
    destruct (receive_purchase_order env pk s) as [r s'] eqn:Hrun.
    apply receive_purchase_order_inv in Hrun as [[_ ->]|(po & s1 & _ & Hloop & ->)].
    + simpl in Hmov. rewrite <- (app_nil_r (stock_movements s)) in Hmov at 1.
      apply app_inv_head in Hmov as <-. split; [by left|]. constructor.
    + apply receive_items_loop_ledger in Hloop as (new' & Hrows & Hpairs).
      simpl in Hmov. rewrite Hrows in Hmov. apply app_inv_head in Hmov as <-.
      assert (Hquantities :
                StockMovement.quantity <$> new'
                = PurchaseOrderItem.quantity_ordered <$> (purchase_order_items_of s pk).*2).
      { apply (f_equal (fmap snd)) in Hpairs.
        rewrite <- (list_fmap_compose _ snd new') in Hpairs.
        rewrite <- (list_fmap_compose _ snd (purchase_order_items_of s pk).*2) in Hpairs.
        exact Hpairs. }
      split; [by right|]. intros Hpositive.
      assert (Hall : Forall (λ q, 0 < q) (StockMovement.quantity <$> new')).
      { rewrite Hquantities. apply Forall_fmap.
        eapply Forall_impl; [exact Hpositive|]. by intros item Hitem. }
      rewrite Forall_fmap in Hall. eapply Forall_impl; [exact Hall|]. by intros m Hm.
Qed.

Lemma stock_movements_balanced_witness :
  ∃ new_movements,
    stock_movements
      (run Examples.env (ReceivePurchaseOrder 4) Examples.depot_with_order).2
    = new_movements
    ∧ Forall StockMovement.balanced new_movements
    ∧ StockMovement.quantity <$> new_movements = [10]
    ∧ Forall (λ m, 0 < StockMovement.quantity m) new_movements.
Proof.
  destruct (stock_movements_balanced Examples.env (ReceivePurchaseOrder 4)
              Examples.depot_with_order)
    as (new & Hmov & Hbalanced & _ & _ & Hreceive).
  destruct (Hreceive 4 eq_refl) as [_ Hpositive].
  exists new. split; [exact Hmov|]. split; [exact Hbalanced|]. split.
  - assert (Hnew : new = stock_movements
               (run Examples.env (ReceivePurchaseOrder 4) Examples.depot_with_order).2)
      by (symmetry; exact Hmov).
    rewrite Hnew. reflexivity.
  - apply Hpositive. repeat constructor.
Defined.

(** C3, as stated, fails on the signs: adding no bolt and removing no
    bolt each write a balanced row whose quantity is 0, neither positive
    nor negative, and an order of -3 bolts, once received, writes a
    purchase row whose quantity is -3. *)
Lemma movement_sign_counterexample :
  ∃ s1 s2 s3 s4 added removed received,
    run Examples.env (AdjustStock MoreExamples.add_zero) Examples.depot = (None, s1)
    ∧ stock_movements s1 = [added]
    ∧ StockMovement.balanced added
    ∧ ¬ 0 < StockMovement.quantity added
    ∧ run Examples.env (AdjustStock MoreExamples.remove_zero) Examples.depot = (None, s2)
    ∧ stock_movements s2 = [removed]
    ∧ StockMovement.balanced removed
    ∧ ¬ StockMovement.quantity removed < 0
    ∧ run Examples.env (CreatePurchaseOrder MoreExamples.minus_three_bolts)
        Examples.depot_with_supplier = (None, s3)
    ∧ run Examples.env (ReceivePurchaseOrder 0) s3 = (None, s4)
    ∧ stock_movements s4 = [received]
    ∧ StockMovement.movement_type received = StockMovement.Purchase
    ∧ StockMovement.balanced received
    ∧ ¬ 0 < StockMovement.quantity received.
Proof.
  eexists _, _, _, _, _, _, _. split; [reflexivity|]. split; [reflexivity|].
  split; [reflexivity|]. split; [simpl; lia|]. split; [reflexivity|].
  split; [reflexivity|]. split; [reflexivity|]. split; [simpl; lia|].
  split; [reflexivity|]. split; [vm_compute; reflexivity|].
  split; [vm_compute; reflexivity|]. split; [reflexivity|].
  split; [reflexivity|]. simpl. lia.
Qed.

End MovementSigns.
